(** * Sistema Empresarial (app_producao.py): the route handlers and their
      properties.

    The development follows the source file top to bottom: Python values and
    the two builtin conversions the handlers use ([int], [float]); the Flask
    request/response world the views run in; the model classes the views call
    ([MockModel] from the source, and a reference store for the absent
    [models_supabase] module); every view of the application; and the
    properties of the views. *)

From stdpp Require Import gmap strings list fin_maps infinite.
From Stdlib Require Import ZArith Ascii String.

Local Open Scope string_scope.
Local Open Scope Z_scope.
Local Open Scope list_scope.

(** ** Python values *)

Module Py.

(** A Python [float]: an IEEE binary64 value, kept exactly.  [FFin neg m e]
    is [(-1)^neg * m * 2^e] with [m < 2^53] and [-1074 <= e <= 971]; a nonzero
    value has either [2^52 <= m] or [e = -1074]; zero is [m = 0], [e = -1074]
    (so [-0.0] is [FFin true 0 (-1074)]). *)
Inductive pyfloat :=
| FFin (neg : bool) (mant : Z) (exp : Z)
| FInf (neg : bool)
| FNaN.

(** The values found in form fields, JSON rows and keyword arguments. *)
Inductive PyVal :=
| VNone
| VBool (b : bool)
| VInt (z : Z)
| VFloat (f : pyfloat)
| VStr (s : string).

#[global] Instance pyfloat_eq_dec : EqDecision pyfloat.
Proof. solve_decision. Defined.
#[global] Instance PyVal_eq_dec : EqDecision PyVal.
Proof. solve_decision. Defined.

(** A [dict] with string keys (a row of a table, the keyword arguments of a
    model call). *)
Abbreviation Row := (gmap string PyVal).

(** Exceptions, by the place that raises them.  [str(e)] is not rendered:
    messages that interpolate an exception keep the exception itself. *)
Inductive Exn :=
| BadRequestKeyError (key : string)   (* request.form[key], key absent *)
| KeyError (key : string)             (* row[key], key absent *)
| IntLiteralError (s : string)        (* int(s): ValueError *)
| FloatLiteralError (s : string)      (* float(s): ValueError *)
| ValueError (msg : string)           (* raise ValueError(msg) *)
| TypeError (op : string)             (* an operator or builtin on a wrong type *)
| OverflowError                       (* int(inf), float(huge int) *)
| NotFound                            (* werkzeug.exceptions.NotFound *)
| TemplateNotFound (name : string)    (* jinja2 *)
| IOError (msg : string)              (* file.save / os.makedirs *)
| BackendError (kind msg : string).   (* raised inside a model or sync call *)

Inductive Result (A : Type) :=
| Ok (a : A)
| Raise (e : Exn).
Arguments Ok {A} a.
Arguments Raise {A} e.

(** *** Truthiness *)

Definition float_is_zero (f : pyfloat) : bool :=
  match f with FFin _ m _ => m =? 0 | _ => false end.

Definition truthy (v : PyVal) : bool :=
  match v with
  | VNone => false
  | VBool b => b
  | VInt z => negb (z =? 0)
  | VFloat f => negb (float_is_zero f)
  | VStr s => negb (String.eqb s "")
  end.

(** [bool(d)] for a dict, and for the [dict or None] the models return. *)
Definition row_truthy (r : Row) : bool := bool_decide (r ≠ ∅).

Definition opt_row_truthy (o : option Row) : bool :=
  match o with Some r => row_truthy r | None => false end.

(** *** Text

    A [str] is kept as the bytes of its UTF-8 encoding; bytes that are not
    the encoding of any text stand for no [str].  [utf8_decode] reads the
    code points, strictly: no overlong form, no surrogate, nothing above
    U+10FFFF. *)

Definition continuation (b : N) : bool := ((128 <=? b) && (b <=? 191))%N.

Fixpoint utf8_decode (bs : list N) : option (list N) :=
  match bs with
  | [] => Some []
  | b0 :: r0 =>
      if (b0 <? 128)%N then cons b0 <$> utf8_decode r0
      else
        match r0 with
        | [] => None
        | b1 :: r1 =>
            if ((194 <=? b0) && (b0 <=? 223))%N
            then
              if continuation b1
              then cons ((b0 - 192) * 64 + (b1 - 128))%N <$> utf8_decode r1
              else None
            else
              match r1 with
              | [] => None
              | b2 :: r2 =>
                  if ((224 <=? b0) && (b0 <=? 239))%N
                  then
                    if continuation b1 && continuation b2
                       && negb ((b0 =? 224) && (b1 <? 160))%N
                       && negb ((b0 =? 237) && (160 <=? b1))%N
                    then cons ((b0 - 224) * 4096 + (b1 - 128) * 64
                               + (b2 - 128))%N <$> utf8_decode r2
                    else None
                  else
                    match r2 with
                    | [] => None
                    | b3 :: r3 =>
                        if ((240 <=? b0) && (b0 <=? 244))%N
                           && continuation b1 && continuation b2
                           && continuation b3
                           && negb ((b0 =? 240) && (b1 <? 144))%N
                           && negb ((b0 =? 244) && (144 <=? b1))%N
                        then cons ((b0 - 240) * 262144 + (b1 - 128) * 4096
                                   + (b2 - 128) * 64 + (b3 - 128))%N
                               <$> utf8_decode r3
                        else None
                    end
              end
        end
  end.

(** The white space of the Unicode database outside ASCII
    ([Py_UNICODE_ISSPACE]), and the zero of every run of ten decimal digits
    outside ASCII ([Py_UNICODE_TODECIMAL]), as CPython 3.11 has them
    (Unicode 14.0). *)
Definition unicode_spaces : list N :=
  [133; 160; 5760; 8192; 8193; 8194; 8195; 8196; 8197; 8198; 8199; 8200;
   8201; 8202; 8232; 8233; 8239; 8287; 12288]%N.

Definition unicode_zeros : list N :=
  [1632; 1776; 1984; 2406; 2534; 2662; 2790; 2918; 3046; 3174; 3302; 3430;
   3558; 3664; 3792; 3872; 4160; 4240; 6112; 6160; 6470; 6608; 6784; 6800;
   6992; 7088; 7232; 7248; 42528; 43216; 43264; 43472; 43504; 43600; 44016;
   65296; 66720; 68912; 69734; 69872; 69942; 70096; 70384; 70736; 70864;
   71248; 71360; 71472; 71904; 72016; 72784; 73040; 73120; 92768; 92864;
   93008; 120782; 120792; 120802; 120812; 120822; 123200; 123632; 125264;
   130032]%N.

Definition unicode_decimal (cp : N) : option N :=
  (λ zero, cp - zero)%N
    <$> List.find (λ zero, (zero <=? cp) && (cp <=? zero + 9))%N unicode_zeros.

(** What [int] and [float] do to a [str] before they read it
    ([_PyUnicode_TransformDecimalAndSpaceToASCII]): a code point below 127
    stays, any other white space becomes a space, any other decimal digit
    becomes the ASCII digit of its value; any other character makes the
    text no literal at all. *)
Definition to_ascii (cp : N) : option ascii :=
  if (cp <? 127)%N then Some (ascii_of_N cp)
  else if existsb (N.eqb cp) unicode_spaces then Some " "%char
  else (λ d, ascii_of_N (48 + d)) <$> unicode_decimal cp.

Definition ascii_text (s : string) : option (list ascii) :=
  match utf8_decode (N_of_ascii <$> list_ascii_of_string s) with
  | Some cps => mapM to_ascii cps
  | None => None
  end.

(** *** Text scanning shared by [int] and [float] *)

(** The ASCII white space both conversions strip at either end of the
    rewritten text (tab, line feed, vertical tab, form feed, carriage
    return, space). *)
Definition is_space (c : ascii) : bool :=
  let n := N_of_ascii c in
  ((9 <=? n) && (n <=? 13) || (n =? 32))%N.

Fixpoint lstrip (cs : list ascii) : list ascii :=
  match cs with
  | c :: cs' => if is_space c then lstrip cs' else cs
  | [] => []
  end.

Definition strip (cs : list ascii) : list ascii :=
  rev (lstrip (rev (lstrip cs))).

Definition digit_val (c : ascii) : option Z :=
  let n := Z.of_N (N_of_ascii c) in
  if (48 <=? n) && (n <=? 57) then Some (n - 48) else None.

Definition is_digit (c : ascii) : bool :=
  match digit_val c with Some _ => true | None => false end.

(** Reads [digit (["_"] digit)*] as far as it goes: the value read on top of
    [acc], the number of digits read on top of [n], and the rest. An
    underscore is taken only between two digits. *)
Fixpoint digit_run (cs : list ascii) (acc : Z) (n : nat)
  : Z * nat * list ascii :=
  match cs with
  | c :: cs' =>
      match digit_val c with
      | Some d => digit_run cs' (acc * 10 + d) (S n)
      | None =>
          if Ascii.eqb c "_" && negb (Nat.eqb n 0)
          then match cs' with
               | c2 :: _ => if is_digit c2 then digit_run cs' acc n
                            else (acc, n, cs)
               | [] => (acc, n, cs)
               end
          else (acc, n, cs)
      end
  | [] => (acc, n, [])
  end.

(** An optional sign: [true] for ["-"]. *)
Definition sign (cs : list ascii) : bool * list ascii :=
  match cs with
  | c :: cs' =>
      if Ascii.eqb c "-" then (true, cs')
      else if Ascii.eqb c "+" then (false, cs')
      else (false, cs)
  | [] => (false, [])
  end.

(** *** [int(s)] for a string, base 10 *)

(** The interpreter's default cap on the digits of a decimal literal. *)
Definition int_max_str_digits : nat := 4300.

(** [[sign] digit (["_"] digit)*] between white space. *)
Definition int_literal (text : list ascii) : option Z :=
  let '(neg, cs) := sign (strip text) in
  match digit_run cs 0 0 with
  | (v, n, []) =>
      if negb (Nat.eqb n 0) && (n <=? int_max_str_digits)%nat
      then Some (if neg then - v else v)
      else None
  | _ => None
  end.

Definition py_int (s : string) : option Z :=
  match ascii_text s with
  | Some text => int_literal text
  | None => None
  end.

Definition int_of_str (s : string) : Result Z :=
  match py_int s with
  | Some z => Ok z
  | None => Raise (IntLiteralError s)
  end.

(** *** Rounding to binary64 *)

(** The integer nearest to [p / q], ties to even ([0 <= p], [0 < q]). *)
Definition rnd_even (p q : Z) : Z :=
  let d := p / q in
  let r := p mod q in
  if 2 * r <? q then d
  else if q <? 2 * r then d + 1
  else if Z.even d then d else d + 1.

(** [2^e <= p / q], for [0 < p], [0 < q]. *)
Definition pow2_le (e p q : Z) : bool :=
  if 0 <=? e then q * 2 ^ e <=? p else q <=? p * 2 ^ (- e).

(** The binary64 value nearest to [p / q] ([0 <= p], [0 < q]), round half to
    even, with gradual underflow; past the largest finite value it is
    infinite. *)
Definition round_double (neg : bool) (p q : Z) : pyfloat :=
  if p =? 0 then FFin neg 0 (-1074)
  else
    let e0 := Z.log2 p - Z.log2 q in
    let e := if pow2_le e0 p q then e0 else e0 - 1 in
    let k := Z.max (e - 52) (-1074) in
    let m := if 0 <=? k then rnd_even p (q * 2 ^ k)
             else rnd_even (p * 2 ^ (- k)) q in
    let '(m, k) := if m =? 2 ^ 53 then (2 ^ 52, k + 1) else (m, k) in
    if 971 <? k then FInf neg else FFin neg m k.

(** The float denoted by [(-1)^neg * m * 10^e]. *)
Definition float_of_decimal (neg : bool) (m e : Z) : pyfloat :=
  if 0 <=? e then round_double neg (m * 10 ^ e) 1
  else round_double neg m (10 ^ (- e)).

(** [float(n)] for an [int]: the conversion raises where rounding would
    leave the finite range. *)
Definition float_of_int (z : Z) : Result pyfloat :=
  match round_double (z <? 0) (Z.abs z) 1 with
  | FFin s m e => Ok (FFin s m e)
  | _ => Raise OverflowError
  end.

(** [int(f)]: truncation toward zero. *)
Definition int_of_float (f : pyfloat) : Result Z :=
  match f with
  | FFin neg m e =>
      let v := if 0 <=? e then m * 2 ^ e else m / 2 ^ (- e) in
      Ok (if neg then - v else v)
  | FInf _ => Raise OverflowError
  | FNaN => Raise (ValueError "cannot convert float NaN to integer")
  end.

(** [f > 0] and [f >= 0]. *)
Definition float_gt0 (f : pyfloat) : bool :=
  match f with
  | FFin neg m _ => negb neg && (0 <? m)
  | FInf neg => negb neg
  | FNaN => false
  end.

Definition float_ge0 (f : pyfloat) : bool :=
  match f with
  | FFin neg m _ => negb neg || (m =? 0)
  | FInf neg => negb neg
  | FNaN => false
  end.

(** *** [float(s)] for a string *)

Definition lower (c : ascii) : ascii :=
  let n := N_of_ascii c in
  if ((65 <=? n) && (n <=? 90))%N then ascii_of_N (n + 32) else c.

Definition lower_string (cs : list ascii) : string :=
  string_of_list_ascii (map lower cs).

(** The exponent part [("e"|"E") [sign] digits], up to the end of the text;
    an empty text is exponent 0. *)
Definition exponent (cs : list ascii) : option Z :=
  match cs with
  | [] => Some 0
  | c :: cs' =>
      if Ascii.eqb (lower c) "e"
      then let '(neg, ds) := sign cs' in
           match digit_run ds 0 0 with
           | (v, n, []) => if Nat.eqb n 0 then None
                           else Some (if neg then - v else v)
           | _ => None
           end
      else None
  end.

(** [digits ["." [digits]] [exponent]] or ["." digits [exponent]]. *)
Definition decimal (neg : bool) (cs : list ascii) : option pyfloat :=
  let '(ip, n1, r1) := digit_run cs 0 0 in
  let '(m, n2, r2) :=
    match r1 with
    | c :: r1' => if Ascii.eqb c "." then digit_run r1' ip 0 else (ip, 0%nat, r1)
    | [] => (ip, 0%nat, [])
    end in
  if Nat.eqb (n1 + n2) 0 then None
  else match exponent r2 with
       | Some e => Some (float_of_decimal neg m (e - Z.of_nat n2))
       | None => None
       end.

(** [[sign] ("inf" | "infinity" | "nan" | decimal)] between white space. *)
Definition float_literal (text : list ascii) : option pyfloat :=
  let '(neg, cs) := sign (strip text) in
  let w := lower_string cs in
  if String.eqb w "inf" || String.eqb w "infinity" then Some (FInf neg)
  else if String.eqb w "nan" then Some FNaN
  else decimal neg cs.

Definition py_float (s : string) : option pyfloat :=
  match ascii_text s with
  | Some text => float_literal text
  | None => None
  end.

Definition float_of_str (s : string) : Result pyfloat :=
  match py_float s with
  | Some f => Ok f
  | None => Raise (FloatLiteralError s)
  end.

(** *** Operators and conversions on dynamically typed values *)

Definition float_le0 (f : pyfloat) : bool :=
  match f with
  | FFin neg m _ => neg || (m =? 0)
  | FInf neg => neg
  | FNaN => false
  end.

(** [v > 0] *)
Definition val_gt0 (v : PyVal) : Result bool :=
  match v with
  | VInt z => Ok (0 <? z)
  | VBool b => Ok b
  | VFloat f => Ok (float_gt0 f)
  | VNone | VStr _ => Raise (TypeError ">")
  end.

(** [v <= 0] *)
Definition val_le0 (v : PyVal) : Result bool :=
  match v with
  | VInt z => Ok (z <=? 0)
  | VBool b => Ok (negb b)
  | VFloat f => Ok (float_le0 f)
  | VNone | VStr _ => Raise (TypeError "<=")
  end.

(** [int(v)] *)
Definition int_of_val (v : PyVal) : Result Z :=
  match v with
  | VInt z => Ok z
  | VBool b => Ok (if b then 1 else 0)
  | VFloat f => int_of_float f
  | VStr s => int_of_str s
  | VNone => Raise (TypeError "int")
  end.

(** [float(v)] *)
Definition float_of_val (v : PyVal) : Result pyfloat :=
  match v with
  | VInt z => float_of_int z
  | VBool b => float_of_int (if b then 1 else 0)
  | VFloat f => Ok f
  | VStr s => float_of_str s
  | VNone => Raise (TypeError "float")
  end.

(** [d.get(key, default)] *)
Definition dict_get (d : Row) (key : string) (dflt : PyVal) : PyVal :=
  default dflt (d !! key).

End Py.

(** ** The model classes

    The views reach the data store through the classes [Usuario], [Cliente],
    [Categoria], [Produto], [Estoque], [Venda] and [ItemVenda], and the
    synchronisation through four functions; all are imported from modules
    outside this file, with [MockModel] as the fallback when the import
    fails.  The views are written against this interface. *)

Module Models.
Import Py.

Inductive Model := Cliente | Categoria | Produto | Estoque | Venda | ItemVenda.

#[global] Instance Model_eq_dec : EqDecision Model.
Proof. solve_decision. Defined.

(** The object flask_login keeps as [current_user] once a user is loaded. *)
Record User := {
  user_id : string;
  username : string;
  nome : string;
  is_authenticated : bool;
  is_active : bool;
  is_anonymous : bool
}.

(** JSON-serialisable values handed to [jsonify]. *)
#[warnings="-register-all"]
Inductive JVal :=
| JNull
| JBool (b : bool)
| JInt (z : Z)
| JStr (s : string)
| JStrOfExn (e : Exn)        (* str(e) *)
| JRow (r : Row)
| JList (l : list JVal)
| JObj (fields : list (string * JVal)).

(** What the views use of the imported names, over a store state [S].
    Reads leave the state as it is; [update] and [delete] are used for their
    truth value only. *)
Class Store (S : Type) := {
  SUPABASE_AVAILABLE : bool;
  usuario_get_by_id : string → S → Result (option User);
  get_all : Model → S → Result (list Row);
  get_by_id : Model → string → S → Result (option Row);
  create : Model → Row → S → Result (option Row) * S;
  update : Model → string → Row → S → Result bool * S;
  delete : Model → string → S → Result bool * S;
  start_sync : S → Result unit * S;
  stop_sync : S → Result unit * S;
  force_sync : S → Result unit * S;
  get_sync_status : S → Result JVal
}.

(** [MockModel], bound to every model name when the imports fail; the four
    synchronisation names are then [lambda: None]. *)
#[global] Instance MockModel : Store unit := {|
  SUPABASE_AVAILABLE := false;
  usuario_get_by_id _ _ := Ok None;
  get_all _ _ := Ok [];
  get_by_id _ _ _ := Ok None;
  create _ _ s := (Ok None, s);
  update _ _ _ s := (Ok false, s);
  delete _ _ s := (Ok false, s);
  start_sync s := (Ok (), s);
  stop_sync s := (Ok (), s);
  force_sync s := (Ok (), s);
  get_sync_status _ := Ok JNull
|}.

(** A call made on the model classes or the synchronisation functions. *)
Inductive Call :=
| CUsuarioGetById (id : string)
| CGetAll (m : Model)
| CGetById (m : Model) (id : string)
| CCreate (m : Model) (kwargs : Row)
| CUpdate (m : Model) (id : string) (kwargs : Row)
| CDelete (m : Model) (id : string)
| CStartSync
| CStopSync
| CForceSync
| CGetSyncStatus.

End Models.

(** ** Flask and flask_login, as far as the views use them *)

Module Flask.
Import Py Models.

(** The method of a request, as far as routing and the views tell methods
    apart: the views only ask whether it is POST.  [GET] stands for HEAD
    too, which Flask lets through wherever GET is listed and the views
    serve as they serve a GET. *)
Inductive Method := GET | POST.

(** An uploaded file.  [safe_name] is [secure_filename(filename)], computed
    by werkzeug. *)
Record Upload := {
  filename : string;
  safe_name : string;
  content : string
}.

(** A request, with what the handler reads from its environment while it
    serves it: the clock and the next [uuid.uuid4()].  The fields of the
    form are text, kept as UTF-8.  A request here is one whose body Flask
    could read: with [MAX_CONTENT_LENGTH] at 16 MiB, the first access to
    the form of a longer body raises 413 (RequestEntityTooLarge), and such
    bodies are not among the requests. *)
Record Request := {
  method : Method;
  form : gmap string string;
  files : gmap string Upload;
  now : string;
  uuid4 : string
}.

(** An f-string with one interpolated value is kept as its literal part and
    the value. *)
Inductive Text :=
| Lit (s : string)
| FmtExn (s : string) (e : Exn)
| FmtInt (s : string) (z : Z)
| FmtVal (s : string) (v : PyVal).

Record Flash := { message : Text; category : string }.

(** [current_user]: flask_login's anonymous user, or a loaded user. *)
Inductive CurrentUser :=
| Anonymous
| Logged (u : User).

Definition user_is_authenticated (u : CurrentUser) : bool :=
  match u with Anonymous => false | Logged u => is_authenticated u end.

(** [current_user.get_id()] *)
Definition user_get_id (u : CurrentUser) : option string :=
  match u with Anonymous => None | Logged u => Some (user_id u) end.

(** [getattr(current_user, 'username', 'N/A')] *)
Definition user_username (u : CurrentUser) : string :=
  match u with Anonymous => "N/A" | Logged u => username u end.

(** A value passed to a template. *)
Inductive CtxVal :=
| CRows (l : list Row)
| CRow (r : Row).

(** One line of the stock table, as the inline page shows it. *)
Record EstoqueRow := {
  row_imagem : option PyVal;       (* the image shown, if the field is truthy *)
  row_nome : PyVal;
  row_descricao : string;          (* shown cut at 50 characters *)
  row_quantidade : PyVal;
  row_preco : pyfloat;             (* shown with two decimals *)
  row_categoria : PyVal;
  row_status_class : string;
  row_status : string;
  row_id : PyVal
}.

(** The pages the views build inline, with the values they interpolate. *)
Inductive Page :=
| DashboardPage (total_clientes total_produtos total_categorias total_vendas : nat)
| DashboardErrorPage (e : Exn)
| TestePage (timestamp : string)
| DebugPage (supabase : bool) (authenticated : bool) (id : option string)
            (uname : string) (sessao : option string) (timestamp : string)
| LoginFallbackPage
| EstoquePage (total em_estoque sem_estoque : nat) (rows : list EstoqueRow)
| EstoqueErrorPage (e : Exn)
| TesteSessaoPage (sessao : option string) (authenticated : bool)
                  (id : option string) (uname : string).

Inductive Response :=
| Redirect (endpoint : string)
| Template (name : string) (context : list (string * CtxVal))
| Html (page : Page)
| Json (body : JVal) (status : Z)
| PlainText (body : Text) (status : Z)
| SendFile (content : string).


(** What a request can read and change: the data store behind the models,
    the session cookie, the flashed messages, the upload folder, the static
    folder and the templates on disk; [calls] records the calls made on the
    models, in order. *)
Record World (S : Type) := {
  db : S;
  session_user_id : option string;
  flashes : list Flash;
  upload_folder : gmap string string;
  disk_ok : bool;
  static_folder : gmap string string;
  templates : gset string;
  calls : list Call
}.
Arguments db {S}.
Arguments session_user_id {S}.
Arguments flashes {S}.
Arguments upload_folder {S}.
Arguments disk_ok {S}.
Arguments static_folder {S}.
Arguments templates {S}.
Arguments calls {S}.

Section Monad.
Context {S : Type}.

(** A computation inside a view: it returns or raises, and leaves a world. *)
Definition M (A : Type) : Type := World S → Result A * World S.

Definition ret {A} (a : A) : M A := λ w, (Ok a, w).

Definition bind {A B} (m : M A) (k : A → M B) : M B :=
  λ w, match m w with
       | (Ok a, w') => k a w'
       | (Raise e, w') => (Raise e, w')
       end.

Definition raise {A} (e : Exn) : M A := λ w, (Raise e, w).

Definition lift {A} (r : Result A) : M A := λ w, (r, w).

(** [try: body except Exception as e: handler e]; what [body] did to the
    world before raising stays done. *)
Definition try_except {A} (body : M A) (handler : Exn → M A) : M A :=
  λ w, match body w with
       | (Ok a, w') => (Ok a, w')
       | (Raise e, w') => handler e w'
       end.

Definition get_world : M (World S) := λ w, (Ok w, w).

Definition set_db (s : S) (w : World S) : World S :=
  {| db := s; session_user_id := session_user_id w; flashes := flashes w;
     upload_folder := upload_folder w; disk_ok := disk_ok w;
     static_folder := static_folder w; templates := templates w;
     calls := calls w |}.

Definition set_session (u : option string) (w : World S) : World S :=
  {| db := db w; session_user_id := u; flashes := flashes w;
     upload_folder := upload_folder w; disk_ok := disk_ok w;
     static_folder := static_folder w; templates := templates w;
     calls := calls w |}.

Definition add_flash (f : Flash) (w : World S) : World S :=
  {| db := db w; session_user_id := session_user_id w;
     flashes := flashes w ++ [f];
     upload_folder := upload_folder w; disk_ok := disk_ok w;
     static_folder := static_folder w; templates := templates w;
     calls := calls w |}.

Definition add_upload (name data : string) (w : World S) : World S :=
  {| db := db w; session_user_id := session_user_id w; flashes := flashes w;
     upload_folder := <[name := data]> (upload_folder w); disk_ok := disk_ok w;
     static_folder := static_folder w; templates := templates w;
     calls := calls w |}.

Definition add_call (c : Call) (w : World S) : World S :=
  {| db := db w; session_user_id := session_user_id w; flashes := flashes w;
     upload_folder := upload_folder w; disk_ok := disk_ok w;
     static_folder := static_folder w; templates := templates w;
     calls := calls w ++ [c] |}.

(** [flash(message, category)] *)
Definition flash (t : Text) (cat : string) : M unit :=
  λ w, (Ok (), add_flash {| message := t; category := cat |} w).

(** [render_template(name, **context)] *)
Definition render_template (name : string) (ctx : list (string * CtxVal))
  : M Response :=
  λ w, if decide (name ∈ templates w) then (Ok (Template name ctx), w)
       else (Raise (TemplateNotFound name), w).

(** [app.send_static_file(name)] *)
Definition send_static_file (name : string) : M Response :=
  λ w, match static_folder w !! name with
       | Some data => (Ok (SendFile data), w)
       | None => (Raise NotFound, w)
       end.

(** [send_from_directory(app.config['UPLOAD_FOLDER'], name)]: the folder is
    flat, and a name that is not a file in it is [NotFound]. *)
Definition send_from_directory (name : string) : M Response :=
  λ w, match upload_folder w !! name with
       | Some data => (Ok (SendFile data), w)
       | None => (Raise NotFound, w)
       end.

End Monad.

#[global] Instance M_ret {S} : MRet (@M S) := @ret S.
#[global] Instance M_bind {S} : MBind (@M S) := λ A B k m, bind m k.

End Flask.

(** ** The application: app_producao.py *)

Module App.
Import Py Models Flask.

#[global] Instance Result_ret : MRet Result := @Ok.
#[global] Instance Result_bind : MBind Result :=
  λ A B k r, match r with Ok a => k a | Raise e => Raise e end.

(** A list comprehension whose element expression can raise. *)
Fixpoint mapR {A B} (f : A → Result B) (l : list A) : Result (list B) :=
  match l with
  | [] => Ok []
  | a :: l' => b ← f a; bs ← mapR f l'; Ok (b :: bs)
  end.

(** [len([x for x in l if p x])] *)
Fixpoint countR {A} (p : A → Result bool) (l : list A) : Result nat :=
  match l with
  | [] => Ok 0%nat
  | a :: l' => b ← p a; n ← countR p l'; Ok (if (b : bool) then Datatypes.S n else n)
  end.

Definition float_zero : pyfloat := FFin false 0 (-1074).

Definition MockUser (id uname name : string) : User :=
  {| user_id := id; username := uname; nome := name;
     is_authenticated := true; is_active := true; is_anonymous := false |}.

Definition login_message : string :=
  "Por favor, faça login para acessar esta página.".

Section Views.
Context {S : Type} `{!Store S}.

Local Abbreviation M := (@Flask.M S).

(** *** Calls on the models *)

Definition Usuario_get_by_id (id : string) : M (option User) :=
  λ w, (usuario_get_by_id id (db w), add_call (CUsuarioGetById id) w).

Definition Model_get_all (m : Model) : M (list Row) :=
  λ w, (get_all m (db w), add_call (CGetAll m) w).

Definition Model_get_by_id (m : Model) (id : string) : M (option Row) :=
  λ w, (get_by_id m id (db w), add_call (CGetById m id) w).

Definition Model_create (m : Model) (kwargs : Row) : M (option Row) :=
  λ w, let '(r, s) := create m kwargs (db w) in
       (r, add_call (CCreate m kwargs) (set_db s w)).

Definition Model_update (m : Model) (id : string) (kwargs : Row) : M bool :=
  λ w, let '(r, s) := update m id kwargs (db w) in
       (r, add_call (CUpdate m id kwargs) (set_db s w)).

Definition Model_delete (m : Model) (id : string) : M bool :=
  λ w, let '(r, s) := delete m id (db w) in
       (r, add_call (CDelete m id) (set_db s w)).

Definition sync_call (c : Call) (f : S → Result unit * S) : M unit :=
  λ w, let '(r, s) := f (db w) in (r, add_call c (set_db s w)).

Definition sync_status : M JVal :=
  λ w, (get_sync_status (db w), add_call CGetSyncStatus w).

(** *** The request *)

(** [request.form[key]] *)
Definition form_item (req : Request) (key : string) : M string :=
  lift (match form req !! key with
        | Some v => Ok v
        | None => Raise (BadRequestKeyError key)
        end).

(** [not request.form.get(key)] *)
Definition form_missing (req : Request) (key : string) : bool :=
  match form req !! key with
  | Some v => String.eqb v ""
  | None => true
  end.

(** [int(request.form.get(key, 0))] *)
Definition form_int (req : Request) (key : string) : M Z :=
  lift (match form req !! key with
        | Some v => int_of_str v
        | None => Ok 0
        end).

(** [float(request.form.get(key, 0))] *)
Definition form_float (req : Request) (key : string) : M pyfloat :=
  lift (match form req !! key with
        | Some v => float_of_str v
        | None => float_of_int 0
        end).

Definition is_post (req : Request) : bool :=
  match method req with POST => true | GET => false end.

(** *** Users and sessions *)

(** The [user_loader]: the user the store knows under [uid], else the mock
    administrator for the id 'admin', else nobody; no exception gets out. *)
Definition load_user (uid : string) : M (option User) :=
  try_except
    (found ← (if SUPABASE_AVAILABLE
              then try_except (Usuario_get_by_id uid) (λ _, mret None)
              else mret None);
     match found with
     | Some user => mret (Some user)
     | None =>
         if String.eqb uid "admin"
         then mret (Some (MockUser "admin" "admin" "Administrador"))
         else mret None
     end)
    (λ _, mret None).

(** flask_login: the user named by the session, through [load_user]. *)
Definition current_user : M CurrentUser :=
  w ← get_world;
  match session_user_id w with
  | None => mret Anonymous
  | Some uid =>
      u ← load_user uid;
      mret (match u with Some user => Logged user | None => Anonymous end)
  end.

(** flask_login's [unauthorized()] with [login_view = 'login']: it flashes
    [login_message] and redirects to the login page (the [next] parameter of
    the URL is left out). *)
Definition unauthorized : M Response :=
  flash (Lit login_message) "message";;
  mret (Redirect "login").

(** The [@login_required] decorator (its exemption of OPTIONS requests and
    the LOGIN_DISABLED switch concern requests and settings that do not
    occur here). *)
Definition login_required (view : M Response) : M Response :=
  u ← current_user;
  if user_is_authenticated u then view else unauthorized.

(** flask_login's [login_user]: the session takes the id of an active user. *)
Definition login_user (user : User) : M bool :=
  λ w, if is_active user
       then (Ok true, set_session (Some (user_id user)) w)
       else (Ok false, w).

Definition logout_user : M unit :=
  λ w, (Ok (), set_session None w).

(** [authenticate_user]: nothing in its [try] block can raise, so its
    [except] branch, which also returns [None], is never taken. *)
Definition authenticate_user (uname password : string) : option User :=
  if String.eqb uname "admin" && String.eqb password "admin123"
  then Some (MockUser "admin" "admin" "Administrador")
  else None.

(** *** Uploads *)

(** [os.makedirs(upload_folder, exist_ok=True)] and [file.save(filepath)] *)
Definition file_save (name data : string) : M unit :=
  λ w, if disk_ok w then (Ok (), add_upload name data w)
       else (Raise (IOError name), w).

(** [save_image(file)]; [uuid] is the value [uuid.uuid4()] returns. *)
Definition save_image (uuid : string) (file : Upload) : M (option string) :=
  try_except
    (if negb (String.eqb (filename file) "")
     then
       let unique_filename := uuid +:+ "_" +:+ safe_name file in
       file_save unique_filename (content file);;
       mret (Some unique_filename)
     else mret None)
    (λ _, mret None).

(** The image block of [novo_produto]. *)
Definition uploaded_image (req : Request) : M (option string) :=
  match files req !! "imagem" with
  | Some file =>
      if negb (String.eqb (filename file) "")
      then save_image (uuid4 req) file
      else mret None
  | None => mret None
  end.

Definition opt_str (o : option string) : PyVal :=
  match o with Some s => VStr s | None => VNone end.

(** A row found by [get_by_id], passed on to a template. *)
Definition ctx_row (o : option Row) : CtxVal := CRow (default ∅ o).

(** *** Dashboard, test pages and login *)

Definition count_all (m : Model) : M nat :=
  try_except (l ← Model_get_all m; mret (List.length l)) (λ _, mret 0%nat).

Definition index (req : Request) : M Response :=
  try_except
    (u ← current_user;
     if negb (user_is_authenticated u) then mret (Redirect "login")
     else
       total_clientes ← count_all Cliente;
       total_produtos ← count_all Produto;
       total_categorias ← count_all Categoria;
       total_vendas ← count_all Venda;
       mret (Html (DashboardPage total_clientes total_produtos
                                 total_categorias total_vendas)))
    (λ e, mret (Html (DashboardErrorPage e))).

Definition fallback (req : Request) : M Response :=
  send_static_file "fallback.html".

Definition teste (req : Request) : M Response :=
  mret (Html (TestePage (now req))).

Definition debug (req : Request) : M Response :=
  try_except
    (u ← current_user;
     w ← get_world;
     mret (Html (DebugPage SUPABASE_AVAILABLE (user_is_authenticated u)
                           (user_get_id u) (user_username u)
                           (session_user_id w) (now req))))
    (λ e, mret (PlainText (FmtExn "Erro no debug: " e) 200)).

Definition login (req : Request) : M Response :=
  early ← (if is_post req then
             uname ← form_item req "username";
             password ← form_item req "password";
             try_except
               (match authenticate_user uname password with
                | Some user =>
                    login_user user;;
                    flash (Lit "Login realizado com sucesso!") "success";;
                    mret (Some (Redirect "index"))
                | None =>
                    flash (Lit "Usuário ou senha incorretos!") "error";;
                    mret None
                end)
               (λ _, flash (Lit "Erro no login!") "error";; mret None)
           else mret None);
  match early with
  | Some r => mret r
  | None =>
      try_except (render_template "login.html" [])
                 (λ _, mret (Html LoginFallbackPage))
  end.

Definition logout (req : Request) : M Response :=
  login_required
    (logout_user;;
     flash (Lit "Logout realizado com sucesso!") "info";;
     mret (Redirect "login")).

(** *** Clientes *)

Definition clientes (req : Request) : M Response :=
  login_required
    (try_except
       (clientes_list ← Model_get_all Cliente;
        render_template "clientes.html" [("clientes", CRows clientes_list)])
       (λ e, flash (FmtExn "Erro ao carregar clientes: " e) "error";;
             render_template "clientes.html" [("clientes", CRows [])])).

(** The dict built from the customer form, fields read in this order. *)
Definition cliente_data (req : Request) : M Row :=
  nome ← form_item req "nome";
  email ← form_item req "email";
  telefone ← form_item req "telefone";
  cpf_cnpj ← form_item req "cpf_cnpj";
  endereco ← form_item req "endereco";
  cidade ← form_item req "cidade";
  estado ← form_item req "estado";
  cep ← form_item req "cep";
  mret (list_to_map [("nome", VStr nome); ("email", VStr email);
                     ("telefone", VStr telefone); ("cpf_cnpj", VStr cpf_cnpj);
                     ("endereco", VStr endereco); ("cidade", VStr cidade);
                     ("estado", VStr estado); ("cep", VStr cep)] : Row).

Definition novo_cliente (req : Request) : M Response :=
  login_required
    (early ← (if is_post req then
                try_except
                  (data ← cliente_data req;
                   created ← Model_create Cliente data;
                   if opt_row_truthy created
                   then flash (Lit "Cliente criado com sucesso!") "success";;
                        mret (Some (Redirect "clientes"))
                   else flash (Lit "Erro ao criar cliente!") "error";;
                        mret None)
                  (λ e, flash (FmtExn "Erro ao criar cliente: " e) "error";;
                        mret None)
              else mret None);
     match early with
     | Some r => mret r
     | None => render_template "cliente_form.html" []
     end).

Definition editar_cliente (id : string) (req : Request) : M Response :=
  login_required
    (try_except
       (cliente ← Model_get_by_id Cliente id;
        if negb (opt_row_truthy cliente)
        then flash (Lit "Cliente não encontrado!") "error";;
             mret (Redirect "clientes")
        else
          early ← (if is_post req then
                     data ← cliente_data req;
                     ok ← Model_update Cliente id data;
                     if (ok : bool)
                     then flash (Lit "Cliente atualizado com sucesso!") "success";;
                          mret (Some (Redirect "clientes"))
                     else flash (Lit "Erro ao atualizar cliente!") "error";;
                          mret None
                   else mret None);
          match early with
          | Some r => mret r
          | None =>
              render_template "cliente_form.html" [("cliente", ctx_row cliente)]
          end)
       (λ e, flash (FmtExn "Erro ao editar cliente: " e) "error";;
             mret (Redirect "clientes"))).

Definition excluir_cliente (id : string) (req : Request) : M Response :=
  login_required
    (try_except
       (ok ← Model_delete Cliente id;
        if (ok : bool) then flash (Lit "Cliente excluído com sucesso!") "success"
        else flash (Lit "Erro ao excluir cliente!") "error")
       (λ e, flash (FmtExn "Erro ao excluir cliente: " e) "error");;
     mret (Redirect "clientes")).

(** *** Categorias *)

Definition categorias (req : Request) : M Response :=
  login_required
    (try_except
       (categorias_list ← Model_get_all Categoria;
        render_template "categorias.html" [("categorias", CRows categorias_list)])
       (λ e, flash (FmtExn "Erro ao carregar categorias: " e) "error";;
             render_template "categorias.html" [("categorias", CRows [])])).

Definition categoria_data (req : Request) : M Row :=
  nome ← form_item req "nome";
  descricao ← form_item req "descricao";
  cor ← form_item req "cor";
  icone ← form_item req "icone";
  mret (list_to_map [("nome", VStr nome); ("descricao", VStr descricao);
                     ("cor", VStr cor); ("icone", VStr icone)] : Row).

Definition nova_categoria (req : Request) : M Response :=
  login_required
    (early ← (if is_post req then
                try_except
                  (data ← categoria_data req;
                   created ← Model_create Categoria data;
                   if opt_row_truthy created
                   then flash (Lit "Categoria criada com sucesso!") "success";;
                        mret (Some (Redirect "categorias"))
                   else flash (Lit "Erro ao criar categoria!") "error";;
                        mret None)
                  (λ e, flash (FmtExn "Erro ao criar categoria: " e) "error";;
                        mret None)
              else mret None);
     match early with
     | Some r => mret r
     | None => render_template "categoria_form.html" []
     end).

Definition editar_categoria (id : string) (req : Request) : M Response :=
  login_required
    (try_except
       (categoria ← Model_get_by_id Categoria id;
        if negb (opt_row_truthy categoria)
        then flash (Lit "Categoria não encontrada!") "error";;
             mret (Redirect "categorias")
        else
          early ← (if is_post req then
                     data ← categoria_data req;
                     ok ← Model_update Categoria id data;
                     if (ok : bool)
                     then flash (Lit "Categoria atualizada com sucesso!") "success";;
                          mret (Some (Redirect "categorias"))
                     else flash (Lit "Erro ao atualizar categoria!") "error";;
                          mret None
                   else mret None);
          match early with
          | Some r => mret r
          | None =>
              render_template "categoria_form.html"
                              [("categoria", ctx_row categoria)]
          end)
       (λ e, flash (FmtExn "Erro ao editar categoria: " e) "error";;
             mret (Redirect "categorias"))).

Definition excluir_categoria (id : string) (req : Request) : M Response :=
  login_required
    (try_except
       (ok ← Model_delete Categoria id;
        if (ok : bool) then flash (Lit "Categoria excluída com sucesso!") "success"
        else flash (Lit "Erro ao excluir categoria!") "error")
       (λ e, flash (FmtExn "Erro ao excluir categoria: " e) "error");;
     mret (Redirect "categorias")).

(** *** Produtos *)

Definition produtos (req : Request) : M Response :=
  login_required
    (try_except
       (produtos_list ← Model_get_all Produto;
        categorias_list ← Model_get_all Categoria;
        render_template "produtos.html"
                        [("produtos", CRows produtos_list);
                         ("categorias", CRows categorias_list)])
       (λ e, flash (FmtExn "Erro ao carregar produtos: " e) "error";;
             render_template "produtos.html"
                             [("produtos", CRows []); ("categorias", CRows [])])).

(** The form of both product views, with the categories when they load. *)
Definition produto_form (ctx : list (string * CtxVal)) : M Response :=
  try_except
    (categorias_list ← Model_get_all Categoria;
     render_template "produto_form.html"
                     (ctx ++ [("categorias", CRows categorias_list)]))
    (λ _, render_template "produto_form.html" (ctx ++ [("categorias", CRows [])])).

Definition novo_produto (req : Request) : M Response :=
  login_required
    (early ← (if is_post req then
                try_except
                  (imagem_filename ← uploaded_image req;
                   nome ← form_item req "nome";
                   descricao ← form_item req "descricao";
                   preco_s ← form_item req "preco";
                   preco ← lift (float_of_str preco_s);
                   quantidade ← form_int req "quantidade";
                   categoria_id ← form_item req "categoria_id";
                   codigo_barras ← form_item req "codigo_barras";
                   let produto_data : Row :=
                     list_to_map [("nome", VStr nome);
                                  ("descricao", VStr descricao);
                                  ("preco", VFloat preco);
                                  ("quantidade", VInt quantidade);
                                  ("categoria_id", VStr categoria_id);
                                  ("codigo_barras", VStr codigo_barras);
                                  ("imagem", opt_str imagem_filename)] in
                   created ← Model_create Produto produto_data;
                   if opt_row_truthy created
                   then flash (Lit "Produto criado com sucesso!") "success";;
                        mret (Some (Redirect "produtos"))
                   else flash (Lit "Erro ao criar produto!") "error";;
                        mret None)
                  (λ e, flash (FmtExn "Erro ao criar produto: " e) "error";;
                        mret None)
              else mret None);
     match early with
     | Some r => mret r
     | None => produto_form []
     end).

(** The image block of [editar_produto]: the stored image is kept unless a
    new one was saved. *)
Definition edited_image (req : Request) (produto : Row) : M PyVal :=
  let imagem_filename := dict_get produto "imagem" VNone in
  match files req !! "imagem" with
  | Some file =>
      if negb (String.eqb (filename file) "")
      then
        nova_imagem ← save_image (uuid4 req) file;
        match nova_imagem with
        | Some n => if String.eqb n "" then mret imagem_filename
                    else mret (VStr n)
        | None => mret imagem_filename
        end
      else mret imagem_filename
  | None => mret imagem_filename
  end.

Definition editar_produto (id : string) (req : Request) : M Response :=
  login_required
    (try_except
       (produto ← Model_get_by_id Produto id;
        if negb (opt_row_truthy produto)
        then flash (Lit "Produto não encontrado!") "error";;
             mret (Redirect "produtos")
        else
          early ← (if is_post req then
                     try_except
                       (imagem_filename ← edited_image req (default ∅ produto);
                        (if form_missing req "nome"
                         then flash (Lit "Nome do produto é obrigatório!") "error";;
                              raise (ValueError "Nome não informado")
                         else mret ());;
                        (if form_missing req "categoria_id"
                         then flash (Lit "Categoria é obrigatória!") "error";;
                              raise (ValueError "Categoria não informada")
                         else mret ());;
                        nome ← form_item req "nome";
                        let descricao := default "" (form req !! "descricao") in
                        preco ← form_float req "preco";
                        quantidade ← form_int req "quantidade";
                        categoria_id ← form_item req "categoria_id";
                        let codigo_barras :=
                          default "" (form req !! "codigo_barras") in
                        let produto_data : Row :=
                          list_to_map [("nome", VStr nome);
                                       ("descricao", VStr descricao);
                                       ("preco", VFloat preco);
                                       ("quantidade", VInt quantidade);
                                       ("categoria_id", VStr categoria_id);
                                       ("codigo_barras", VStr codigo_barras);
                                       ("imagem", imagem_filename)] in
                        resultado ← Model_update Produto id produto_data;
                        if (resultado : bool)
                        then flash (Lit "Produto atualizado com sucesso!") "success";;
                             mret (Some (Redirect "produtos"))
                        else flash (Lit "Erro ao atualizar produto! Verifique os dados e tente novamente.") "error";;
                             mret None)
                       (λ e, flash (FmtExn "Erro ao processar dados: " e) "error";;
                             mret None)
                   else mret None);
          match early with
          | Some r => mret r
          | None => produto_form [("produto", ctx_row produto)]
          end)
       (λ e, flash (FmtExn "Erro ao editar produto: " e) "error";;
             mret (Redirect "produtos"))).

Definition excluir_produto (id : string) (req : Request) : M Response :=
  login_required
    (try_except
       (ok ← Model_delete Produto id;
        if (ok : bool) then flash (Lit "Produto excluído com sucesso!") "success"
        else flash (Lit "Erro ao excluir produto!") "error")
       (λ e, flash (FmtExn "Erro ao excluir produto: " e) "error");;
     mret (Redirect "produtos")).

(** *** Estoque *)

(** The dict the stock view builds for one product. *)
Definition estoque_item (produto : Row) : Result Row :=
  em_estoque ← val_gt0 (dict_get produto "quantidade" (VInt 0));
  Ok (list_to_map
        [("id", dict_get produto "id" (VStr ""));
         ("nome", dict_get produto "nome" (VStr "Produto"));
         ("descricao", dict_get produto "descricao" (VStr ""));
         ("quantidade", dict_get produto "quantidade" (VInt 0));
         ("preco", dict_get produto "preco" (VFloat float_zero));
         ("categoria", dict_get produto "categoria" (VStr "Sem categoria"));
         ("imagem", dict_get produto "imagem" (VStr ""));
         ("codigo_barras", dict_get produto "codigo_barras" (VStr ""));
         ("status", VStr (if (em_estoque : bool) then "Em estoque"
                          else "Sem estoque"))] : Row).

(** [text[:50]] and [len(text)], for which [text] has to be a string. *)
Definition as_text (v : PyVal) : Result string :=
  match v with
  | VStr s => Ok s
  | _ => Raise (TypeError "subscript")
  end.

(** One line of the table, cells evaluated left to right. *)
Definition estoque_row (item : Row) : Result EstoqueRow :=
  let imagem := dict_get item "imagem" VNone in
  descricao ← as_text (dict_get item "descricao" (VStr "Sem descrição"));
  preco ← float_of_val (dict_get item "preco" (VInt 0));
  quantidade ← int_of_val (dict_get item "quantidade" (VInt 0));
  Ok {| row_imagem := if truthy imagem then Some imagem else None;
        row_nome := dict_get item "nome" (VStr "N/A");
        row_descricao := descricao;
        row_quantidade := dict_get item "quantidade" (VInt 0);
        row_preco := preco;
        row_categoria := dict_get item "categoria" (VStr "Sem categoria");
        row_status_class := if 0 <? (quantidade : Z) then "status-em-estoque"
                            else "status-sem-estoque";
        row_status := if 0 <? quantidade then "✅ Em estoque"
                      else "❌ Sem estoque";
        row_id := dict_get item "id" VNone |}.

(** The inline page: the three counters, then the table. *)
Definition estoque_page (estoque_list : list Row) : Result Response :=
  em_estoque ← countR (λ item, val_gt0 (dict_get item "quantidade" (VInt 0)))
                      estoque_list;
  sem_estoque ← countR (λ item, val_le0 (dict_get item "quantidade" (VInt 0)))
                       estoque_list;
  rows ← mapR estoque_row estoque_list;
  Ok (Html (EstoquePage (List.length estoque_list) em_estoque sem_estoque rows)).

Definition estoque (req : Request) : M Response :=
  login_required
    (try_except
       (estoque_list ← try_except
                         (produtos_list ← Model_get_all Produto;
                          lift (mapR estoque_item produtos_list))
                         (λ _, mret []);
        lift (estoque_page estoque_list))
       (λ e, mret (Html (EstoqueErrorPage e)))).

Definition atualizar_estoque (id : string) (req : Request) : M Response :=
  login_required
    (try_except
       (quantidade ← form_int req "quantidade";
        produto ← Model_get_by_id Produto id;
        if negb (opt_row_truthy produto)
        then flash (Lit "Produto não encontrado!") "error";;
             mret (Redirect "estoque")
        else
          let produto_data : Row := {[ "quantidade" := VInt quantidade ]} in
          ok ← Model_update Produto id produto_data;
          (if (ok : bool)
           then flash (FmtInt "Estoque atualizado com sucesso! Nova quantidade: "
                              quantidade) "success"
           else flash (Lit "Erro ao atualizar estoque!") "error");;
          mret (Redirect "estoque"))
       (λ e, flash (FmtExn "Erro ao atualizar estoque: " e) "error";;
             mret (Redirect "estoque"))).

(** *** Vendas *)

Definition vendas (req : Request) : M Response :=
  login_required
    (try_except
       (vendas_list ← Model_get_all Venda;
        render_template "vendas.html" [("vendas", CRows vendas_list)])
       (λ e, flash (FmtExn "Erro ao carregar vendas: " e) "error";;
             render_template "vendas.html" [("vendas", CRows [])])).

Definition nova_venda (req : Request) : M Response :=
  login_required
    (early ← (if is_post req then
                try_except
                  (cliente_id ← form_item req "cliente_id";
                   total_s ← form_item req "total";
                   total ← lift (float_of_str total_s);
                   let venda_data : Row :=
                     list_to_map [("cliente_id", VStr cliente_id);
                                  ("data_venda", VStr (now req));
                                  ("total", VFloat total);
                                  ("status", VStr "concluida")] in
                   created ← Model_create Venda venda_data;
                   if opt_row_truthy created
                   then flash (Lit "Venda criada com sucesso!") "success";;
                        mret (Some (Redirect "vendas"))
                   else flash (Lit "Erro ao criar venda!") "error";;
                        mret None)
                  (λ e, flash (FmtExn "Erro ao criar venda: " e) "error";;
                        mret None)
              else mret None);
     match early with
     | Some r => mret r
     | None =>
         try_except
           (clientes_list ← Model_get_all Cliente;
            produtos_list ← Model_get_all Produto;
            render_template "venda_form.html"
                            [("clientes", CRows clientes_list);
                             ("produtos", CRows produtos_list)])
           (λ _, render_template "venda_form.html"
                                 [("clientes", CRows []); ("produtos", CRows [])])
     end).

(** *** Relatórios *)

Definition relatorios (req : Request) : M Response :=
  login_required (render_template "relatorios.html" []).

Definition erro_500 (e : Exn) : Response :=
  Json (JObj [("erro", JStrOfExn e)]) 500.

Definition api_relatorio_vendas (req : Request) : M Response :=
  login_required
    (try_except
       (vendas_list ← Model_get_all Venda;
        mret (Json (JList (JRow <$> vendas_list)) 200))
       (λ e, mret (erro_500 e))).

Definition api_relatorio_estoque (req : Request) : M Response :=
  login_required
    (try_except
       (estoque_list ← Model_get_all Estoque;
        mret (Json (JList (JRow <$> estoque_list)) 200))
       (λ e, mret (erro_500 e))).

(** *** Sincronização *)

Definition start_sync_route (req : Request) : M Response :=
  login_required
    (try_except
       (sync_call CStartSync start_sync;;
        flash (Lit "Sincronização automática iniciada!") "success")
       (λ e, flash (FmtExn "Erro ao iniciar sincronização: " e) "error");;
     mret (Redirect "index")).

Definition stop_sync_route (req : Request) : M Response :=
  login_required
    (try_except
       (sync_call CStopSync stop_sync;;
        flash (Lit "Sincronização automática parada!") "info")
       (λ e, flash (FmtExn "Erro ao parar sincronização: " e) "error");;
     mret (Redirect "index")).

Definition force_sync_route (req : Request) : M Response :=
  login_required
    (try_except
       (sync_call CForceSync force_sync;;
        flash (Lit "Sincronização forçada executada!") "success")
       (λ e, flash (FmtExn "Erro na sincronização forçada: " e) "error");;
     mret (Redirect "index")).

Definition sync_status_route (req : Request) : M Response :=
  login_required
    (try_except
       (status ← sync_status; mret (Json status 200))
       (λ e, mret (erro_500 e))).

(** *** PWA, test and upload routes *)

Definition manifest (req : Request) : M Response :=
  send_static_file "manifest.json".

Definition service_worker (req : Request) : M Response :=
  send_static_file "sw.js".

Definition cliente_teste : Row :=
  list_to_map [("nome", VStr "Cliente Teste Web");
               ("email", VStr "teste.web@teste.com");
               ("telefone", VStr "(11) 77777-7777");
               ("cpf_cnpj", VStr "111.222.333-44");
               ("endereco", VStr "Rua Teste Web, 999");
               ("cidade", VStr "São Paulo");
               ("estado", VStr "SP");
               ("cep", VStr "01234-999")].

(** [row[key]] *)
Definition row_item (r : Row) (key : string) : Result PyVal :=
  match r !! key with
  | Some v => Ok v
  | None => Raise (KeyError key)
  end.

Definition opt_json (o : option Row) : JVal :=
  match o with Some r => JRow r | None => JNull end.

Definition teste_clientes (req : Request) : M Response :=
  login_required
    (try_except
       (clientes_antes ← Model_get_all Cliente;
        resultado ← Model_create Cliente cliente_teste;
        (if opt_row_truthy resultado
         then id ← lift (row_item (default ∅ resultado) "id");
              flash (FmtVal "Cliente de teste criado! ID: " id) "success"
         else flash (Lit "Falha ao criar cliente de teste!") "error");;
        clientes_apos ← Model_get_all Cliente;
        mret (Json (JObj [("antes", JInt (Z.of_nat (List.length clientes_antes)));
                          ("depois", JInt (Z.of_nat (List.length clientes_apos)));
                          ("cliente_teste", opt_json resultado);
                          ("todos_clientes", JList (JRow <$> clientes_apos))])
                   200))
       (λ e, mret (erro_500 e))).

Definition api_teste (req : Request) : M Response :=
  mret (Json (JObj [("status", JStr "success");
                    ("message", JStr "API funcionando!");
                    ("timestamp", JStr (now req));
                    ("flask_version", JStr "2.3.0+");
                    ("supabase_available", JBool SUPABASE_AVAILABLE);
                    ("routes", JList (JStr <$> ["/"; "/login"; "/teste";
                                                "/debug"; "/fallback";
                                                "/api/teste"]))])
             200).

Definition api_status (req : Request) : M Response :=
  try_except
    (mret (Json (JObj [("status", JStr "online");
                       ("app", JStr "Sistema Empresarial");
                       ("version", JStr "1.0.0");
                       ("environment", JStr "production");
                       ("timestamp", JStr (now req));
                       ("supabase", JStr (if SUPABASE_AVAILABLE then "available"
                                          else "unavailable"));
                       ("flask_login", JStr "configured");
                       ("gunicorn", JStr "ready")])
                200))
    (λ e, mret (Json (JObj [("status", JStr "error");
                            ("error", JStrOfExn e);
                            ("timestamp", JStr (now req))])
                     500)).

Definition uploaded_file (name : string) (req : Request) : M Response :=
  try_except
    (send_from_directory name)
    (λ _, mret (PlainText (Lit "Arquivo não encontrado") 404)).

Definition teste_sessao (req : Request) : M Response :=
  try_except
    (u ← current_user;
     w ← get_world;
     mret (Html (TesteSessaoPage (session_user_id w) (user_is_authenticated u)
                                 (user_get_id u) (user_username u))))
    (λ e, mret (PlainText (FmtExn "Erro no teste de sessão: " e) 200)).

(** *** The URL map

    A route names the view and the arguments taken from the URL.  What Flask
    answers before any view runs (404 for an unknown URL, 405 for a method
    the rule does not list) is not part of the views: [methods], below,
    has the methods each route lists, and [accepts] says whether a request
    reaches the view. *)

Inductive Route :=
| r_index | r_fallback | r_teste | r_debug | r_login | r_logout
| r_clientes | r_novo_cliente
| r_editar_cliente (id : string) | r_excluir_cliente (id : string)
| r_categorias | r_nova_categoria
| r_editar_categoria (id : string) | r_excluir_categoria (id : string)
| r_produtos | r_novo_produto
| r_editar_produto (id : string) | r_excluir_produto (id : string)
| r_estoque | r_atualizar_estoque (id : string)
| r_vendas | r_nova_venda
| r_relatorios | r_api_relatorio_vendas | r_api_relatorio_estoque
| r_start_sync | r_stop_sync | r_force_sync | r_sync_status
| r_manifest | r_service_worker
| r_teste_clientes | r_api_teste | r_api_status
| r_uploaded_file (name : string)
| r_teste_sessao.

Definition view (r : Route) : Request → M Response :=
  match r with
  | r_index => index
  | r_fallback => fallback
  | r_teste => teste
  | r_debug => debug
  | r_login => login
  | r_logout => logout
  | r_clientes => clientes
  | r_novo_cliente => novo_cliente
  | r_editar_cliente id => editar_cliente id
  | r_excluir_cliente id => excluir_cliente id
  | r_categorias => categorias
  | r_nova_categoria => nova_categoria
  | r_editar_categoria id => editar_categoria id
  | r_excluir_categoria id => excluir_categoria id
  | r_produtos => produtos
  | r_novo_produto => novo_produto
  | r_editar_produto id => editar_produto id
  | r_excluir_produto id => excluir_produto id
  | r_estoque => estoque
  | r_atualizar_estoque id => atualizar_estoque id
  | r_vendas => vendas
  | r_nova_venda => nova_venda
  | r_relatorios => relatorios
  | r_api_relatorio_vendas => api_relatorio_vendas
  | r_api_relatorio_estoque => api_relatorio_estoque
  | r_start_sync => start_sync_route
  | r_stop_sync => stop_sync_route
  | r_force_sync => force_sync_route
  | r_sync_status => sync_status_route
  | r_manifest => manifest
  | r_service_worker => service_worker
  | r_teste_clientes => teste_clientes
  | r_api_teste => api_teste
  | r_api_status => api_status
  | r_uploaded_file name => uploaded_file name
  | r_teste_sessao => teste_sessao
  end.

(** The views behind [@login_required], and the dashboard, which checks
    [current_user] itself. *)
Definition gated (r : Route) : bool :=
  match r with
  | r_fallback | r_teste | r_debug | r_login | r_manifest | r_service_worker
  | r_api_teste | r_api_status | r_uploaded_file _ | r_teste_sessao => false
  | _ => true
  end.


(** The methods each route accepts, as its [@app.route] lists them (GET
    alone where it lists none).  A request by any other method is answered
    by Flask with 405, and the view is not run. *)
Definition methods (r : Route) : list Method :=
  match r with
  | r_login | r_novo_cliente | r_editar_cliente _ | r_nova_categoria
  | r_editar_categoria _ | r_novo_produto | r_editar_produto _
  | r_nova_venda => [GET; POST]
  | r_atualizar_estoque _ => [POST]
  | _ => [GET]
  end.

Definition method_eqb (a b : Method) : bool :=
  match a, b with
  | GET, GET | POST, POST => true
  | _, _ => false
  end.

(** The request reaches the view of the route. *)
Definition accepts (r : Route) (req : Request) : bool :=
  existsb (method_eqb (method req)) (methods r).

End Views.
End App.

(** ** A reference store *)

Module RefStore.
Import Py Models.

(** The tables behind the model classes, rows keyed by id. *)
Record DB := {
  usuarios : gmap string User;
  clientes : gmap string Row;
  categorias : gmap string Row;
  produtos : gmap string Row;
  vendas : gmap string Row;
  itens_venda : gmap string Row;
  sync_running : bool
}.

(** Stock is the quantity of the product: [Estoque] is the product table. *)
Definition table (m : Model) (d : DB) : gmap string Row :=
  match m with
  | Cliente => clientes d
  | Categoria => categorias d
  | Produto | Estoque => produtos d
  | Venda => vendas d
  | ItemVenda => itens_venda d
  end.

Definition set_table (m : Model) (t : gmap string Row) (d : DB) : DB :=
  match m with
  | Cliente =>
      {| usuarios := usuarios d; clientes := t; categorias := categorias d;
         produtos := produtos d; vendas := vendas d;
         itens_venda := itens_venda d; sync_running := sync_running d |}
  | Categoria =>
      {| usuarios := usuarios d; clientes := clientes d; categorias := t;
         produtos := produtos d; vendas := vendas d;
         itens_venda := itens_venda d; sync_running := sync_running d |}
  | Produto | Estoque =>
      {| usuarios := usuarios d; clientes := clientes d;
         categorias := categorias d; produtos := t; vendas := vendas d;
         itens_venda := itens_venda d; sync_running := sync_running d |}
  | Venda =>
      {| usuarios := usuarios d; clientes := clientes d;
         categorias := categorias d; produtos := produtos d; vendas := t;
         itens_venda := itens_venda d; sync_running := sync_running d |}
  | ItemVenda =>
      {| usuarios := usuarios d; clientes := clientes d;
         categorias := categorias d; produtos := produtos d;
         vendas := vendas d; itens_venda := t;
         sync_running := sync_running d |}
  end.

Definition set_running (b : bool) (d : DB) : DB :=
  {| usuarios := usuarios d; clientes := clientes d;
     categorias := categorias d; produtos := produtos d; vendas := vendas d;
     itens_venda := itens_venda d; sync_running := b |}.

(** Some row of [t] holds [id] in its field [key]. *)
Definition refers (t : gmap string Row) (key id : string) : bool :=
  bool_decide (Exists (λ r : Row, r !! key = Some (VStr id)) (map_to_list t).*2).

(** An entity another entity points to: a category by a product, a customer
    by a sale, a product by a sale item. *)
Definition referenced (m : Model) (id : string) (d : DB) : bool :=
  match m with
  | Categoria => refers (produtos d) "categoria_id" id
  | Cliente => refers (vendas d) "cliente_id" id
  | Produto | Estoque => refers (itens_venda d) "produto_id" id
  | Venda | ItemVenda => false
  end.

(** The items a sale owns go with it. *)
Definition drop_owned (m : Model) (id : string) (d : DB) : DB :=
  match m with
  | Venda =>
      set_table ItemVenda
        (filter (λ kv, kv.2 !! "venda_id" ≠ Some (VStr id)) (itens_venda d)) d
  | _ => d
  end.

Definition ConflictError (id : string) : Exn := BackendError "ConflictError" id.

Definition ValidationError (field : string) : Exn :=
  BackendError "ValidationError" field.

(** Modelled from the spec: a non-negative decimal, as the data model has
    the price of a product and the total of a sale; it is an integer or a
    finite float that is not below zero. *)
Definition nonneg_number (v : PyVal) : bool :=
  match v with
  | VInt z => 0 <=? z
  | VFloat (FFin neg m _) => negb neg || (m =? 0)
  | _ => false
  end.

(** Modelled from the spec: a quantity, an integer that is zero or
    positive. *)
Definition nonneg_integer (v : PyVal) : bool :=
  match v with
  | VInt z => 0 <=? z
  | _ => false
  end.

(** Modelled from the spec: the fields the data model bounds, under the
    keys the views give them, each with its check. *)
Definition bounded_fields (m : Model) : list (string * (PyVal → bool)) :=
  match m with
  | Produto | Estoque =>
      [("preco", nonneg_number); ("quantidade", nonneg_integer)]
  | Venda => [("total", nonneg_number)]
  | _ => []
  end.

Definition out_of_bounds (fields : Row) (check : string * (PyVal → bool))
  : bool :=
  match fields !! check.1 with
  | Some v => negb (check.2 v)
  | None => false
  end.

(** Modelled from the spec: the validation of [create] and [update], which
    names the first bounded field given a value out of its bounds. *)
Definition invalid_field (m : Model) (fields : Row) : option string :=
  fst <$> List.find (out_of_bounds fields) (bounded_fields m).

(** Modelled from the spec: [create] of the absent [models_supabase]
    classes; it fails with [ValidationError] on a malformed field and
    otherwise assigns a new unique id and keeps the entity as given. *)
Definition ref_create (m : Model) (kwargs : Row) (d : DB)
  : Result (option Row) * DB :=
  match invalid_field m kwargs with
  | Some field => (Raise (ValidationError field), d)
  | None =>
      let id : string := fresh (dom (table m d)) in
      let row : Row := <["id" := VStr id]> kwargs in
      (Ok (Some row), set_table m (<[id := row]> (table m d)) d)
  end.

(** Modelled from the spec: [update] of the absent [models_supabase]
    classes; it fails with [ValidationError] on a malformed field of the
    patch, as setting a quantity below zero, and otherwise applies the
    partial patch: fields not in the patch are left untouched, the id
    stays, and an unknown id is answered with false. *)
Definition ref_update (m : Model) (id : string) (patch : Row) (d : DB)
  : Result bool * DB :=
  match invalid_field m patch with
  | Some field => (Raise (ValidationError field), d)
  | None =>
      match table m d !! id with
      | Some row =>
          (Ok true,
           set_table m (<[id := base.delete "id" patch ∪ row]> (table m d)) d)
      | None => (Ok false, d)
      end
  end.

(** Modelled from the spec: [delete] of the absent [models_supabase]
    classes; deleting an entity that another refers to is refused with
    [ConflictError] and removes nothing. *)
Definition ref_delete (m : Model) (id : string) (d : DB) : Result bool * DB :=
  match table m d !! id with
  | Some _ =>
      if referenced m id d then (Raise (ConflictError id), d)
      else (Ok true, drop_owned m id (set_table m (base.delete id (table m d)) d))
  | None => (Ok false, d)
  end.

(** Modelled from the spec: the module [models_supabase] (the classes
    [Cliente], [Categoria], [Produto], [Estoque], [Venda], [ItemVenda] and
    [Usuario]) and the functions of [sync_supabase] are imported by the
    source file but are not part of it.  This store follows the Entity Store
    contract: [create] assigns a new unique id and keeps the entity;
    [getById] returns the entity or nothing; [getAll] returns every entity;
    [update] applies a partial patch, fields not in the patch are left
    untouched, and the id is never changed; [delete] of an entity referenced
    by another is refused with [ConflictError], nothing being removed, and
    the items of a deleted sale are removed with it.  [create] and [update]
    fail with [ValidationError], changing nothing, when a field the data
    model bounds is out of its bounds: a price or a total that is not a
    non-negative number, a quantity that is not a non-negative integer.
    (Which further fields are required, and what a well-formed e-mail is,
    the spec leaves open; no such check is modelled.)  Every successful
    mutation is visible to the next read.  Of the synchronisation only the
    running flag is kept. *)
#[global] Instance RefStore : Store DB := {|
  SUPABASE_AVAILABLE := true;
  usuario_get_by_id id d := Ok (usuarios d !! id);
  get_all m d := Ok (map_to_list (table m d)).*2;
  get_by_id m id d := Ok (table m d !! id);
  create := ref_create;
  update := ref_update;
  delete := ref_delete;
  start_sync d := (Ok (), set_running true d);
  stop_sync d := (Ok (), set_running false d);
  force_sync d := (Ok (), d);
  get_sync_status d := Ok (JObj [("running", JBool (sync_running d))])
|}.

End RefStore.

(** ** What the properties are stated with *)

Module Obs.
Import Py Models Flask App.

Section Obs.
Context {S : Type} `{!Store S}.

(** The user flask_login finds for the request, and the world once it has
    looked the session up. *)
Definition identity (w : World S) : CurrentUser :=
  match (current_user w).1 with Ok u => u | Raise _ => Anonymous end.

Definition loaded (w : World S) : World S := (current_user w).2.

Definition authenticated (w : World S) : bool :=
  user_is_authenticated (identity w).

(** The calls [current_user] makes: the lookup of the session's user. *)
Definition load_calls (w : World S) : list Call :=
  match session_user_id w with
  | Some uid => if SUPABASE_AVAILABLE then [CUsuarioGetById uid] else []
  | None => []
  end.

(** The calls that read or change customers, categories, products, stock or
    sales, or drive the synchronisation: all but the user lookup. *)
Definition entity_call (c : Call) : bool :=
  match c with CUsuarioGetById _ => false | _ => true end.

Definition response (x : Result Response * World S) : Result Response := x.1.
Definition world_after (x : Result Response * World S) : World S := x.2.


(** The stored quantity of a product row, as the stock view reads it:
    [produto.get('quantidade', 0)]. *)
Definition stock_quantity (p : Row) : Z :=
  match dict_get p "quantidade" (VInt 0) with VInt q => q | _ => 0 end.

(** [inStock := quantity > 0] *)
Definition in_stock (p : Row) : bool := 0 <? stock_quantity p.

(** A product row typed as the data model has it: an integer quantity, a
    description that is text and a price that is a number, each possibly
    absent. *)
Definition well_typed_product (p : Row) : Prop :=
  (∃ q, dict_get p "quantidade" (VInt 0) = VInt q)
  ∧ (∃ s, dict_get p "descricao" (VStr "") = VStr s)
  ∧ (∃ f, float_of_val (dict_get p "preco" (VFloat float_zero)) = Ok f).

Definition count_if (f : Row → bool) (l : list Row) : nat :=
  List.length (List.filter f l).


(** What a run did to the store and to the list of calls: the store is as
    it was and no call but the user lookup was made. *)
Definition only_looked_up_user (w : World S) (x : Result Response * World S)
  : Prop :=
  db (world_after x) = db w
  ∧ ∃ cs, calls (world_after x) = calls w ++ cs
          ∧ Forall (λ c, entity_call c = false) cs.

(** What the table shows for product [p] in line [row]. *)
Definition shows_stock (p : Row) (row : EstoqueRow) : Prop :=
  row_quantidade row = VInt (stock_quantity p)
  ∧ row_status row = (if in_stock p then "✅ Em estoque" else "❌ Sem estoque")
  ∧ row_status_class row
    = (if in_stock p then "status-em-estoque" else "status-sem-estoque").

(** The status the view derives for product [p]. *)
Definition derives_status (p : Row) : Prop :=
  ∃ item, estoque_item p = Ok item
          ∧ item !! "status"
            = Some (VStr (if in_stock p then "Em estoque" else "Sem estoque")).

(** [int(request.form.get('quantidade', 0))] *)
Definition form_quantity (req : Request) : Result Z :=
  match form req !! "quantidade" with
  | Some s => int_of_str s
  | None => Ok 0
  end.

(** The flash [atualizar_estoque] ends with, by what [Produto.update]
    answered. *)
Definition update_flash (q : Z) (r : Result bool) : Flash :=
  match r with
  | Ok true =>
      {| message := FmtInt "Estoque atualizado com sucesso! Nova quantidade: " q;
         category := "success" |}
  | Ok false =>
      {| message := Lit "Erro ao atualizar estoque!"; category := "error" |}
  | Raise e =>
      {| message := FmtExn "Erro ao atualizar estoque: " e;
         category := "error" |}
  end.

(** The calls a run added to the list. *)
Definition new_call (w : World S) (x : Result Response * World S) (c : Call)
  : Prop :=
  ∃ before after,
    calls (world_after x) = calls w ++ before ++ c :: after.

End Obs.

(** [m] relates the world it starts in to the world it leaves by [R],
    whether it returns or raises, and what it returns satisfies [Q]. *)
Definition hoare {S A} (R : relation (World S)) (m : Flask.M A)
  (Q : A → Prop) : Prop :=
  ∀ w, R w (m w).2 ∧ ∀ a, (m w).1 = Ok a → Q a.

(** [R] holds across every change a view can make to the world other than
    through a model call, and across a model call [c] that takes the store
    from [s] to [s'] whenever [ok c s s']. *)
Class Stepwise {S} (R : relation (World S)) (ok : Call → S → S → Prop) := {
  step_preorder :: PreOrder R;
  step_flash : ∀ f w, R w (add_flash f w);
  step_upload : ∀ n d w, R w (add_upload n d w);
  step_session : ∀ u w, R w (set_session u w);
  step_call : ∀ c d w, ok c (db w) d → R w (add_call c (set_db d w))
}.

(** A row whose stored quantity, when it has one, is an integer that is not
    negative; a row without one reads as quantity 0. *)
Definition nonneg_quantity (row : Row) : bool :=
  match row !! "quantidade" with
  | Some v => RefStore.nonneg_integer v
  | None => true
  end.

(** The invariant [quantity >= 0] on the products of the reference store. *)
Definition no_negative_stock (d : RefStore.DB) : Prop :=
  map_Forall (λ _ row, nonneg_quantity row = true) (RefStore.produtos d).

#[global] Instance no_negative_stock_dec d : Decision (no_negative_stock d).
Proof. unfold no_negative_stock. apply _. Defined.

Definition stock_kept : relation (World RefStore.DB) :=
  λ w w', no_negative_stock (db w) → no_negative_stock (db w').

(** The application serving requests one after the other on the reference
    store; a request by a method its route does not list runs no view and
    changes nothing. *)
Definition serve (w : World RefStore.DB) (x : Route * Request)
  : World RefStore.DB :=
  if accepts x.1 x.2 then world_after (view x.1 x.2 w) else w.

Definition serve_all (l : list (Route * Request)) (w : World RefStore.DB)
  : World RefStore.DB :=
  foldl serve w l.

(** The status values of a sale, and the words the application stores for
    them. *)
Inductive SaleStatus := pending | completed | cancelled.

Definition sale_status (s : string) : option SaleStatus :=
  if String.eqb s "pendente" then Some pending
  else if String.eqb s "concluida" then Some completed
  else if String.eqb s "cancelada" then Some cancelled
  else None.

(** The invariant of a sale: its total is a non-negative decimal and its
    status is one of the three values. *)
Definition valid_sale (sale : Row) : Prop :=
  (∃ total, sale !! "total" = Some total
            ∧ RefStore.nonneg_number total = true)
  ∧ ∃ s st, sale !! "status" = Some (VStr s) ∧ sale_status s = Some st.

(** Every sale the second store holds is a sale the first one held, or a
    valid one. *)
Definition sales_kept_on (s s' : RefStore.DB) : Prop :=
  ∀ id sale, RefStore.vendas s' !! id = Some sale →
             RefStore.vendas s !! id = Some sale ∨ valid_sale sale.

Definition sales_kept : relation (World RefStore.DB) :=
  λ w w', sales_kept_on (db w) (db w').

(** [login] when the credentials are refused: the same message and the same
    page whatever was submitted. *)
Definition login_refused {S} (w : World S) : Result Response * World S :=
  try_except (render_template "login.html" [])
             (λ _, mret (Html LoginFallbackPage))
             (add_flash {| message := Lit "Usuário ou senha incorretos!";
                           category := "error" |} w).

(** [login] when the credentials are accepted. *)
Definition login_accepted {S} (w : World S) : Result Response * World S :=
  (Ok (Redirect "index"),
   add_flash {| message := Lit "Login realizado com sucesso!";
                category := "success" |}
             (set_session (Some "admin") w)).

End Obs.

(** ** Sample data *)

Module Sample.
Import Py Models Flask App RefStore.

Definition post (fields : list (string * string)) : Request :=
  {| method := POST; form := list_to_map fields; files := ∅;
     now := "2024-05-01T10:00:00"; uuid4 := "0b5e" |}.

Definition get : Request :=
  {| method := GET; form := ∅; files := ∅;
     now := "2024-05-01T10:00:00"; uuid4 := "0b5e" |}.

(** The deployment without Supabase, nobody logged in. *)
Definition mock_world : World unit :=
  {| db := (); session_user_id := None; flashes := [];
     upload_folder := {[ "0b5e_caneta.png" := "PNG" ]}; disk_ok := true;
     static_folder := ∅; templates := ∅; calls := [] |}.

(** The same, with the administrator's session. *)
Definition mock_admin_world : World unit :=
  set_session (Some "admin") mock_world.

Definition papelaria : Row :=
  list_to_map [("id", VStr "c1"); ("nome", VStr "Papelaria");
               ("descricao", VStr ""); ("cor", VStr "#667eea");
               ("icone", VStr "pen")].

(** Seven pens at 2.50. *)
Definition caneta : Row :=
  list_to_map [("id", VStr "p1"); ("nome", VStr "Caneta");
               ("descricao", VStr "azul");
               ("preco", VFloat (FFin false 5629499534213120 (-51)));
               ("quantidade", VInt 7); ("categoria_id", VStr "c1");
               ("codigo_barras", VStr "789"); ("imagem", VStr "caneta.png")].

(** An eraser, sold out. *)
Definition borracha : Row :=
  list_to_map [("id", VStr "p2"); ("nome", VStr "Borracha");
               ("descricao", VStr "branca");
               ("preco", VFloat (FFin false 4503599627370496 (-52)));
               ("quantidade", VInt 0); ("categoria_id", VStr "c1");
               ("codigo_barras", VStr "790")].

Definition shop : DB :=
  {| usuarios := ∅; clientes := ∅; categorias := {[ "c1" := papelaria ]};
     produtos := <[ "p2" := borracha ]> {[ "p1" := caneta ]};
     vendas := ∅; itens_venda := ∅; sync_running := false |}.

(** The reference store holding [shop], the administrator logged in. *)
Definition shop_world : World DB :=
  {| db := shop; session_user_id := Some "admin"; flashes := [];
     upload_folder := ∅; disk_ok := true; static_folder := ∅;
     templates := ∅; calls := [] |}.

(** A store that cannot be reached: every call raises.  It exercises the
    [except] branches of the views. *)
Definition ConnectionError : Exn := BackendError "ConnectionError" "timeout".

Definition Unreachable : Store unit := {|
  SUPABASE_AVAILABLE := true;
  usuario_get_by_id _ _ := Raise ConnectionError;
  get_all _ _ := Raise ConnectionError;
  get_by_id _ _ _ := Raise ConnectionError;
  create _ _ s := (Raise ConnectionError, s);
  update _ _ _ s := (Raise ConnectionError, s);
  delete _ _ s := (Raise ConnectionError, s);
  start_sync s := (Raise ConnectionError, s);
  stop_sync s := (Raise ConnectionError, s);
  force_sync s := (Raise ConnectionError, s);
  get_sync_status _ := Raise ConnectionError
|}.

(** The shop with nobody logged in, and with a session naming a user the
    store does not know. *)
Definition shop_anon : World DB := set_session None shop_world.
Definition shop_stale : World DB := set_session (Some "mallory") shop_world.

(** The quantity stored for a product. *)
Definition stored_quantity (d : DB) (id : string) : option PyVal :=
  produtos d !! id ≫= (.!! "quantidade").

End Sample.

(** ** What the further properties are stated with *)

Module More.
Import Py Models Flask App Obs.

Section More.
Context {S : Type} `{!Store S}.

(** What [load_user] gets from the store for a session id: the answer of
    [Usuario.get_by_id] when Supabase is available, nothing otherwise. *)
Definition user_lookup (uid : string) (w : World S) : Result (option User) :=
  if SUPABASE_AVAILABLE then usuario_get_by_id uid (db w) else Ok None.

(** The store has no user object of its own for the session id: it is not
    consulted, does not know the id, or raises. *)
Definition lookup_finds_nobody (uid : string) (w : World S) : Prop :=
  match user_lookup uid w with Ok (Some _) => False | _ => True end.

(** Whatever user object the store has for 'admin' is an authenticated
    one. *)
Definition admin_lookup_authenticated (w : World S) : Prop :=
  match user_lookup "admin" w with
  | Ok (Some u) => is_authenticated u = true
  | _ => True
  end.

(** The views that begin by looking an entity up under the id of the URL:
    the model asked, the id, the message flashed when nothing is found and
    the endpoint the caller is then sent to. *)
Definition lookup_target (r : Route)
  : option (Model * string * string * string) :=
  match r with
  | r_editar_cliente id =>
      Some (Cliente, id, "Cliente não encontrado!", "clientes")
  | r_editar_categoria id =>
      Some (Categoria, id, "Categoria não encontrada!", "categorias")
  | r_editar_produto id =>
      Some (Produto, id, "Produto não encontrado!", "produtos")
  | r_atualizar_estoque id =>
      Some (Produto, id, "Produto não encontrado!", "estoque")
  | _ => None
  end.

(** [atualizar_estoque] reads the quantity before it looks the product up;
    the other views read nothing before the lookup. *)
Definition reads_before_lookup (r : Route) (req : Request) : Prop :=
  match r with
  | r_atualizar_estoque _ => ∃ q, form_quantity req = Ok q
  | _ => True
  end.

End More.

(** The calls that change the store or drive the synchronisation. *)
Definition writes (c : Call) : bool :=
  match c with
  | CCreate _ _ | CUpdate _ _ _ | CDelete _ _
  | CStartSync | CStopSync | CForceSync => true
  | _ => false
  end.

(** The run added calls to the list, each of them satisfying [P], and left
    the store as it was unless one of them writes. *)
Definition traced {S} (P : Call → Prop) : relation (World S) :=
  λ w w', ∃ cs, calls w' = calls w ++ cs
                ∧ Forall P cs
                ∧ (Forall (λ c, writes c = false) cs → db w' = db w).

(** The fields of the customer form and of the category form. *)
Definition cliente_fields : list string :=
  ["nome"; "email"; "telefone"; "cpf_cnpj"; "endereco"; "cidade"; "estado";
   "cep"].

Definition categoria_fields : list string :=
  ["nome"; "descricao"; "cor"; "icone"].

Definition produto_fields : list string :=
  ["nome"; "descricao"; "preco"; "quantidade"; "categoria_id";
   "codigo_barras"; "imagem"].

(** [kwargs] holds, under each key of [keys], the text submitted for it,
    every one of them present in the form, and holds nothing else. *)
Definition carries_form (keys : list string) (req : Request) (kwargs : Row)
  : Prop :=
  ∀ k, if bool_decide (k ∈ keys)
       then ∃ v, form req !! k = Some v ∧ kwargs !! k = Some (VStr v)
       else kwargs !! k = None.

(** The name under which the upload of the request is stored. *)
Definition stored_name (req : Request) (file : Upload) : string :=
  uuid4 req +:+ "_" +:+ safe_name file.

(** The image a product view ends with: the upload of the request, stored
    under its unique name, or [kept]. *)
Definition image_of (req : Request) (kept v : PyVal) : Prop :=
  v = kept
  ∨ ∃ file, files req !! "imagem" = Some file
            ∧ filename file ≠ ""
            ∧ v = VStr (stored_name req file).

(** The keyword arguments [novo_produto] creates a product with. *)
Definition created_product (req : Request) (kwargs : Row) : Prop :=
  (∀ k, k ∈ ["nome"; "descricao"; "categoria_id"; "codigo_barras"] →
        ∃ v, form req !! k = Some v ∧ kwargs !! k = Some (VStr v))
  ∧ (∃ s f, form req !! "preco" = Some s ∧ py_float s = Some f
            ∧ kwargs !! "preco" = Some (VFloat f))
  ∧ (∃ q, form_quantity req = Ok q ∧ kwargs !! "quantidade" = Some (VInt q))
  ∧ (∃ v, image_of req VNone v ∧ kwargs !! "imagem" = Some v)
  ∧ (∀ k, k ∉ produto_fields → kwargs !! k = None).

(** The keyword arguments [editar_produto] updates product [old] with. *)
Definition edited_product (req : Request) (kwargs : Row) : Prop :=
  (∀ k, k ∈ ["nome"; "categoria_id"] →
        ∃ v, form req !! k = Some v ∧ v ≠ "" ∧ kwargs !! k = Some (VStr v))
  ∧ (∀ k, k ∈ ["descricao"; "codigo_barras"] →
          kwargs !! k = Some (VStr (default "" (form req !! k))))
  ∧ (∃ f, kwargs !! "preco" = Some (VFloat f)
          ∧ match form req !! "preco" with
            | Some s => py_float s = Some f
            | None => f = float_zero
            end)
  ∧ (∃ q, form_quantity req = Ok q ∧ kwargs !! "quantidade" = Some (VInt q))
  ∧ is_Some (kwargs !! "imagem")
  ∧ (∀ k, k ∉ produto_fields → kwargs !! k = None).

(** The one kind of writing call each view makes, and on what request. *)
Definition permitted (r : Route) (req : Request) (c : Call) : Prop :=
  match r with
  | r_novo_cliente =>
      is_post req = true
      ∧ ∃ kw, c = CCreate Cliente kw ∧ carries_form cliente_fields req kw
  | r_editar_cliente id =>
      is_post req = true
      ∧ ∃ kw, c = CUpdate Cliente id kw ∧ carries_form cliente_fields req kw
  | r_excluir_cliente id => c = CDelete Cliente id
  | r_nova_categoria =>
      is_post req = true
      ∧ ∃ kw, c = CCreate Categoria kw ∧ carries_form categoria_fields req kw
  | r_editar_categoria id =>
      is_post req = true
      ∧ ∃ kw, c = CUpdate Categoria id kw
              ∧ carries_form categoria_fields req kw
  | r_excluir_categoria id => c = CDelete Categoria id
  | r_novo_produto =>
      is_post req = true
      ∧ ∃ kw, c = CCreate Produto kw ∧ created_product req kw
  | r_editar_produto id =>
      is_post req = true
      ∧ ∃ kw, c = CUpdate Produto id kw ∧ edited_product req kw
  | r_excluir_produto id => c = CDelete Produto id
  | r_atualizar_estoque id =>
      ∃ q, form_quantity req = Ok q
           ∧ c = CUpdate Produto id {[ "quantidade" := VInt q ]}
  | r_nova_venda => is_post req = true ∧ ∃ kw, c = CCreate Venda kw
  | r_start_sync => c = CStartSync
  | r_stop_sync => c = CStopSync
  | r_force_sync => c = CForceSync
  | r_teste_clientes => c = CCreate Cliente cliente_teste
  | _ => False
  end.

(** A call the view [r] may make on request [req]: any read, and the write
    [permitted] to it. *)
Definition in_profile (r : Route) (req : Request) (c : Call) : Prop :=
  writes c = true → permitted r req c.

(** The views, and the requests to them, that read only. *)
Definition read_only (r : Route) (req : Request) : bool :=
  match r with
  | r_novo_cliente | r_editar_cliente _ | r_nova_categoria
  | r_editar_categoria _ | r_novo_produto | r_editar_produto _
  | r_nova_venda => negb (is_post req)
  | r_excluir_cliente _ | r_excluir_categoria _ | r_excluir_produto _
  | r_atualizar_estoque _ | r_start_sync | r_stop_sync | r_force_sync
  | r_teste_clientes => false
  | _ => true
  end.

(** The views behind the customer and the category form: the model they
    write and the row they update ([None] when they create one). *)
Definition form_target (r : Route) : option (Model * option string) :=
  match r with
  | r_novo_cliente => Some (Cliente, None)
  | r_editar_cliente id => Some (Cliente, Some id)
  | r_nova_categoria => Some (Categoria, None)
  | r_editar_categoria id => Some (Categoria, Some id)
  | _ => None
  end.

Definition write_call (m : Model) (target : option string) (kwargs : Row)
  : Call :=
  match target with
  | None => CCreate m kwargs
  | Some id => CUpdate m id kwargs
  end.

Definition fields_of (m : Model) : list string :=
  match m with
  | Cliente => cliente_fields
  | Categoria => categoria_fields
  | _ => []
  end.

Section Outcomes.
Context {S : Type} `{!Store S}.

(** The views that delete a row: the model, the id taken from the URL and
    the endpoint the caller is sent to. *)
Definition delete_target (r : Route) : option (Model * string * string) :=
  match r with
  | r_excluir_cliente id => Some (Cliente, id, "clientes")
  | r_excluir_categoria id => Some (Categoria, id, "categorias")
  | r_excluir_produto id => Some (Produto, id, "produtos")
  | _ => None
  end.

(** [len(Model.get_all())], where a call that raises counts as 0. *)
Definition counted (m : Model) (w : World S) : nat :=
  match get_all m (db w) with
  | Ok l => List.length l
  | Raise _ => 0%nat
  end.

(** A stored value Python does not compare with 0: [None] or text. *)
Definition incomparable (v : PyVal) : Prop :=
  match v with
  | VNone | VStr _ => True
  | _ => False
  end.

(** The products cannot be turned into stock lines: [Produto.get_all]
    raises, or one of the rows has a quantity that is not a number. *)
Definition stock_unreadable (w : World S) : Prop :=
  match get_all Produto (db w) with
  | Raise _ => True
  | Ok ps => ∃ p, p ∈ ps ∧ incomparable (dict_get p "quantidade" (VInt 0))
  end.

(** The list pages and the template each renders. *)
Definition list_template (r : Route) : option string :=
  match r with
  | r_clientes => Some "clientes.html"
  | r_categorias => Some "categorias.html"
  | r_produtos => Some "produtos.html"
  | r_vendas => Some "vendas.html"
  | _ => None
  end.

End Outcomes.

(** The templates the views render and the static files they send. *)
Definition page_templates : list string :=
  ["clientes.html"; "cliente_form.html"; "categorias.html";
   "categoria_form.html"; "produtos.html"; "produto_form.html";
   "vendas.html"; "venda_form.html"; "relatorios.html"].

Definition static_files : list string :=
  ["fallback.html"; "manifest.json"; "sw.js"].

(** The application is deployed with these templates and files in place;
    'login.html' is not among them, since [login] has a page of its own to
    fall back on. *)
Definition deployed {S} (w : World S) : Prop :=
  (∀ n, n ∈ page_templates → n ∈ templates w)
  ∧ (∀ n, n ∈ static_files → is_Some (static_folder w !! n)).

(** A POST carries both fields of the login form. *)
Definition sends_credentials (req : Request) : Prop :=
  is_post req = true →
  is_Some (form req !! "username") ∧ is_Some (form req !! "password").

(** [m] returns, rather than raises, on every deployed world. *)
Definition answers {S A} (m : Flask.M A) : Prop :=
  ∀ w : World S, deployed w → ∃ a, (m w).1 = Ok a.

(** The templates and the static files are the same in both worlds. *)
Definition same_files {S} : relation (World S) :=
  λ w w', templates w' = templates w ∧ static_folder w' = static_folder w.

(** The shop, deployed. *)
Definition shop_deployed : World RefStore.DB :=
  {| db := Sample.shop; session_user_id := Some "admin"; flashes := [];
     upload_folder := ∅; disk_ok := true;
     static_folder := list_to_map ((λ n, (n, "...")) <$> static_files);
     templates := list_to_set page_templates; calls := [] |}.

Section Sync.
Context {S : Type} `{!Store S}.

(** The three routes that drive the synchronisation: the call each makes
    and the function behind it. *)
Definition sync_target (r : Route)
  : option (Call * (S → Result unit * S)) :=
  match r with
  | r_start_sync => Some (CStartSync, start_sync)
  | r_stop_sync => Some (CStopSync, stop_sync)
  | r_force_sync => Some (CForceSync, force_sync)
  | _ => None
  end.

End Sync.

(** A message that reports a failure. *)
Definition reports_error (f : Flash) : Prop := category f = "error".

(** The views that flash a success message without asking a model for
    anything it could refuse: [login], and the two synchronisation routes
    that start a run. *)
Definition succeeds_without_models (r : Route) : bool :=
  match r with
  | r_login | r_start_sync | r_force_sync => true
  | _ => false
  end.

(** The run added messages to the flashed ones, each satisfying [P]. *)
Definition flashed {S} (P : Flash → Prop) : relation (World S) :=
  λ w w', ∃ fs, flashes w' = flashes w ++ fs ∧ Forall P fs.

(** The messages a run flashed. *)
Definition new_flash {S} (w : World S) (x : Result Response * World S)
  (f : Flash) : Prop :=
  ∃ before after,
    flashes (world_after x) = flashes w ++ before ++ f :: after.

(** A message that does not report a success. *)
Definition no_success (f : Flash) : Prop := category f ≠ "success".

End More.

(** ** Start-up: [criar_usuario_padrao] and the [__main__] block *)

Module Startup.
Import Py Models Flask App.

(** What start-up calls, in order. *)
Inductive Event :=
| EUsuarioGetAll
| EUsuarioCreate (kwargs : Row)
| ETestConnection
| EStartSync
| ERun (port : Z).

(** What start-up runs against, besides the models of the views: the two
    methods of [Usuario] it calls ([create] is only tested for truth), the
    [supabase] client, which is [None] when the import failed and otherwise
    an object that may have a [test_connection] method, the environment
    variable PORT, and [app.run], which returns when the server stops. *)
Class Machine (S : Type) `{!Store S} := {
  usuario_get_all : S → Result (list Row);
  usuario_create : Row → S → Result bool * S;
  supabase : option (option (S → Result bool * S));
  PORT : option string;
  app_run : Z → S → Result unit * S
}.

(** [MockModel] bound to [Usuario], and [supabase = None]. *)
Definition MockMachine (port : option string)
  (run : Z → unit → Result unit * unit) : Machine unit := {|
  usuario_get_all _ := Ok [];
  usuario_create _ s := (Ok false, s);
  supabase := None;
  PORT := port;
  app_run := run
|}.

(** A machine whose Supabase cannot be reached: every call raises, the
    connection test included.  It exercises the [except] branches. *)
Definition Offline (port : option string)
  (run : Z → unit → Result unit * unit) : @Machine unit Sample.Unreachable := {|
  usuario_get_all _ := Raise Sample.ConnectionError;
  usuario_create _ s := (Raise Sample.ConnectionError, s);
  supabase := Some (Some (λ s, (Raise Sample.ConnectionError, s)));
  PORT := port;
  app_run := run
|}.

Record Boot (S : Type) := { machine : S; events : list Event }.
Arguments machine {S}.
Arguments events {S}.

Section Startup.
Context {S : Type} {store : Store S} {mach : Machine S}.

(** A computation of start-up: it returns or raises, and leaves a state. *)
Definition B (A : Type) : Type := Boot S → Result A * Boot S.

Definition ret {A} (a : A) : B A := λ b, (Ok a, b).

Definition bind {A C} (m : B A) (k : A → B C) : B C :=
  λ b, match m b with
       | (Ok a, b') => k a b'
       | (Raise e, b') => (Raise e, b')
       end.

Definition try_except {A} (body : B A) (handler : Exn → B A) : B A :=
  λ b, match body b with
       | (Ok a, b') => (Ok a, b')
       | (Raise e, b') => handler e b'
       end.

(** A call on the machine, recorded as [ev]. *)
Definition call {A} (ev : Event) (f : S → Result A * S) : B A :=
  λ b, let '(r, s) := f (machine b) in
       (r, {| machine := s; events := events b ++ [ev] |}).

#[local] Instance B_ret : MRet B := @ret.
#[local] Instance B_bind : MBind B := λ A C k m, bind m k.

Definition usuario_padrao : Row :=
  list_to_map [("username", VStr "admin"); ("password", VStr "admin123");
               ("nome", VStr "Administrador");
               ("email", VStr "admin@sistema.com"); ("tipo", VStr "admin")].

(** [not usuarios] *)
Definition no_users (usuarios : list Row) : bool :=
  match usuarios with [] => true | _ => false end.

Definition criar_usuario_padrao : B unit :=
  try_except
    (if SUPABASE_AVAILABLE
     then
       usuarios ← call EUsuarioGetAll (λ s, (usuario_get_all s, s));
       if no_users usuarios
       then
         created ← call (EUsuarioCreate usuario_padrao)
                        (usuario_create usuario_padrao);
         mret ()
       else mret ()
     else mret ())
    (λ _, mret ()).

(** [supabase and hasattr(supabase, 'test_connection') and
    supabase.test_connection()], as the condition of an [if]. *)
Definition connected : B bool :=
  match supabase with
  | Some (Some test_connection) => call ETestConnection test_connection
  | _ => mret false
  end.

(** [int(os.environ.get('PORT', 5000))] *)
Definition port : Result Z :=
  match PORT with
  | Some s => int_of_str s
  | None => Ok 5000
  end.

(** [port = int(...); app.run(debug=False, host='0.0.0.0', port=port)] *)
Definition serve : B unit :=
  λ b, match port with
       | Ok p => call (ERun p) (app_run p) b
       | Raise e => (Raise e, b)
       end.

Definition main : B unit :=
  try_except
    (ok ← connected;
     (if (ok : bool)
      then criar_usuario_padrao;;
           try_except (call EStartSync start_sync) (λ _, mret ())
      else criar_usuario_padrao);;
     serve)
    (λ _, serve).

(** The events a run added. *)
Definition added (b : Boot S) (x : Result unit * Boot S) : list Event :=
  drop (List.length (events b)) (events x.2).

Definition is_run (ev : Event) : bool :=
  match ev with ERun _ => true | _ => false end.

(** Steps among which the server is not run. *)
Definition quiet (l : list Event) : Prop := List.filter is_run l = [].

End Startup.
End Startup.

(** ** Properties *)

Import Py Models Flask App Obs RefStore Sample More.

(** Closes an equation between closed terms by evaluating both sides. *)
Ltac by_vm :=
  lazymatch goal with
  | |- ?l = ?r => exact (@eq_refl _ r <: l = r)
  end.

Section Session.
Context {S : Type} `{!Store S}.
Implicit Types (w : World S) (req : Request).

Lemma current_user_runs w : current_user w = (Ok (identity w), loaded w).
Proof.
  unfold identity, loaded, current_user, load_user, Usuario_get_by_id,
    try_except, get_world, mbind, M_bind, bind, mret, M_ret, ret; simpl.
  destruct (session_user_id w) as [uid|]; simpl; [|done].
  destruct SUPABASE_AVAILABLE; simpl.
  - destruct (usuario_get_by_id uid (db w)) as [[u|]|e]; simpl; try done;
      destruct (String.eqb uid "admin"); done.
  - destruct (String.eqb uid "admin"); done.
Qed.

Lemma loaded_frame w :
  db (loaded w) = db w ∧ session_user_id (loaded w) = session_user_id w
  ∧ flashes (loaded w) = flashes w ∧ upload_folder (loaded w) = upload_folder w
  ∧ disk_ok (loaded w) = disk_ok w ∧ static_folder (loaded w) = static_folder w
  ∧ templates (loaded w) = templates w
  ∧ calls (loaded w) = calls w ++ load_calls w.
Proof.
  unfold loaded, load_calls, current_user, load_user, Usuario_get_by_id,
    try_except, get_world, mbind, M_bind, bind, mret, M_ret, ret; simpl.
  destruct (session_user_id w) as [uid|] eqn:E; simpl;
    [|by rewrite app_nil_r].
  destruct SUPABASE_AVAILABLE; simpl.
  - destruct (usuario_get_by_id uid (db w)) as [[u|]|e]; simpl;
      try destruct (String.eqb uid "admin"); simpl; done.
  - destruct (String.eqb uid "admin"); simpl; by rewrite app_nil_r.
Qed.

Lemma login_required_run (v : Flask.M Response) w :
  login_required v w
  = if authenticated w then v (loaded w) else unauthorized (loaded w).
Proof.
  unfold login_required, authenticated, mbind, M_bind, bind.
  rewrite current_user_runs.
  by destruct (user_is_authenticated (identity w)).
Qed.

End Session.

Section Gate.
Context {S : Type} `{!Store S}.
Implicit Types (w : World S) (req : Request).

Lemma login_required_anon (v : Flask.M Response) w :
  authenticated w = false →
  login_required v w
  = (Ok (Redirect "login"),
     add_flash {| message := Lit login_message; category := "message" |}
               (loaded w)).
Proof. intros Hw. rewrite login_required_run, Hw. done. Qed.

Lemma login_required_auth (v : Flask.M Response) w :
  authenticated w = true → login_required v w = v (loaded w).
Proof. intros Hw. by rewrite login_required_run, Hw. Qed.

Lemma load_calls_no_entity w :
  Forall (λ c, entity_call c = false) (load_calls w).
Proof.
  unfold load_calls. destruct (session_user_id w); [|constructor].
  destruct SUPABASE_AVAILABLE; repeat constructor.
Qed.

Lemma authenticate_user_admin u p :
  authenticate_user u p
  = if decide ((u, p) = ("admin", "admin123"))
    then Some (MockUser "admin" "admin" "Administrador") else None.
Proof.
  unfold authenticate_user.
  destruct (decide ((u, p) = ("admin", "admin123"))) as [[= -> ->]|Hne];
    [done|].
  destruct (String.eqb_spec u "admin") as [->|Hu];
    destruct (String.eqb_spec p "admin123") as [->|Hp]; simpl; congruence.
Qed.

Lemma login_post req w u p :
  method req = POST →
  form req !! "username" = Some u → form req !! "password" = Some p →
  login req w
  = if decide ((u, p) = ("admin", "admin123")) then login_accepted w
    else login_refused w.
Proof.
  intros Hm Hu Hp.
  unfold login, is_post, form_item, lift, try_except, login_user, flash,
    mbind, M_bind, bind, mret, M_ret, ret.
  rewrite Hm, Hu, Hp, authenticate_user_admin. simpl.
  case_decide; done.
Qed.

End Gate.

(** C4. [authenticate_user "admin" "admin123"] returns the administrator, an
    authenticated identity, and [login] then opens the session; for every
    other pair of user name and password, whichever of the two is wrong,
    [authenticate_user] returns nothing and [login] answers with one and the
    same message and page, [login_refused], in which neither the submitted
    name nor the password nor the field at fault appears. *)
Theorem login_admin_only_and_generic_refusal :
  authenticate_user "admin" "admin123"
  = Some (MockUser "admin" "admin" "Administrador")
  ∧ is_authenticated (MockUser "admin" "admin" "Administrador") = true
  ∧ (∀ (S : Type) (w : World S) (req : Request),
       method req = POST →
       form req !! "username" = Some "admin" →
       form req !! "password" = Some "admin123" →
       login req w = login_accepted w)
  ∧ (∀ u p : string,
       (u, p) ≠ ("admin", "admin123") →
       authenticate_user u p = None
       ∧ ∀ (S : Type) (w : World S) (req : Request),
           method req = POST →
           form req !! "username" = Some u →
           form req !! "password" = Some p →
           login req w = login_refused w).
Proof.
  split; [done|]. split; [done|]. split.
  - intros S w req Hm Hu Hp. by rewrite (login_post req w _ _ Hm Hu Hp).
  - intros u p Hne. split.
    + rewrite authenticate_user_admin. by case_decide.
    + intros S w req Hm Hu Hp.
      rewrite (login_post req w _ _ Hm Hu Hp). by case_decide.
Qed.

Lemma login_generic_refusal_witness :
  login (post [("username", "admin"); ("password", "wrong")]) mock_world
  = login_refused mock_world
  ∧ login (post [("username", "nope"); ("password", "admin123")]) mock_world
    = login_refused mock_world
  ∧ login (post [("username", "admin"); ("password", "admin123")]) mock_world
    = login_accepted mock_world.
Proof.
  destruct login_admin_only_and_generic_refusal as (_ & _ & Hyes & Hno).
  split; [|split].
  - destruct (Hno "admin" "wrong") as [_ H]; [intros [=]|].
    apply H; reflexivity.
  - destruct (Hno "nope" "admin123") as [_ H]; [intros [=]|].
    apply H; reflexivity.
  - apply Hyes; reflexivity.
Defined.

(** C10. [uploaded_file] answers from the upload folder and the file name
    alone: two runs on worlds with the same upload folder return the same
    response, whoever is logged in in either and whatever else differs;
    the response is the file when the folder has it and the 404 text
    otherwise, with no login redirect, and the run leaves the world as it
    found it. *)
Theorem uploaded_file_ignores_session
  {S : Type} (name : string) (req1 req2 : Request) (w1 w2 : World S) :
  upload_folder w1 = upload_folder w2 →
  response (uploaded_file name req1 w1) = response (uploaded_file name req2 w2)
  ∧ response (uploaded_file name req1 w1)
    = Ok (match upload_folder w1 !! name with
          | Some data => SendFile data
          | None => PlainText (Lit "Arquivo não encontrado") 404
          end)
  ∧ world_after (uploaded_file name req1 w1) = w1.
Proof.
  intros Hf.
  unfold uploaded_file, send_from_directory, try_except, response,
    world_after, mret, M_ret, ret.
  rewrite <- Hf.
  by destruct (upload_folder w1 !! name).
Qed.

Lemma uploaded_file_ignores_session_witness :
  response (uploaded_file "0b5e_caneta.png" get mock_world)
  = response (uploaded_file "0b5e_caneta.png" get mock_admin_world)
  ∧ response (uploaded_file "0b5e_caneta.png" get mock_world)
    = Ok (SendFile "PNG")
  ∧ response (uploaded_file "nada.png" get mock_world)
    = response (uploaded_file "nada.png" get mock_admin_world).
Proof.
  split; [|split].
  - apply (uploaded_file_ignores_session
             "0b5e_caneta.png" get get mock_world mock_admin_world).
    reflexivity.
  - exact (proj1 (proj2 (uploaded_file_ignores_session
                           "0b5e_caneta.png" get get mock_world mock_world
                           eq_refl))).
  - apply (uploaded_file_ignores_session
             "nada.png" get get mock_world mock_admin_world).
    reflexivity.
Defined.

Section Gated.
Context {S : Type} `{!Store S}.
Implicit Types (w : World S) (req : Request).

Lemma refused_only_looked_up_user w f :
  only_looked_up_user w (Ok (Redirect "login"), add_flash f (loaded w)).
Proof.
  destruct (loaded_frame w) as (Hdb & _ & _ & _ & _ & _ & _ & Hc).
  split; [exact Hdb|].
  exists (load_calls w). split; [exact Hc|apply load_calls_no_entity].
Qed.

Lemma untouched_only_looked_up_user w r :
  only_looked_up_user w (r, w).
Proof. split; [done|]. exists []. by rewrite app_nil_r. Qed.

Lemma loaded_only_looked_up_user w r :
  only_looked_up_user w (r, loaded w).
Proof.
  destruct (loaded_frame w) as (Hdb & _ & _ & _ & _ & _ & _ & Hc).
  split; [exact Hdb|].
  exists (load_calls w). split; [exact Hc|apply load_calls_no_entity].
Qed.

Lemma login_only_looked_up_user req w :
  only_looked_up_user w (login req w).
Proof.
  unfold login, is_post, form_item, lift, try_except, login_user, flash,
    render_template, authenticate_user, mbind, M_bind, bind, mret, M_ret, ret.
  destruct (method req); simpl.
  - case_decide; apply untouched_only_looked_up_user.
  - destruct (form req !! "username") as [u|]; simpl;
      [|apply untouched_only_looked_up_user].
    destruct (form req !! "password") as [p|]; simpl;
      [|apply untouched_only_looked_up_user].
    destruct (String.eqb u "admin" && String.eqb p "admin123"); simpl.
    + split; [done|]. exists []. by rewrite app_nil_r.
    + case_decide; (split; [done|]); exists []; by rewrite app_nil_r.
Qed.

End Gated.

(** C7. For a caller who is not authenticated, every view behind
    [@login_required] and the dashboard answer with the redirect to the login
    page and nothing else; and no view at all, gated or not, calls a model of
    customers, categories, products, stock or sales or the synchronisation
    on that caller's behalf: the store is as it was, and the only call made
    is the lookup of the session's user. *)
Theorem gated_views_require_login
  {S : Type} `{!Store S} (r : Route) (req : Request) (w : World S) :
  authenticated w = false →
  only_looked_up_user w (view r req w)
  ∧ (gated r = true → response (view r req w) = Ok (Redirect "login")).
Proof.
  intros Hw.
  destruct r; simpl;
    unfold logout, App.clientes, novo_cliente, editar_cliente,
      excluir_cliente, App.categorias, nova_categoria, editar_categoria,
      excluir_categoria, App.produtos, novo_produto, editar_produto,
      excluir_produto, estoque, atualizar_estoque, App.vendas, nova_venda,
      relatorios, api_relatorio_vendas,
      api_relatorio_estoque, start_sync_route, stop_sync_route,
      force_sync_route, sync_status_route, teste_clientes;
    try (rewrite (login_required_anon _ w Hw);
         split; [apply refused_only_looked_up_user|done]).
  - (* index *)
    unfold index, try_except, mbind, M_bind, bind.
    rewrite current_user_runs. fold (authenticated w). rewrite Hw. simpl.
    split; [apply loaded_only_looked_up_user|done].
  - (* fallback *)
    split; [|done]. unfold fallback, send_static_file.
    destruct (static_folder w !! "fallback.html");
      apply untouched_only_looked_up_user.
  - (* teste *)
    split; [|done]. apply untouched_only_looked_up_user.
  - (* debug *)
    split; [|done].
    unfold debug, try_except, get_world, mbind, M_bind, bind.
    rewrite current_user_runs. apply loaded_only_looked_up_user.
  - (* login *)
    split; [|done]. apply login_only_looked_up_user.
  - (* manifest *)
    split; [|done]. unfold manifest, send_static_file.
    destruct (static_folder w !! "manifest.json");
      apply untouched_only_looked_up_user.
  - (* service_worker *)
    split; [|done]. unfold service_worker, send_static_file.
    destruct (static_folder w !! "sw.js");
      apply untouched_only_looked_up_user.
  - (* api_teste *)
    split; [|done]. apply untouched_only_looked_up_user.
  - (* api_status *)
    split; [|done]. apply untouched_only_looked_up_user.
  - (* uploaded_file *)
    split; [|done]. unfold uploaded_file, send_from_directory, try_except.
    destruct (upload_folder w !! name);
      apply untouched_only_looked_up_user.
  - (* teste_sessao *)
    split; [|done].
    unfold teste_sessao, try_except, get_world, mbind, M_bind, bind.
    rewrite current_user_runs. apply loaded_only_looked_up_user.
Qed.

Lemma gated_views_require_login_witness :
  response (view (r_excluir_produto "p1") get shop_anon) = Ok (Redirect "login")
  ∧ db (world_after (view (r_excluir_produto "p1") get shop_anon)) = shop
  ∧ response (view (r_atualizar_estoque "p1") (post [("quantidade", "0")])
                   shop_stale) = Ok (Redirect "login")
  ∧ db (world_after (view (r_atualizar_estoque "p1")
                          (post [("quantidade", "0")]) shop_stale)) = shop.
Proof.
  assert (Ha : authenticated shop_anon = false) by by_vm.
  assert (Hs : authenticated shop_stale = false) by by_vm.
  destruct (gated_views_require_login (r_excluir_produto "p1") get shop_anon
              Ha) as [[Hdb _] Hr].
  destruct (gated_views_require_login (r_atualizar_estoque "p1")
              (post [("quantidade", "0")]) shop_stale Hs)
    as [[Hdb' _] Hr'].
  split; [apply Hr; reflexivity|]. split; [exact Hdb|].
  split; [apply Hr'; reflexivity|exact Hdb'].
Defined.



Section Stock.
Context {S : Type} `{!Store S}.
Implicit Types (w : World S) (req : Request) (p : Row).

Lemma dict_get_some (d : Row) (key : string) (dflt v : PyVal) :
  d !! key = Some v → dict_get d key dflt = v.
Proof. unfold dict_get. by intros ->. Qed.

Lemma estoque_item_fields (a b c d e f g h i : PyVal) :
  let item : Row :=
    <["id":=a]> (<["nome":=b]> (<["descricao":=c]> (<["quantidade":=d]>
      (<["preco":=e]> (<["categoria":=f]> (<["imagem":=g]>
        (<["codigo_barras":=h]> (<["status":=i]> ∅)))))))) in
  item !! "id" = Some a ∧ item !! "nome" = Some b
  ∧ item !! "descricao" = Some c ∧ item !! "quantidade" = Some d
  ∧ item !! "preco" = Some e ∧ item !! "categoria" = Some f
  ∧ item !! "imagem" = Some g ∧ item !! "status" = Some i.
Proof. vm_compute. done. Qed.

(** The dict built for a well-typed product, and the table line it gives. *)
Lemma estoque_item_well_typed p :
  well_typed_product p →
  ∃ item row,
    estoque_item p = Ok item
    ∧ item !! "status"
      = Some (VStr (if in_stock p then "Em estoque" else "Sem estoque"))
    ∧ val_gt0 (dict_get item "quantidade" (VInt 0)) = Ok (in_stock p)
    ∧ val_le0 (dict_get item "quantidade" (VInt 0)) = Ok (negb (in_stock p))
    ∧ estoque_row item = Ok row
    ∧ row_quantidade row = VInt (stock_quantity p)
    ∧ row_status row
      = (if in_stock p then "✅ Em estoque" else "❌ Sem estoque")
    ∧ row_status_class row
      = (if in_stock p then "status-em-estoque" else "status-sem-estoque").
Proof.
  intros ((q & Hq) & (d & Hd) & (f & Hf)).
  unfold estoque_item, estoque_row, in_stock, stock_quantity.
  rewrite Hq. simpl.
  match goal with
  | |- context [<["id":=?a]> (<["nome":=?b]> (<["descricao":=?c]>
                  (<["quantidade":=?d]> (<["preco":=?e]> (<["categoria":=?f]>
                    (<["imagem":=?g]> (<["codigo_barras":=?h]>
                      (<["status":=?i]> ∅))))))))] =>
      destruct (estoque_item_fields a b c d e f g h i)
        as (Hid & Hn & Hde & Hqt & Hp & Hc & Him & Hst)
  end.
  match type of Hst with ?it !! _ = _ => set (item := it) in * end.
  assert (Hq' : dict_get item "quantidade" (VInt 0) = VInt q)
    by (apply dict_get_some; exact Hqt).
  assert (Hd' : dict_get item "descricao" (VStr "Sem descrição") = VStr d)
    by (rewrite (dict_get_some _ _ _ _ Hde); exact Hd).
  assert (Hf' : float_of_val (dict_get item "preco" (VInt 0)) = Ok f)
    by (rewrite (dict_get_some _ _ _ _ Hp); exact Hf).
  exists item. rewrite Hq', Hd', Hf'. simpl.
  eexists. split; [reflexivity|]. split; [exact Hst|].
  split; [done|]. split; [by rewrite Z.leb_antisym|].
  split; [reflexivity|]. done.
Qed.

Lemma estoque_lists (ps : list Row) :
  Forall well_typed_product ps →
  ∃ items rows,
    mapR estoque_item ps = Ok items
    ∧ List.length items = List.length ps
    ∧ countR (λ item, val_gt0 (dict_get item "quantidade" (VInt 0))) items
      = Ok (count_if in_stock ps)
    ∧ countR (λ item, val_le0 (dict_get item "quantidade" (VInt 0))) items
      = Ok (count_if (λ p, negb (in_stock p)) ps)
    ∧ mapR estoque_row items = Ok rows
    ∧ Forall2 shows_stock ps rows
    ∧ Forall derives_status ps.
Proof.
  induction 1 as [|p ps Hp _ (items & rows & Hi & Hl & Hg & Hle & Hr & Hs & Hd)].
  - exists [], []. repeat split; constructor.
  - destruct (estoque_item_well_typed p Hp)
      as (item & row & Hi1 & Hst & Hg1 & Hle1 & Hr1 & Hq1 & Hs1 & Hc1).
    exists (item :: items), (row :: rows). simpl.
    rewrite Hi1, Hi, Hg1, Hg, Hle1, Hle, Hr1, Hr. simpl.
    unfold count_if. simpl.
    split; [done|]. split; [by rewrite Hl|].
    split; [by destruct (in_stock p)|].
    split; [by destruct (in_stock p)|].
    split; [done|].
    split; [constructor; [done|exact Hs]|].
    constructor; [by exists item|exact Hd].
Qed.

End Stock.

(** C6. For a logged-in caller and products typed as the data model has
    them, the stock view answers with the stock page, and the page follows
    the stored quantity alone: the dict built for each product has status
    "Em estoque" exactly when its quantity is strictly positive and "Sem
    estoque" otherwise, the line shown for it says the same, the "Em
    Estoque" counter is the number of products with quantity > 0 and the "Sem
    Estoque" counter the number of the others. *)
Theorem estoque_status_is_quantity_positive
  {S : Type} `{!Store S} (req : Request) (w : World S) (ps : list Row) :
  authenticated w = true →
  get_all Produto (db w) = Ok ps →
  Forall well_typed_product ps →
  ∃ rows,
    response (estoque req w)
    = Ok (Html (EstoquePage (List.length ps)
                            (count_if in_stock ps)
                            (count_if (λ p, negb (in_stock p)) ps)
                            rows))
    ∧ Forall2 shows_stock ps rows
    ∧ Forall derives_status ps.
Proof.
  intros Hw Hps Hty.
  destruct (estoque_lists ps Hty)
    as (items & rows & Hi & Hl & Hg & Hle & Hr & Hs & Hd).
  exists rows. split; [|done].
  destruct (loaded_frame w) as (Hdb & _).
  unfold estoque. rewrite (login_required_auth _ w Hw).
  unfold try_except, Model_get_all, lift, estoque_page,
    mbind, M_bind, bind, Result_bind; simpl.
  rewrite Hdb, Hps, Hi. simpl. rewrite Hg, Hle, Hr, Hl. done.
Qed.

Lemma estoque_status_is_quantity_positive_witness :
  ∃ rows,
    response (estoque get shop_world) = Ok (Html (EstoquePage 2 1 1 rows))
    ∧ Forall2 shows_stock [caneta; borracha] rows.
Proof.
  assert (Hw : authenticated shop_world = true) by by_vm.
  assert (Hps : get_all Produto (db shop_world) = Ok [caneta; borracha])
    by by_vm.
  assert (Hty : Forall well_typed_product [caneta; borracha]).
  { repeat constructor.
    - exists 7. by_vm.
    - exists "azul". by_vm.
    - exists (FFin false 5629499534213120 (-51)). by_vm.
    - exists 0. by_vm.
    - exists "branca". by_vm.
    - exists (FFin false 4503599627370496 (-52)). by_vm. }
  destruct (estoque_status_is_quantity_positive get shop_world
              [caneta; borracha] Hw Hps Hty) as (rows & Hr & Hs & _).
  exists rows. split; [exact Hr|exact Hs].
Defined.

Section Conflict.
Implicit Types (w : World DB) (req : Request).

Lemma refers_spec (t : gmap string Row) (key id pid : string) (row : Row) :
  t !! pid = Some row → row !! key = Some (VStr id) → refers t key id = true.
Proof.
  intros Ht Hrow. unfold refers. apply bool_decide_eq_true.
  apply Exists_exists. exists row. split; [|done].
  apply list_elem_of_fmap. exists (pid, row). split; [done|].
  by apply elem_of_map_to_list.
Qed.

End Conflict.

(** C5. A logged-in caller deletes a category that a stored product refers
    to: [excluir_categoria] reports the conflict the store raises as an
    error, and leaves the store as it was, so the category and the product
    are both still there. *)
Theorem excluir_categoria_referenced_conflict
  (req : Request) (w : World DB) (cid pid : string) (categoria produto : Row) :
  authenticated w = true →
  categorias (db w) !! cid = Some categoria →
  produtos (db w) !! pid = Some produto →
  produto !! "categoria_id" = Some (VStr cid) →
  response (excluir_categoria cid req w) = Ok (Redirect "categorias")
  ∧ flashes (world_after (excluir_categoria cid req w))
    = flashes w ++ [{| message := FmtExn "Erro ao excluir categoria: "
                                         (ConflictError cid);
                       category := "error" |}]
  ∧ db (world_after (excluir_categoria cid req w)) = db w
  ∧ categorias (db (world_after (excluir_categoria cid req w))) !! cid
    = Some categoria
  ∧ produtos (db (world_after (excluir_categoria cid req w))) !! pid
    = Some produto.
Proof.
  intros Hw Hc Hp Href.
  destruct (loaded_frame w) as (Hdb & _ & Hfl & _).
  assert (Hrun : excluir_categoria cid req w
                 = (Ok (Redirect "categorias"),
                    add_flash {| message := FmtExn "Erro ao excluir categoria: "
                                                   (ConflictError cid);
                                 category := "error" |}
                      (add_call (CDelete Categoria cid) (set_db (db w) (loaded w))))).
  { unfold excluir_categoria. rewrite (login_required_auth _ w Hw).
    unfold try_except, Model_delete, flash, mbind, M_bind, bind; simpl.
    unfold ref_delete. rewrite Hdb. simpl. rewrite Hc.
    rewrite (refers_spec _ _ _ _ _ Hp Href). done. }
  rewrite Hrun. simpl. rewrite Hfl. done.
Qed.

Lemma excluir_categoria_referenced_conflict_witness :
  response (excluir_categoria "c1" get shop_world) = Ok (Redirect "categorias")
  ∧ db (world_after (excluir_categoria "c1" get shop_world)) = shop.
Proof.
  assert (Hw : authenticated shop_world = true) by by_vm.
  assert (Hc : categorias (db shop_world) !! "c1" = Some papelaria)
    by by_vm.
  assert (Hp : produtos (db shop_world) !! "p1" = Some caneta)
    by by_vm.
  assert (Hr : caneta !! "categoria_id" = Some (VStr "c1"))
    by by_vm.
  destruct (excluir_categoria_referenced_conflict get shop_world "c1" "p1"
              papelaria caneta Hw Hc Hp Hr) as (H1 & _ & H3 & _).
  split; [exact H1|exact H3].
Defined.

(** What [atualizar_estoque] does, on any store, for a logged-in caller and
    a product the store finds: it makes no check of its own on the integer
    the form gives, passes it to [Produto.update(id, quantidade=q)], keeps
    the store that call leaves and reports what the call answered; when the
    quantity is not an integer literal nothing is called. *)
Lemma atualizar_estoque_reports_the_update
  {S : Type} `{!Store S} (id : string) (req : Request) (w : World S)
  (produto : Row) :
  authenticated w = true →
  get_by_id Produto id (db w) = Ok (Some produto) →
  produto ≠ ∅ →
  match form_quantity req with
  | Ok q =>
      atualizar_estoque id req w
      = (Ok (Redirect "estoque"),
         add_flash
           (update_flash q (update Produto id {["quantidade" := VInt q]} (db w)).1)
           (add_call (CUpdate Produto id {["quantidade" := VInt q]})
              (set_db (update Produto id {["quantidade" := VInt q]} (db w)).2
                 (add_call (CGetById Produto id) (loaded w)))))
  | Raise e =>
      atualizar_estoque id req w
      = (Ok (Redirect "estoque"),
         add_flash {| message := FmtExn "Erro ao atualizar estoque: " e;
                      category := "error" |}
                   (loaded w))
  end.
Proof.
  intros Hw Hget Hne.
  destruct (loaded_frame w) as (Hdb & _).
  unfold atualizar_estoque. rewrite (login_required_auth _ w Hw).
  unfold form_quantity, form_int, try_except, Model_get_by_id, Model_update,
    flash, lift, mbind, M_bind, bind, mret, M_ret, ret.
  destruct (form req !! "quantidade") as [s|]; simpl.
  - destruct (int_of_str s) as [q|e]; simpl; [|done].
    rewrite Hdb, Hget. simpl.
    unfold row_truthy. rewrite (bool_decide_eq_true_2 _ Hne). simpl.
    rewrite Hdb.
    destruct (update Produto id {["quantidade" := VInt q]} (db w))
      as [[[]|e] d]; done.
  - rewrite Hdb, Hget. simpl.
    unfold row_truthy. rewrite (bool_decide_eq_true_2 _ Hne). simpl.
    rewrite Hdb.
    destruct (update Produto id {["quantidade" := VInt 0]} (db w))
      as [[[]|e] d]; done.
Qed.

Section SetQuantity.
Implicit Types (d : DB) (w : World DB).

Lemma negative_quantity_is_invalid (q : Z) :
  q < 0 → invalid_field Produto {["quantidade" := VInt q]} = Some "quantidade".
Proof.
  intros Hq. unfold invalid_field, out_of_bounds. simpl.
  rewrite lookup_singleton_ne by done. rewrite lookup_singleton_eq. simpl.
  destruct (Z.leb_spec 0 q); [lia|done].
Qed.

Lemma ref_update_negative_quantity (id : string) (q : Z) d :
  q < 0 →
  ref_update Produto id {["quantidade" := VInt q]} d
  = (Raise (ValidationError "quantidade"), d).
Proof. intros Hq. unfold ref_update. by rewrite negative_quantity_is_invalid. Qed.

End SetQuantity.

(** C1. On the reference store, for every product id and every quantity
    below zero, setting the stock leaves the store, and with it the stored
    quantity of the product, as it was before the call, whoever calls and
    whether the product exists or not; and for a logged-in caller and a
    product the store holds it fails with [ValidationError]:
    [atualizar_estoque] passes the quantity to [Produto.update], whose
    validation refuses it, and the view reports that error and redirects. *)
Theorem atualizar_estoque_refuses_negative_quantity
  (id : string) (req : Request) (w : World DB) (q : Z) :
  form_quantity req = Ok q →
  q < 0 →
  let run := atualizar_estoque id req w in
  db (world_after run) = db w
  ∧ stored_quantity (db (world_after run)) id = stored_quantity (db w) id
  ∧ ∀ produto : Row,
      authenticated w = true →
      produtos (db w) !! id = Some produto →
      produto ≠ ∅ →
      response run = Ok (Redirect "estoque")
      ∧ flashes (world_after run)
        = flashes w ++ [{| message := FmtExn "Erro ao atualizar estoque: "
                                             (ValidationError "quantidade");
                           category := "error" |}].
Proof.
  intros Hq Hneg run.
  destruct (loaded_frame w) as (Hdb & _ & Hfl & _).
  assert (Hkept : db (world_after run) = db w).
  { subst run. unfold atualizar_estoque, world_after.
    destruct (authenticated w) eqn:Hw;
      [rewrite (login_required_auth _ w Hw)
      |by rewrite (login_required_anon _ w Hw)].
    unfold form_quantity in Hq.
    unfold form_int, try_except, Model_get_by_id, Model_update, flash, lift,
      mbind, M_bind, bind, mret, M_ret, ret.
    rewrite Hq. simpl. rewrite Hdb.
    destruct (produtos (db w) !! id) as [row|]; simpl; [|done].
    destruct (row_truthy row); simpl; [|done].
    rewrite Hdb.
    change (update Produto id {["quantidade" := VInt q]} (db w))
      with (ref_update Produto id {["quantidade" := VInt q]} (db w)).
    by rewrite (ref_update_negative_quantity id q (db w) Hneg). }
  split; [exact Hkept|]. split; [by rewrite Hkept|].
  intros produto Hw Hp Hne.
  assert (Hg : get_by_id Produto id (db w) = Ok (Some produto))
    by (simpl; by rewrite Hp).
  pose proof (atualizar_estoque_reports_the_update id req w produto Hw Hg Hne)
    as H.
  rewrite Hq in H.
  change (update Produto id {["quantidade" := VInt q]} (db w))
    with (ref_update Produto id {["quantidade" := VInt q]} (db w)) in H.
  rewrite (ref_update_negative_quantity id q (db w) Hneg) in H.
  subst run. rewrite H. unfold response, world_after. simpl.
  by rewrite Hfl.
Qed.

Lemma atualizar_estoque_refuses_negative_quantity_witness :
  let run := atualizar_estoque "p1" (post [("quantidade", "-1")]) shop_world in
  db (world_after run) = db shop_world
  ∧ stored_quantity (db (world_after run)) "p1"
    = stored_quantity (db shop_world) "p1"
  ∧ response run = Ok (Redirect "estoque")
  ∧ flashes (world_after run)
    = flashes shop_world
      ++ [{| message := FmtExn "Erro ao atualizar estoque: "
                               (ValidationError "quantidade");
             category := "error" |}].
Proof.
  assert (Hn : caneta ≠ ∅).
  { intros Hc. assert (Hl : caneta !! "id" = (∅ : Row) !! "id") by by rewrite Hc.
    vm_compute in Hl. discriminate Hl. }
  destruct (atualizar_estoque_refuses_negative_quantity "p1"
              (post [("quantidade", "-1")]) shop_world (-1))
    as (Hdb & Hq & Hrun); [by_vm|lia|].
  split; [exact Hdb|]. split; [exact Hq|].
  apply (Hrun caneta); [by_vm|by_vm|exact Hn].
Defined.

(** *** Reasoning about a view step by step *)

Section Hoare.
Context {S : Type} `{!Store S} (R : relation (World S)) `{!PreOrder R}.
Implicit Types (w : World S).

Lemma hoare_ret {A} (a : A) (Q : A → Prop) : Q a → hoare R (ret a) Q.
Proof. intros Ha w. split; [reflexivity|]. by intros ? [= <-]. Qed.

Lemma hoare_bind {A B} (m : Flask.M A) (k : A → Flask.M B) Q Q' :
  hoare R m Q → (∀ a, Q a → hoare R (k a) Q') → hoare R (bind m k) Q'.
Proof.
  intros Hm Hk w. unfold bind.
  destruct (Hm w) as [Hr Hq]. destruct (m w) as [[a|e] w1]; simpl in *.
  - destruct (Hk a (Hq a eq_refl) w1) as [Hr' Hq'].
    split; [by etrans|done].
  - split; [done|]. by intros.
Qed.

Lemma hoare_try {A} (body : Flask.M A) (h : Exn → Flask.M A) Q :
  hoare R body Q → (∀ e, hoare R (h e) Q) → hoare R (try_except body h) Q.
Proof.
  intros Hb Hh w. unfold try_except.
  destruct (Hb w) as [Hr Hq]. destruct (body w) as [[a|e] w1]; simpl in *.
  - done.
  - destruct (Hh e w1) as [Hr' Hq']. split; [by etrans|done].
Qed.

Lemma hoare_weaken {A} (m : Flask.M A) (Q Q' : A → Prop) :
  hoare R m Q → (∀ a, Q a → Q' a) → hoare R m Q'.
Proof. intros Hm HQ w. destruct (Hm w) as [Hr Hq]. split; [done|]. eauto. Qed.

Lemma hoare_lift {A} (r : Result A) : hoare R (lift r) (λ a, r = Ok a).
Proof. intros w. split; [reflexivity|done]. Qed.

Lemma hoare_raise {A} (e : Exn) (Q : A → Prop) : hoare R (raise e) Q.
Proof. intros w. split; [reflexivity|done]. Qed.

Lemma hoare_get_world : hoare R get_world (λ _, True).
Proof. intros w. split; [reflexivity|done]. Qed.

(** A step that only changes the world by [f] and returns or raises. *)
Lemma hoare_effect {A} (m : Flask.M A) (f : World S → World S) :
  (∀ w, R w (f w)) → (∀ w, (m w).2 = f w ∨ (m w).2 = w) →
  hoare R m (λ _, True).
Proof.
  intros Hf Hm w. split; [|done].
  destruct (Hm w) as [-> | ->]; [apply Hf|reflexivity].
Qed.

End Hoare.

Section Steps.
Context {S : Type} `{!Store S} (R : relation (World S))
  (ok : Call → S → S → Prop) `{!Stepwise R ok}.
Implicit Types (w : World S).

Lemma set_db_same w : set_db (db w) w = w.
Proof. by destruct w. Qed.

Lemma step_read c w : ok c (db w) (db w) → R w (add_call c w).
Proof. intros H. rewrite <- (set_db_same w) at 2. by apply step_call. Qed.

Lemma hoare_flash t cat : hoare R (flash t cat) (λ _, True).
Proof. intros w. split; [apply step_flash|done]. Qed.

Lemma hoare_render_template name ctx :
  hoare R (render_template name ctx) (λ _, True).
Proof.
  intros w. unfold render_template. case_decide; split; done || reflexivity.
Qed.

Lemma hoare_send_static_file name : hoare R (send_static_file name) (λ _, True).
Proof.
  intros w. unfold send_static_file.
  destruct (static_folder w !! name); split; done || reflexivity.
Qed.

Lemma hoare_send_from_directory name :
  hoare R (send_from_directory (S:=S) name) (λ _, True).
Proof.
  intros w. unfold send_from_directory.
  destruct (upload_folder w !! name); split; done || reflexivity.
Qed.

Lemma hoare_file_save name data : hoare R (file_save name data) (λ _, True).
Proof.
  intros w. unfold file_save.
  destruct (disk_ok w); (split; [|done]); simpl;
    first [apply step_upload | reflexivity].
Qed.

Lemma hoare_login_user u : hoare R (login_user (S:=S) u) (λ _, True).
Proof.
  intros w. unfold login_user.
  destruct (is_active u); (split; [|done]); simpl;
    first [apply step_session | reflexivity].
Qed.

Lemma hoare_logout_user : hoare R (logout_user (S:=S)) (λ _, True).
Proof. intros w. split; [apply step_session|done]. Qed.

Lemma hoare_Usuario_get_by_id id :
  (∀ s, ok (CUsuarioGetById id) s s) →
  hoare R (Usuario_get_by_id id) (λ _, True).
Proof. intros H w. split; [by apply step_read|done]. Qed.

Lemma hoare_Model_get_all m :
  (∀ s, ok (CGetAll m) s s) → hoare R (Model_get_all m) (λ _, True).
Proof. intros H w. split; [by apply step_read|done]. Qed.

Lemma hoare_Model_get_by_id m id :
  (∀ s, ok (CGetById m id) s s) →
  hoare R (Model_get_by_id m id) (λ r, True).
Proof. intros H w. split; [by apply step_read|done]. Qed.

Lemma hoare_sync_status :
  (∀ s, ok CGetSyncStatus s s) → hoare R sync_status (λ _, True).
Proof. intros H w. split; [by apply step_read|done]. Qed.

Lemma hoare_Model_create m kwargs :
  (∀ s, ok (CCreate m kwargs) s (create m kwargs s).2) →
  hoare R (Model_create m kwargs) (λ _, True).
Proof.
  intros H w. unfold Model_create. specialize (H (db w)).
  destruct (create m kwargs (db w)) as [r d]. split; [by apply step_call|done].
Qed.

Lemma hoare_Model_update m id kwargs :
  (∀ s, ok (CUpdate m id kwargs) s (update m id kwargs s).2) →
  hoare R (Model_update m id kwargs) (λ _, True).
Proof.
  intros H w. unfold Model_update. specialize (H (db w)).
  destruct (update m id kwargs (db w)) as [r d].
  split; [by apply step_call|done].
Qed.

Lemma hoare_Model_delete m id :
  (∀ s, ok (CDelete m id) s (delete m id s).2) →
  hoare R (Model_delete m id) (λ _, True).
Proof.
  intros H w. unfold Model_delete. specialize (H (db w)).
  destruct (delete m id (db w)) as [r d]. split; [by apply step_call|done].
Qed.

Lemma hoare_sync_call c (f : S → Result unit * S) :
  (∀ s, ok c s (f s).2) → hoare R (sync_call c f) (λ _, True).
Proof.
  intros H w. unfold sync_call. specialize (H (db w)).
  destruct (f (db w)) as [r d]. split; [by apply step_call|done].
Qed.

End Steps.

Create HintDb views discriminated.

#[local] Hint Unfold
  form_item form_int form_float current_user load_user unauthorized
  login_required save_image uploaded_image edited_image count_all
  produto_form cliente_data categoria_data : views.

(** One step of a view: the rule for the construct at the head of the
    computation; [side] discharges what a model call has to satisfy. *)
Ltac hoare_leaf R side :=
  first
    [ apply (hoare_lift R)
    | apply (hoare_flash R _)
    | apply (hoare_get_world R)
    | apply (hoare_render_template R _)
    | apply (hoare_send_static_file R _)
    | apply (hoare_send_from_directory R _)
    | apply (hoare_file_save R _)
    | apply (hoare_login_user R _)
    | apply (hoare_logout_user R _)
    | apply (hoare_Usuario_get_by_id R _); side
    | apply (hoare_Model_get_all R _); side
    | apply (hoare_Model_get_by_id R _); side
    | apply (hoare_sync_status R _); side
    | apply (hoare_Model_create R _); side
    | apply (hoare_Model_update R _); side
    | apply (hoare_Model_delete R _); side
    | apply (hoare_sync_call R _); side ].

Ltac hoare_go side :=
  cbv beta zeta;
  lazymatch goal with
  | |- hoare ?R (bind _ _) _ =>
      first
        [ eapply (hoare_bind R);
          [hoare_leaf R side | intros ? ?; hoare_go side]
        | eapply (hoare_bind R) with (Q := λ _, True);
          [hoare_go side | intros ? _; hoare_go side] ]
  | |- hoare ?R (try_except _ _) _ =>
      apply (hoare_try R); [hoare_go side | intros ?; hoare_go side]
  | |- hoare _ (if ?b then _ else _) _ => destruct b eqn:?; hoare_go side
  | |- hoare _ (match ?x with _ => _ end) _ => destruct x eqn:?; hoare_go side
  | |- hoare ?R (ret _) _ => apply (hoare_ret R); try done
  | |- hoare ?R (raise _) _ => apply (hoare_raise R)
  | |- hoare ?R _ _ =>
      first
        [ eapply (hoare_weaken R); [hoare_leaf R side | done]
        | progress autounfold with views;
          unfold mbind, M_bind, mret, M_ret; hoare_go side ]
  end.

Section Sales.
Implicit Types (d : DB) (w : World DB).

Lemma sales_kept_on_refl d : sales_kept_on d d.
Proof. intros id sale H. by left. Qed.

#[local] Instance sales_kept_stepwise :
  Stepwise sales_kept (λ _ s s', sales_kept_on s s').
Proof.
  split; [split|..]; unfold sales_kept.
  - intros w. apply sales_kept_on_refl.
  - intros w1 w2 w3 H1 H2 id sale H.
    destruct (H2 id sale H) as [H'|H']; [by apply H1|by right].
  - intros f w. apply sales_kept_on_refl.
  - intros n d w. apply sales_kept_on_refl.
  - intros u w. apply sales_kept_on_refl.
  - by intros c d w.
Qed.

Lemma venda_data_fields (a b c d : PyVal) :
  let venda_data : Row :=
    <["cliente_id":=a]> (<["data_venda":=b]> (<["total":=c]>
      (<["status":=d]> ∅))) in
  venda_data !! "total" = Some c ∧ venda_data !! "status" = Some d.
Proof. vm_compute. done. Qed.

(** A total that passes the validation of the store is a non-negative
    decimal. *)
Lemma valid_total (kwargs : Row) (total : PyVal) :
  invalid_field Venda kwargs = None →
  kwargs !! "total" = Some total →
  nonneg_number total = true.
Proof.
  unfold invalid_field, out_of_bounds. simpl. intros Hv Ht.
  rewrite Ht in Hv. simpl in Hv. by destruct (nonneg_number total).
Qed.

(** The store keeps only valid sales when it is asked for a completed
    one. *)
Lemma ref_create_sale (kwargs : Row) (total : PyVal) d :
  kwargs !! "total" = Some total →
  kwargs !! "status" = Some (VStr "concluida") →
  sales_kept_on d (ref_create Venda kwargs d).2.
Proof.
  intros Ht Hs. unfold ref_create.
  destruct (invalid_field Venda kwargs) as [field|] eqn:Hv;
    [apply sales_kept_on_refl|].
  intros id sale. simpl.
  destruct (decide (id = fresh (dom (vendas d)))) as [->|Hid].
  - rewrite lookup_insert_eq. intros [= <-]. right. split.
    + exists total. rewrite lookup_insert_ne by done.
      split; [done|]. by apply (valid_total kwargs).
    + exists "concluida", completed. by rewrite lookup_insert_ne by done.
  - rewrite lookup_insert_ne by done. by left.
Qed.

Lemma nova_venda_keeps_sales (req : Request) :
  hoare sales_kept (nova_venda req) (λ _, True).
Proof.
  unfold nova_venda.
  autounfold with views. unfold mbind, M_bind, mret, M_ret.
  hoare_go ltac:(idtac; try solve [intros ?; apply sales_kept_on_refl]).
  (* the sale that is created *)
  intros d.
  match goal with
  | |- context [list_to_map [(_, ?a); (_, ?b); (_, ?c); (_, ?e)]] =>
      apply (ref_create_sale _ c d);
        [exact (proj1 (venda_data_fields a b c e))
        |exact (proj2 (venda_data_fields a b c e))]
  end.
Qed.

End Sales.

(** C9. On the reference store, every sale created through [nova_venda]
    satisfies the invariant of a sale: the view gives it the status
    'concluida' (completed, one of the three status values) and the total
    read from the form, and [Venda.create] keeps it only when that total is
    a non-negative decimal; for any other total (a negative number, an
    infinity, NaN) it fails with [ValidationError] and no sale is stored. *)
Theorem nova_venda_creates_only_valid_sales
  (req : Request) (w : World DB) (id : string) (sale : Row) :
  vendas (db w) !! id = None →
  vendas (db (world_after (nova_venda req w))) !! id = Some sale →
  valid_sale sale.
Proof.
  intros Hnew Hsale.
  destruct (nova_venda_keeps_sales req w) as [Hkept _].
  destruct (Hkept id sale Hsale) as [Hold|Hvalid]; [congruence|done].
Qed.

Lemma nova_venda_creates_only_valid_sales_witness :
  let req := post [("cliente_id", "cl1"); ("total", "12.5")] in
  let sale : Row :=
    list_to_map [("id", VStr "0"); ("cliente_id", VStr "cl1");
                 ("data_venda", VStr "2024-05-01T10:00:00");
                 ("total", VFloat (FFin false 7036874417766400 (-49)));
                 ("status", VStr "concluida")] in
  vendas (db shop_world) !! "0" = None
  ∧ vendas (db (world_after (nova_venda req shop_world))) !! "0" = Some sale
  ∧ valid_sale sale.
Proof.
  intros req sale.
  assert (Hnew : vendas (db shop_world) !! "0" = None) by by_vm.
  assert (Hsale : vendas (db (world_after (nova_venda req shop_world))) !! "0"
                  = Some sale) by by_vm.
  split; [exact Hnew|]. split; [exact Hsale|].
  exact (nova_venda_creates_only_valid_sales req shop_world "0" sale
           Hnew Hsale).
Defined.

Section Ledger.
Implicit Types (d : DB) (m : Model) (w : World DB).

Lemma produtos_set_table m (t : gmap string Row) d :
  produtos (set_table m t d)
  = match m with Produto | Estoque => t | _ => produtos d end.
Proof. by destruct m. Qed.

(** A quantity that passes the validation of the store is a non-negative
    integer. *)
Lemma valid_quantity m (fields : Row) :
  m = Produto ∨ m = Estoque →
  invalid_field m fields = None → nonneg_quantity fields = true.
Proof.
  unfold invalid_field, out_of_bounds, nonneg_quantity.
  intros [-> | ->] Hv; simpl in Hv;
    destruct (fields !! "preco") as [p|]; simpl in Hv;
    try destruct (nonneg_number p); simpl in Hv; try discriminate Hv;
    destruct (fields !! "quantidade") as [v|]; simpl in *; try done;
    by destruct (nonneg_integer v).
Qed.

Lemma ref_create_stock m (kwargs : Row) d :
  no_negative_stock d → no_negative_stock (ref_create m kwargs d).2.
Proof.
  intros Hd. unfold ref_create.
  destruct (invalid_field m kwargs) as [field|] eqn:Hv; [done|].
  unfold no_negative_stock in *. simpl.
  rewrite produtos_set_table.
  destruct m; try done; simpl;
    (apply map_Forall_insert_2; [|done]);
    unfold nonneg_quantity; rewrite lookup_insert_ne by done;
    apply (valid_quantity _ kwargs) in Hv; auto.
Qed.

Lemma ref_update_stock m (id : string) (patch : Row) d :
  no_negative_stock d → no_negative_stock (ref_update m id patch d).2.
Proof.
  intros Hd. unfold ref_update.
  destruct (invalid_field m patch) as [field|] eqn:Hv; [done|].
  destruct (table m d !! id) as [row|] eqn:Hrow; [|done].
  unfold no_negative_stock in *.
  destruct m; simpl in *; try done;
    (apply map_Forall_insert_2; [|done]);
    specialize (Hd id row Hrow); simpl in Hd;
    (apply (valid_quantity _ patch) in Hv; [|auto]);
    unfold nonneg_quantity in *;
    rewrite lookup_union, lookup_delete_ne by done;
    destruct (patch !! "quantidade") as [v|];
    destruct (row !! "quantidade") as [v'|]; done.
Qed.

Lemma ref_delete_stock m (id : string) d :
  no_negative_stock d → no_negative_stock (ref_delete m id d).2.
Proof.
  intros Hd. unfold ref_delete.
  destruct (table m d !! id) as [row|] eqn:Hrow; [|done].
  destruct (referenced m id d); [done|].
  unfold no_negative_stock in *. simpl.
  destruct m; simpl; try done; by apply map_Forall_delete.
Qed.

#[global] Instance stock_kept_stepwise :
  Stepwise stock_kept (λ _ s s', no_negative_stock s → no_negative_stock s').
Proof.
  split; [split|..]; unfold stock_kept.
  - by intros w.
  - intros w1 w2 w3 H1 H2 H. auto.
  - by intros f w.
  - by intros n d w.
  - by intros u w.
  - by intros c d w.
Qed.

End Ledger.

(** What a model call has to satisfy for the stock invariant: reads change
    nothing, and the store validates what it is asked to create or
    update. *)
Ltac stock_side :=
  intros ?;
  first
    [ exact (λ H, H)
    | apply ref_delete_stock
    | apply ref_create_stock
    | apply ref_update_stock ].

Lemma view_keeps_stock (r : Route) (req : Request) :
  hoare stock_kept (view r req) (λ _, True).
Proof.
  destruct r; simpl;
    unfold index, fallback, teste, debug, login, logout, App.clientes,
      novo_cliente, editar_cliente, excluir_cliente, App.categorias,
      nova_categoria, editar_categoria, excluir_categoria, App.produtos,
      novo_produto, editar_produto, excluir_produto, estoque,
      atualizar_estoque, App.vendas, nova_venda, relatorios,
      api_relatorio_vendas, api_relatorio_estoque, start_sync_route,
      stop_sync_route, force_sync_route, sync_status_route, manifest,
      service_worker, teste_clientes, api_teste, api_status, uploaded_file,
      teste_sessao;
    autounfold with views; unfold mbind, M_bind, mret, M_ret;
    hoare_go ltac:(idtac; stock_side).
Qed.

(** C2. On the reference store, whatever requests the application serves, to
    whatever views and in whatever order, product creation, product edit
    and stock update included, a stock in which every quantity is a
    non-negative integer stays so: the views pass the submitted quantity on
    unchecked, and [create] and [update] refuse one below zero with
    [ValidationError], so that no negative stock is ever stored. *)
Theorem stock_stays_non_negative
  (l : list (Route * Request)) (w : World DB) :
  no_negative_stock (db w) →
  no_negative_stock (db (serve_all l w)).
Proof.
  revert w. induction l as [|[r req] l IH]; intros w Hw; [done|].
  unfold serve_all. simpl. apply IH. unfold serve. simpl.
  destruct (accepts r req); [|done].
  by apply (view_keeps_stock r req w).
Qed.

Lemma stock_stays_non_negative_witness :
  let after :=
    db (serve_all
          [(r_novo_produto,
            post [("nome", "Lapis"); ("descricao", ""); ("preco", "1.5");
                  ("quantidade", "-3"); ("categoria_id", "c1");
                  ("codigo_barras", "")]);
           (r_atualizar_estoque "p1", post [("quantidade", "-1")]);
           (r_editar_produto "p2",
            post [("nome", "Borracha"); ("categoria_id", "c1");
                  ("quantidade", "-٣")]);
           (r_atualizar_estoque "p2", post [("quantidade", "4")])]
          shop_world) in
  no_negative_stock after
  ∧ stored_quantity after "p1" = Some (VInt 7)
  ∧ stored_quantity after "p2" = Some (VInt 4).
Proof.
  split; [|split; by_vm].
  apply stock_stays_non_negative.
  apply (bool_decide_unpack _). vm_compute. exact I.
Defined.

(** C3 fails on the code: the pen is stored with quantity 7, price 2.50,
    description "azul" and bar code "789"; the logged-in administrator posts
    an edit that carries the name and the category only.  The view reports
    success, and the stored product now has quantity 0, price 0.0, an empty
    description and an empty bar code; the image, for which the view keeps
    the stored value, is unchanged. *)
Lemma editar_produto_resets_omitted_fields :
  let req := post [("nome", "Caneta"); ("categoria_id", "c1")] in
  let after := db (world_after (editar_produto "p1" req shop_world)) in
  produtos shop !! "p1" = Some caneta
  ∧ response (editar_produto "p1" req shop_world) = Ok (Redirect "produtos")
  ∧ flashes (world_after (editar_produto "p1" req shop_world))
    = [{| message := Lit "Produto atualizado com sucesso!";
          category := "success" |}]
  ∧ produtos after !! "p1"
    = Some (list_to_map
              [("id", VStr "p1"); ("nome", VStr "Caneta");
               ("descricao", VStr ""); ("preco", VFloat float_zero);
               ("quantidade", VInt 0); ("categoria_id", VStr "c1");
               ("codigo_barras", VStr ""); ("imagem", VStr "caneta.png")]).
Proof. repeat split; by_vm. Qed.

(** ** Further properties of the views *)

Section Sessions.
Context {S : Type} `{!Store S}.
Implicit Types (w : World S) (req : Request).

Lemma identity_cases w :
  identity w
  = match session_user_id w with
    | None => Anonymous
    | Some uid =>
        match user_lookup uid w with
        | Ok (Some u) => Logged u
        | _ => if String.eqb uid "admin"
               then Logged (MockUser "admin" "admin" "Administrador")
               else Anonymous
        end
    end.
Proof.
  unfold identity, user_lookup, current_user, load_user, Usuario_get_by_id,
    try_except, get_world, mbind, M_bind, bind, mret, M_ret, ret; simpl.
  destruct (session_user_id w) as [uid|]; simpl; [|done].
  destruct SUPABASE_AVAILABLE; simpl.
  - destruct (usuario_get_by_id uid (db w)) as [[u|]|e]; simpl; try done;
      destruct (String.eqb uid "admin"); done.
  - destruct (String.eqb uid "admin"); done.
Qed.

Lemma user_lookup_frame uid w w' :
  db w' = db w → user_lookup uid w' = user_lookup uid w.
Proof. unfold user_lookup. by intros ->. Qed.

Lemma admin_session_authenticated w :
  session_user_id w = Some "admin" →
  admin_lookup_authenticated w → authenticated w = true.
Proof.
  intros Hs Ha. unfold authenticated. rewrite identity_cases, Hs.
  unfold admin_lookup_authenticated in Ha.
  by destruct (user_lookup "admin" w) as [[u|]|e].
Qed.

End Sessions.

(** X1. When the store has no user object for the session id — Supabase
    is unavailable, [Usuario.get_by_id] answers nothing, or it raises —
    [load_user] falls back to the mock administrator for the id 'admin' and
    to nobody for any other id: the caller is authenticated exactly when the
    session id is 'admin'. *)
Theorem session_without_store_user_is_admin_or_nobody
  {S : Type} `{!Store S} (w : World S) (uid : string) :
  session_user_id w = Some uid →
  lookup_finds_nobody uid w →
  authenticated w = bool_decide (uid = "admin")
  ∧ identity w = if bool_decide (uid = "admin")
                 then Logged (MockUser "admin" "admin" "Administrador")
                 else Anonymous.
Proof.
  intros Hs Hl. unfold authenticated. rewrite identity_cases, Hs.
  unfold lookup_finds_nobody in Hl.
  destruct (user_lookup uid w) as [[u|]|e]; [done|..];
    destruct (String.eqb_spec uid "admin") as [->|Hne];
    by rewrite ?bool_decide_eq_true_2, ?bool_decide_eq_false_2 by done.
Qed.

Lemma session_without_store_user_witness :
  authenticated shop_world = true
  ∧ authenticated shop_stale = false
  ∧ authenticated (S:=unit) (Store0:=Unreachable) mock_admin_world = true.
Proof.
  assert (H1 : lookup_finds_nobody "admin" shop_world)
    by (apply (bool_decide_unpack _); vm_compute; exact I).
  assert (H2 : lookup_finds_nobody "mallory" shop_stale)
    by (apply (bool_decide_unpack _); vm_compute; exact I).
  assert (H3 : lookup_finds_nobody (S:=unit) (Store0:=Unreachable) "admin"
                 mock_admin_world) by exact I.
  split; [|split].
  - exact (proj1 (session_without_store_user_is_admin_or_nobody
                    shop_world "admin" eq_refl H1)).
  - exact (proj1 (session_without_store_user_is_admin_or_nobody
                    shop_stale "mallory" eq_refl H2)).
  - exact (proj1 (session_without_store_user_is_admin_or_nobody
                    (S:=unit) (Store0:=Unreachable) mock_admin_world "admin"
                    eq_refl H3)).
Defined.

(** X2. For a logged-in caller [logout] clears the session, flashes that the
    logout succeeded and redirects to the login page; the caller is not
    authenticated afterwards, whatever the store holds. *)
Theorem logout_ends_session
  {S : Type} `{!Store S} (req : Request) (w : World S) :
  authenticated w = true →
  response (logout req w) = Ok (Redirect "login")
  ∧ session_user_id (world_after (logout req w)) = None
  ∧ authenticated (world_after (logout req w)) = false
  ∧ flashes (world_after (logout req w))
    = flashes w ++ [{| message := Lit "Logout realizado com sucesso!";
                       category := "info" |}]
  ∧ db (world_after (logout req w)) = db w.
Proof.
  intros Hw. destruct (loaded_frame w) as (Hdb & _ & Hfl & _).
  unfold logout. rewrite (login_required_auth _ w Hw).
  unfold logout_user, flash, mbind, M_bind, bind, mret, M_ret, ret,
    response, world_after; simpl.
  rewrite Hfl, Hdb. repeat split.
Qed.

Lemma logout_ends_session_witness :
  authenticated (world_after (logout get shop_world)) = false.
Proof.
  assert (Hw : authenticated shop_world = true) by by_vm.
  exact (proj1 (proj2 (proj2 (logout_ends_session get shop_world Hw)))).
Defined.

(** X3. A POST of the administrator's credentials to [login] puts the id
    'admin' in the session, and the next request of that caller is
    authenticated, provided the store's own user object for 'admin', if it
    has one, is an authenticated one. *)
Theorem login_opens_admin_session
  {S : Type} `{!Store S} (req : Request) (w : World S) :
  method req = POST →
  form req !! "username" = Some "admin" →
  form req !! "password" = Some "admin123" →
  admin_lookup_authenticated w →
  session_user_id (world_after (login req w)) = Some "admin"
  ∧ authenticated (world_after (login req w)) = true.
Proof.
  intros Hm Hu Hp Ha.
  rewrite (login_post req w _ _ Hm Hu Hp). simpl.
  unfold world_after, login_accepted; simpl. split; [done|].
  apply admin_session_authenticated; [done|].
  unfold admin_lookup_authenticated in *.
  by rewrite (user_lookup_frame "admin" w).
Qed.

Lemma login_opens_admin_session_witness :
  authenticated
    (world_after (login (post [("username", "admin"); ("password", "admin123")])
                        shop_anon)) = true.
Proof.
  assert (Ha : admin_lookup_authenticated shop_anon)
    by (apply (bool_decide_unpack _); vm_compute; exact I).
  exact (proj2 (login_opens_admin_session
                  (post [("username", "admin"); ("password", "admin123")])
                  shop_anon eq_refl eq_refl eq_refl Ha)).
Defined.

(** X4. An image that [save_image] stores can be fetched back: for a file
    with a name and a writable disk, [save_image] returns the name
    [uuid_securename], [uploaded_file] then serves exactly the uploaded
    content under that name, and every other file of the folder is served as
    before. *)
Theorem save_image_then_uploaded_file
  {S : Type} (uuid : string) (file : Upload) (req : Request) (w : World S) :
  filename file ≠ "" →
  disk_ok w = true →
  let name := uuid +:+ "_" +:+ safe_name file in
  let w' := (save_image uuid file w).2 in
  (save_image uuid file w).1 = Ok (Some name)
  ∧ response (uploaded_file name req w') = Ok (SendFile (content file))
  ∧ ∀ other, other ≠ name →
      response (uploaded_file other req w')
      = response (uploaded_file other req w).
Proof.
  intros Hn Hd name w'. subst name w'.
  unfold save_image, file_save, try_except, mbind, M_bind, bind, mret,
    M_ret, ret.
  destruct (String.eqb_spec (filename file) "") as [|_]; [done|]. simpl.
  rewrite Hd. simpl.
  unfold uploaded_file, send_from_directory, try_except, response; simpl.
  split; [done|]. split.
  - by rewrite lookup_insert_eq.
  - intros other Ho. rewrite lookup_insert_ne.
    + by destruct (upload_folder w !! other).
    + intros E. apply Ho. by rewrite E.
Qed.

Lemma save_image_then_uploaded_file_witness :
  response
    (uploaded_file "0b5e_foto.png" get
       (save_image "0b5e"
          {| filename := "foto.png"; safe_name := "foto.png"; content := "JPG" |}
          mock_world).2)
  = Ok (SendFile "JPG").
Proof.
  assert (Hn : filename {| filename := "foto.png"; safe_name := "foto.png";
                           content := "JPG" |} ≠ "") by (intros [=]).
  exact (proj1 (proj2 (save_image_then_uploaded_file (S:=unit) "0b5e"
                         {| filename := "foto.png"; safe_name := "foto.png";
                            content := "JPG" |} get mock_world Hn eq_refl))).
Defined.

(** X5. [save_image] never raises: for a file without a name, or when the
    folder cannot be written, it returns [None] and leaves the world as it
    was, so the failure of the disk is not reported to the caller. *)
Theorem save_image_failure_is_silent
  {S : Type} (uuid : string) (file : Upload) (w : World S) :
  filename file = "" ∨ disk_ok w = false →
  save_image uuid file w = (Ok None, w).
Proof.
  intros Hc.
  unfold save_image, file_save, try_except, mbind, M_bind, bind, mret,
    M_ret, ret.
  destruct (String.eqb_spec (filename file) "") as [|Hn]; [done|]. simpl.
  destruct Hc as [Hc|Hc]; [done|]. by rewrite Hc.
Qed.

Lemma save_image_failure_is_silent_witness :
  save_image "0b5e"
    {| filename := ""; safe_name := ""; content := "JPG" |} mock_world
  = (Ok None, mock_world).
Proof.
  apply (save_image_failure_is_silent (S:=unit)). left. reflexivity.
Defined.

(** X6. Editing a customer, a category or a product, or updating the stock,
    under an id for which the model answers nothing (or an empty row): the
    view flashes its "not found" message, redirects to the list and does
    nothing else — the lookup is the only call made and the store is
    untouched, whatever the form holds. *)
Theorem edit_of_unknown_id_is_refused
  {S : Type} `{!Store S} (r : Route) (req : Request) (w : World S)
  (m : Model) (id msg endpoint : string) (found : option Row) :
  lookup_target r = Some (m, id, msg, endpoint) →
  authenticated w = true →
  get_by_id m id (db w) = Ok found →
  opt_row_truthy found = false →
  reads_before_lookup r req →
  view r req w
  = (Ok (Redirect endpoint),
     add_flash {| message := Lit msg; category := "error" |}
               (add_call (CGetById m id) (loaded w))).
Proof.
  intros Ht Hw Hg Hf Hq. destruct (loaded_frame w) as (Hdb & _).
  destruct r; try discriminate Ht; injection Ht as <- <- <- <-; simpl;
    unfold editar_cliente, editar_categoria, editar_produto, atualizar_estoque;
    rewrite (login_required_auth _ w Hw);
    unfold try_except, Model_get_by_id, form_int, lift, flash,
      mbind, M_bind, bind, mret, M_ret, ret; simpl.
  1-3: by rewrite Hdb, Hg, Hf.
  destruct Hq as [q Hq]. unfold form_quantity in Hq. rewrite Hq. simpl.
  by rewrite Hdb, Hg, Hf.
Qed.

Lemma edit_of_unknown_id_is_refused_witness :
  response (view (r_editar_produto "p9") (post [("nome", "Lapis")]) shop_world)
  = Ok (Redirect "produtos")
  ∧ db (world_after (view (r_editar_produto "p9") (post [("nome", "Lapis")])
                          shop_world)) = shop
  ∧ response (view (r_atualizar_estoque "p9") (post [("quantidade", "3")])
                   shop_world)
    = Ok (Redirect "estoque").
Proof.
  assert (Hw : authenticated shop_world = true) by by_vm.
  assert (Hg : get_by_id Produto "p9" (db shop_world) = Ok None) by by_vm.
  pose proof (edit_of_unknown_id_is_refused (r_editar_produto "p9")
                (post [("nome", "Lapis")]) shop_world Produto "p9"
                "Produto não encontrado!" "produtos" None eq_refl Hw Hg
                eq_refl I) as H1.
  assert (Hq : reads_before_lookup (r_atualizar_estoque "p9")
                 (post [("quantidade", "3")])) by (exists 3; by_vm).
  pose proof (edit_of_unknown_id_is_refused (r_atualizar_estoque "p9")
                (post [("quantidade", "3")]) shop_world Produto "p9"
                "Produto não encontrado!" "estoque" None eq_refl Hw Hg
                eq_refl Hq) as H2.
  rewrite H1, H2. split; [done|]. split; [|done].
  unfold world_after. simpl. apply (loaded_frame shop_world).
Defined.

(** *** What a view writes

    The calls a view adds to the list, followed step by step as for the
    stock invariant, now keeping what each step returned. *)

Section Traces.
Context {S : Type} `{!Store S}.

#[global] Instance traced_stepwise (P : Call → Prop) :
  Stepwise (traced (S:=S) P)
           (λ c s s', P c ∧ (writes c = false → s' = s)).
Proof.
  split.
  - split.
    + intros w. exists []. by rewrite app_nil_r.
    + intros w1 w2 w3 (cs & H1 & F1 & D1) (cs' & H2 & F2 & D2).
      exists (cs ++ cs'). rewrite H2, H1, app_assoc.
      split; [done|]. split; [by apply Forall_app|].
      intros [Ha Hb]%Forall_app. by rewrite D2, D1.
  - intros f w. exists []. by rewrite app_nil_r.
  - intros n d w. exists []. by rewrite app_nil_r.
  - intros u w. exists []. by rewrite app_nil_r.
  - intros c d w [Hc Hd]. exists [c]. split; [done|].
    split; [by constructor|]. intros [Hw _]%Forall_cons. simpl. by apply Hd.
Qed.


End Traces.

Create HintDb steps discriminated.

#[local] Hint Unfold
  form_item form_int form_float current_user load_user unauthorized
  login_required save_image count_all produto_form : steps.

Ltac hoare_walk leaf side :=
  cbv beta zeta;
  lazymatch goal with
  | |- hoare ?R (bind _ _) _ =>
      first
        [ eapply (hoare_bind R);
          [first [leaf | hoare_leaf R side] | intros ? ?; hoare_walk leaf side]
        | eapply (hoare_bind R) with (Q := λ _, True);
          [hoare_walk leaf side | intros ? _; hoare_walk leaf side] ]
  | |- hoare ?R (try_except _ _) _ =>
      apply (hoare_try R); [hoare_walk leaf side | intros ?; hoare_walk leaf side]
  | |- hoare _ (if ?b then _ else _) _ => destruct b eqn:?; hoare_walk leaf side
  | |- hoare _ (match ?x with _ => _ end) _ =>
      destruct x eqn:?; hoare_walk leaf side
  | |- hoare ?R (ret _) _ => apply (hoare_ret R); try done
  | |- hoare ?R (raise _) _ => apply (hoare_raise R)
  | |- hoare ?R _ _ =>
      first
        [ eapply (hoare_weaken R); [first [leaf | hoare_leaf R side] | done]
        | progress autounfold with steps;
          unfold mbind, M_bind, mret, M_ret; hoare_walk leaf side ]
  end.

Lemma form_item_ok (req : Request) (k v : string) :
  match form req !! k with
  | Some v => Ok v
  | None => Raise (BadRequestKeyError k)
  end = Ok v →
  form req !! k = Some v.
Proof. destruct (form req !! k); [by intros [= ->]|done]. Qed.

Ltac form_facts :=
  cbv beta in *;
  repeat match goal with
         | H : match form _ !! ?k with _ => _ end = Ok _ |- _ =>
             apply form_item_ok in H
         end.

Ltac carried :=
  form_facts; intros k; case_bool_decide;
  unfold cliente_fields, categoria_fields in *;
  [ repeat match goal with
           | H : _ ∈ _ :: _ |- _ => apply elem_of_cons in H as [->|H]
           | H : _ ∈ [] |- _ => by apply elem_of_nil in H
           end;
    eexists; (split; [eassumption|]); vm_compute; reflexivity
  | repeat match goal with
           | H : _ ∉ _ :: _ |- _ => apply not_elem_of_cons in H as [? H]
           end;
    simpl; rewrite !lookup_insert_ne by done; apply lookup_empty ].

Section Forms.
Context {S : Type} `{!Store S} (R : relation (World S)) `{!PreOrder R}.

Lemma hoare_cliente_data req :
  hoare R (cliente_data req) (carries_form cliente_fields req).
Proof.
  unfold cliente_data. autounfold with steps. unfold mbind, M_bind, mret, M_ret.
  hoare_walk ltac:(idtac; fail) ltac:(idtac; fail).
  carried.
Qed.

Lemma hoare_categoria_data req :
  hoare R (categoria_data req) (carries_form categoria_fields req).
Proof.
  unfold categoria_data. autounfold with steps. unfold mbind, M_bind, mret, M_ret.
  hoare_walk ltac:(idtac; fail) ltac:(idtac; fail).
  carried.
Qed.
End Forms.

Section Images.
Context {S : Type} `{!Store S} (R : relation (World S))
  (ok : Call → S → S → Prop) `{!Stepwise R ok}.

Lemma hoare_uploaded_image req :
  hoare R (uploaded_image req) (λ o, image_of req VNone (opt_str o)).
Proof.
  unfold uploaded_image. unfold mbind, M_bind, mret, M_ret.
  hoare_walk ltac:(idtac; fail) ltac:(idtac; fail); try by left.
  right. eexists. split; [done|]. split; [|done].
  match goal with H : negb _ = true |- _ => apply negb_true_iff in H end.
  by apply String.eqb_neq.
Qed.

Lemma hoare_required req k t e :
  hoare R (if form_missing req k
           then bind (flash t "error") (λ _, raise e)
           else ret ())
        (λ _, form_missing req k = false).
Proof.
  destruct (form_missing req k) eqn:E.
  - eapply (hoare_bind R); [apply (hoare_flash R _)|].
    intros _ _. apply (hoare_raise R).
  - by apply (hoare_ret R).
Qed.

Lemma form_present req k :
  form_missing req k = false → ∃ v, form req !! k = Some v ∧ v ≠ "".
Proof.
  unfold form_missing. destruct (form req !! k) as [v|]; [|done].
  intros E. exists v. split; [done|]. by apply String.eqb_neq.
Qed.

Lemma float_of_int_0 : float_of_int 0 = Ok float_zero.
Proof. by_vm. Qed.

Lemma hoare_save_image uuid file :
  hoare R (save_image uuid file)
    (λ o, ∀ n, o = Some n → n = uuid +:+ "_" +:+ safe_name file).
Proof.
  unfold save_image. unfold mbind, M_bind, mret, M_ret.
  hoare_walk ltac:(idtac; fail) ltac:(idtac; fail); by intros ? [=].
Qed.

Lemma hoare_edited_image req produto :
  hoare R (edited_image req produto)
        (image_of req (dict_get produto "imagem" VNone)).
Proof.
  unfold edited_image. unfold mbind, M_bind, mret, M_ret.
  hoare_walk ltac:(idtac; apply hoare_save_image) ltac:(idtac; fail);
    try by left.
  right. eexists. split; [done|]. split.
  - match goal with H : negb _ = true |- _ => apply negb_true_iff in H end.
    by apply String.eqb_neq.
  - f_equal. eauto.
Qed.
End Images.

Ltac trace_leaf R :=
  lazymatch goal with
  | |- hoare _ (cliente_data _) _ => apply (hoare_cliente_data R)
  | |- hoare _ (categoria_data _) _ => apply (hoare_categoria_data R)
  | |- hoare _ (uploaded_image _) _ => apply (hoare_uploaded_image R _)
  | |- hoare _ (edited_image _ _) _ => apply (hoare_edited_image R _)
  | |- hoare _ (if form_missing _ _ then _ else _) _ =>
      apply (hoare_required R _)
  end.

Ltac trace_side :=
  intros ?; split;
  [ first [ by intros [=] | intros _ ]
  | first [ by intros _ | by intros [=] ] ].

Section Profile.
Context {S : Type} `{!Store S}.

Lemma view_trace (r : Route) (req : Request) :
  hoare (traced (in_profile r req)) (view (S:=S) r req) (λ _, True).
Proof.
  destruct r; simpl;
    unfold index, fallback, teste, debug, login, logout, App.clientes,
      novo_cliente, editar_cliente, excluir_cliente, App.categorias,
      nova_categoria, editar_categoria, excluir_categoria, App.produtos,
      novo_produto, editar_produto, excluir_produto, estoque,
      atualizar_estoque, App.vendas, nova_venda, relatorios,
      api_relatorio_vendas, api_relatorio_estoque, start_sync_route,
      stop_sync_route, force_sync_route, sync_status_route, manifest,
      service_worker, teste_clientes, api_teste, api_status, uploaded_file,
      teste_sessao;
    autounfold with steps; unfold mbind, M_bind, mret, M_ret;
    hoare_walk ltac:(idtac; match goal with |- hoare ?R _ _ => trace_leaf R end)
               ltac:(idtac; trace_side).
  all: try (split; [assumption|eauto]; fail).
  all: try (hnf; eauto; fail).
  - (* novo_produto *)
    split; [done|]. eexists. split; [done|]. form_facts.
    unfold float_of_str in *.
    match goal with
    | H : match py_float ?s with _ => _ end = Ok ?f |- _ =>
        destruct (py_float s) eqn:Hf; [|discriminate H]; injection H as ->
    end.
    split; [|split; [|split; [|split]]].
    + intros k Hk.
      repeat match goal with
             | H : _ ∈ _ :: _ |- _ => apply elem_of_cons in H as [->|H]
             | H : _ ∈ [] |- _ => by apply elem_of_nil in H
             end; (eexists; split; [eassumption|]; vm_compute; reflexivity).
    + do 2 eexists. split; [eassumption|]. split; [eassumption|].
      vm_compute; reflexivity.
    + unfold form_quantity. eexists. split; [eassumption|].
      vm_compute; reflexivity.
    + eexists. split; [eassumption|]. vm_compute; reflexivity.
    + intros k Hk. unfold produto_fields in Hk.
      repeat match goal with
             | H : _ ∉ _ :: _ |- _ => apply not_elem_of_cons in H as [? H]
             end.
      simpl. rewrite !lookup_insert_ne by done. apply lookup_empty.
  - (* editar_produto *)
    split; [done|]. eexists. split; [done|]. cbv beta in *.
    repeat match goal with
           | H : form_missing _ _ = false |- _ =>
               apply form_present in H as (? & ? & ?)
           end.
    form_facts.
    split; [|split; [|split; [|split; [|split]]]].
    + intros k Hk.
      repeat match goal with
             | H : _ ∈ _ :: _ |- _ => apply elem_of_cons in H as [->|H]
             | H : _ ∈ [] |- _ => by apply elem_of_nil in H
             end; (eexists; split; [eassumption|]; split; [congruence|]);
        vm_compute; reflexivity.
    + intros k Hk.
      repeat match goal with
             | H : _ ∈ _ :: _ |- _ => apply elem_of_cons in H as [->|H]
             | H : _ ∈ [] |- _ => by apply elem_of_nil in H
             end; simpl; by simplify_map_eq.
    + eexists. split; [simpl; by simplify_map_eq|].
      destruct (form req !! "preco") as [p|]; [|rewrite float_of_int_0 in *; congruence].
      unfold float_of_str in *. destruct (py_float p); congruence.
    + unfold form_quantity. eexists. split; [eassumption|].
      simpl; by simplify_map_eq.
    + simpl. by simplify_map_eq.
    + intros k Hk. unfold produto_fields in Hk.
      repeat match goal with
             | H : _ ∉ _ :: _ |- _ => apply not_elem_of_cons in H as [? H]
             end.
      simpl. rewrite !lookup_insert_ne by done. apply lookup_empty.
  - (* atualizar_estoque *)
    cbv beta in *. unfold form_quantity. eexists. split; [eassumption|done].
Qed.
End Profile.

Section Written.
Context {S : Type} `{!Store S}.
Implicit Types (w : World S).

(** Every call a view adds is in its profile. *)
Lemma view_calls r req w c :
  new_call w (view r req w) c → in_profile r req c.
Proof.
  intros (before & after & Hc).
  destruct (view_trace r req w) as [(cs & Hcs & Hall & _) _].
  unfold world_after in Hc. rewrite Hcs in Hc.
  apply app_inv_head in Hc. subst cs.
  apply Forall_app in Hall as [_ Hall].
  by apply Forall_cons in Hall as [Hall _].
Qed.

Lemma read_only_not_permitted r req c :
  read_only r req = true → permitted r req c → False.
Proof.
  destruct r; simpl; try done;
    intros Hn [Hp _]; by rewrite Hp in Hn.
Qed.

End Written.

(** X7. A request that only reads. The list pages, the reports, the stock
    page, the dashboard, login, logout and the test, file and status routes,
    and a GET of any form page, make no call that creates, updates or
    deletes a row or drives the synchronisation, and leave the store as it
    was, whatever the store, the session and the request hold. *)
Theorem read_only_requests_change_nothing
  {S : Type} `{!Store S} (r : Route) (req : Request) (w : World S) :
  read_only r req = true →
  db (world_after (view r req w)) = db w
  ∧ ∀ c, new_call w (view r req w) c → writes c = false.
Proof.
  intros Hr.
  destruct (view_trace r req w) as [(cs & Hcs & Hall & Hdb) _].
  assert (Hno : Forall (λ c, writes c = false) cs).
  { eapply Forall_impl; [exact Hall|]. intros c Hc.
    destruct (writes c) eqn:E; [|done].
    destruct (read_only_not_permitted r req c Hr (Hc E)). }
  split; [by apply Hdb|].
  intros c (before & after & Hc). unfold world_after in Hc.
  rewrite Hcs in Hc. apply app_inv_head in Hc. subst cs.
  apply Forall_app in Hno as [_ Hno].
  by apply Forall_cons in Hno as [Hno _].
Qed.

Lemma read_only_requests_change_nothing_witness :
  db (world_after (view (r_editar_produto "p1") get shop_world)) = db shop_world
  ∧ ∀ c, new_call shop_world (view (r_editar_produto "p1") get shop_world) c →
         writes c = false.
Proof.
  by apply (read_only_requests_change_nothing (r_editar_produto "p1") get).
Defined.

(** X8. What the customer and category forms write. The only writing call
    [novo_cliente], [editar_cliente], [nova_categoria] and
    [editar_categoria] make is, on a POST, the creation of a row of their
    model or the update of the row named in the URL, with the submitted text
    of every field of the form and nothing else; since every field has to
    be present, a form lacking one writes nothing. *)
Theorem entity_forms_write_the_submitted_fields
  {S : Type} `{!Store S} (r : Route) (req : Request) (w : World S)
  (c : Call) (m : Model) (target : option string) :
  form_target r = Some (m, target) →
  new_call w (view r req w) c →
  writes c = true →
  is_post req = true
  ∧ ∃ kwargs, c = write_call m target kwargs
              ∧ carries_form (fields_of m) req kwargs.
Proof.
  intros Ht Hc Hw. pose proof (view_calls r req w c Hc Hw) as Hp.
  destruct r; try discriminate Ht; injection Ht as <- <-; exact Hp.
Qed.

Lemma entity_forms_write_the_submitted_fields_witness :
  let req := post [("nome", "Escrita"); ("descricao", ""); ("cor", "#fff");
                   ("icone", "pen")] in
  is_post req = true
  ∧ ∃ kwargs,
      CUpdate Categoria "c1"
        (list_to_map [("nome", VStr "Escrita"); ("descricao", VStr "");
                      ("cor", VStr "#fff"); ("icone", VStr "pen")])
      = write_call Categoria (Some "c1") kwargs
      ∧ carries_form (fields_of Categoria) req kwargs.
Proof.
  apply (entity_forms_write_the_submitted_fields (r_editar_categoria "c1")
           _ shop_world _ Categoria (Some "c1") eq_refl); [|done].
  exists [CUsuarioGetById "admin"; CGetById Categoria "c1"], []. by_vm.
Defined.

(** X9. What [novo_produto] writes. Its only writing call is, on a POST,
    the creation of one product whose name, description, category and bar
    code are the submitted texts, all of which have to be present, whose
    price is the submitted text read as a float, whose quantity is the
    submitted text read as an integer (0 when the field is absent) and whose
    image is nothing or the stored name of the upload; a form that lacks a
    field, or whose price or quantity does not read as a number, creates
    nothing. *)
Theorem novo_produto_creates_from_the_form
  {S : Type} `{!Store S} (req : Request) (w : World S) (c : Call) :
  new_call w (novo_produto req w) c →
  writes c = true →
  is_post req = true
  ∧ ∃ kwargs, c = CCreate Produto kwargs ∧ created_product req kwargs.
Proof. intros Hc Hw. exact (view_calls r_novo_produto req w c Hc Hw). Qed.

Lemma novo_produto_creates_from_the_form_witness :
  let req := post [("nome", "Lapis"); ("descricao", "preto");
                   ("preco", "1.0"); ("quantidade", "12");
                   ("categoria_id", "c1"); ("codigo_barras", "791")] in
  is_post req = true
  ∧ ∃ kwargs,
      CCreate Produto
        (list_to_map [("nome", VStr "Lapis"); ("descricao", VStr "preto");
                      ("preco", VFloat (FFin false 4503599627370496 (-52)));
                      ("quantidade", VInt 12); ("categoria_id", VStr "c1");
                      ("codigo_barras", VStr "791"); ("imagem", VNone)])
      = CCreate Produto kwargs
      ∧ created_product req kwargs.
Proof.
  apply (novo_produto_creates_from_the_form _ shop_world); [|done].
  exists [CUsuarioGetById "admin"], []. by_vm.
Defined.

(** X10. What [editar_produto] writes. Its only writing call is, on a POST,
    the update of the product named in the URL, and it is made only when the
    submitted name and category are both present and not empty and the
    price and the quantity read as numbers; the update then carries all
    seven product fields, the description and the bar code being the
    submitted text or the empty string. *)
Theorem editar_produto_updates_only_a_valid_form
  {S : Type} `{!Store S} (id : string) (req : Request) (w : World S)
  (c : Call) :
  new_call w (editar_produto id req w) c →
  writes c = true →
  is_post req = true
  ∧ ∃ kwargs, c = CUpdate Produto id kwargs ∧ edited_product req kwargs.
Proof.
  intros Hc Hw. exact (view_calls (r_editar_produto id) req w c Hc Hw).
Qed.

Lemma editar_produto_updates_only_a_valid_form_witness :
  let req := post [("nome", "Caneta"); ("categoria_id", "c1");
                   ("preco", "1.0"); ("quantidade", "5")] in
  is_post req = true
  ∧ ∃ kwargs,
      CUpdate Produto "p1"
        (list_to_map [("nome", VStr "Caneta"); ("descricao", VStr "");
                      ("preco", VFloat (FFin false 4503599627370496 (-52)));
                      ("quantidade", VInt 5); ("categoria_id", VStr "c1");
                      ("codigo_barras", VStr "");
                      ("imagem", VStr "caneta.png")])
      = CUpdate Produto "p1" kwargs
      ∧ edited_product req kwargs.
Proof.
  apply (editar_produto_updates_only_a_valid_form "p1" _ shop_world); [|done].
  exists [CUsuarioGetById "admin"; CGetById Produto "p1"], []. by_vm.
Defined.

(** X11. Deleting needs no more than a logged-in GET. The delete routes
    list GET only; on such a request, whatever else it holds,
    [excluir_cliente], [excluir_categoria] and [excluir_produto] ask the
    model once to delete the row named in the URL, leave the store as that
    call left it, flash one message, which is a success message exactly
    when the model answered true, and redirect to the list. *)
Theorem excluir_deletes_on_a_plain_get
  {S : Type} `{!Store S} (r : Route) (req : Request) (w : World S)
  (m : Model) (id endpoint : string) :
  delete_target r = Some (m, id, endpoint) →
  accepts r req = true →
  authenticated w = true →
  let run := view r req w in
  let answer := delete m id (db w) in
  response run = Ok (Redirect endpoint)
  ∧ calls (world_after run) = calls w ++ load_calls w ++ [CDelete m id]
  ∧ db (world_after run) = answer.2
  ∧ ∃ f, flashes (world_after run) = flashes w ++ [f]
         ∧ (category f = "success" ↔ answer.1 = Ok true).
Proof.
  intros Ht _ Hw.
  destruct (loaded_frame w) as (Hdb & _ & Hfl & _ & _ & _ & _ & Hcalls).
  destruct r; try discriminate Ht; injection Ht as <- <- <-; simpl;
    unfold excluir_cliente, excluir_categoria, excluir_produto;
    rewrite (login_required_auth _ w Hw);
    unfold try_except, Model_delete, flash,
      mbind, M_bind, bind, mret, M_ret, ret; simpl; rewrite Hdb;
    (destruct (delete _ _ (db w)) as [[[|]|e] d]; simpl;
     rewrite Hfl, Hcalls, <- app_assoc;
     (split; [done|]); (split; [done|]); (split; [done|]);
     eexists; (split; [done|]); simpl; split; done).
Qed.

Lemma excluir_deletes_on_a_plain_get_witness :
  let run := view (r_excluir_produto "p2") get shop_world in
  let answer := delete Produto "p2" (db shop_world) in
  response run = Ok (Redirect "produtos")
  ∧ calls (world_after run)
    = calls shop_world ++ load_calls shop_world ++ [CDelete Produto "p2"]
  ∧ db (world_after run) = answer.2
  ∧ ∃ f, flashes (world_after run) = flashes shop_world ++ [f]
         ∧ (category f = "success" ↔ answer.1 = Ok true).
Proof.
  apply (excluir_deletes_on_a_plain_get (r_excluir_produto "p2") get
           shop_world Produto "p2" "produtos" eq_refl eq_refl).
  by_vm.
Defined.

(** X12. The dashboard counts what loads. For a logged-in user [index]
    shows, for customers, products, categories and sales, the number of rows
    the model returns, a model whose call raises being counted as 0 without
    disturbing the other three, and never the error page; anybody else is
    redirected to the login page.  No message is flashed either way. *)
Theorem index_counts_what_loads
  {S : Type} `{!Store S} (req : Request) (w : World S) :
  response (index req w)
  = Ok (if authenticated w
        then Html (DashboardPage (counted Cliente w) (counted Produto w)
                                 (counted Categoria w) (counted Venda w))
        else Redirect "login")
  ∧ flashes (world_after (index req w)) = flashes w.
Proof.
  destruct (loaded_frame w) as (Hdb & _ & Hfl & _).
  unfold index, try_except, mbind, M_bind, bind, response, world_after.
  rewrite current_user_runs. fold (authenticated w).
  destruct (authenticated w); simpl; [|by split].
  unfold counted, count_all, Model_get_all, try_except, mbind, M_bind, bind,
    mret, M_ret, ret; simpl. rewrite Hdb.
  destruct (get_all Cliente (db w)); simpl; rewrite ?Hdb;
    destruct (get_all Produto (db w)); simpl; rewrite ?Hdb;
    destruct (get_all Categoria (db w)); simpl; rewrite ?Hdb;
    destruct (get_all Venda (db w)); simpl; by split.
Qed.

Section Degraded.
Context {S : Type} `{!Store S}.

Lemma mapR_raises {A B} (f : A → Result B) (l : list A) (a : A) (e : Exn) :
  a ∈ l → f a = Raise e → ∃ e', mapR f l = Raise e'.
Proof.
  intros Ha Hf. induction l as [|b l IH]; [by apply elem_of_nil in Ha|].
  simpl. apply elem_of_cons in Ha as [<-|Ha].
  - rewrite Hf. by eexists.
  - destruct (f b); simpl; [|by eexists].
    destruct (IH Ha) as [e' ->]. by eexists.
Qed.

Lemma estoque_item_raises (p : Row) :
  incomparable (dict_get p "quantidade" (VInt 0)) →
  ∃ e, estoque_item p = Raise e.
Proof.
  unfold estoque_item.
  destruct (dict_get p "quantidade" (VInt 0)); simpl; try done;
    by eexists.
Qed.

End Degraded.

(** X13. One bad row empties the stock page. When [Produto.get_all] raises,
    or when a single product has a quantity that is [None] or text, the
    stock page of a logged-in user lists no product at all and shows the
    counters 0, 0 and 0; it shows no error. *)
Theorem estoque_unreadable_stock_shows_nothing
  {S : Type} `{!Store S} (req : Request) (w : World S) :
  authenticated w = true →
  stock_unreadable w →
  response (estoque req w) = Ok (Html (EstoquePage 0 0 0 [])).
Proof.
  intros Hw Hs. destruct (loaded_frame w) as (Hdb & _).
  unfold estoque. rewrite (login_required_auth _ w Hw).
  unfold stock_unreadable in Hs.
  unfold try_except, Model_get_all, lift, mbind, M_bind, bind, mret, M_ret,
    ret, response; simpl. rewrite Hdb.
  destruct (get_all Produto (db w)) as [ps|e]; simpl; [|done].
  destruct Hs as (p & Hp & Hq).
  destruct (estoque_item_raises p Hq) as [e He].
  destruct (mapR_raises estoque_item ps p e Hp He) as [e' ->]. done.
Qed.

Lemma estoque_unreadable_stock_shows_nothing_witness :
  let lost : Row := <["quantidade" := VNone]> caneta in
  let w := set_db (set_table Produto {[ "p1" := lost ]} shop) shop_world in
  response (estoque get w) = Ok (Html (EstoquePage 0 0 0 [])).
Proof.
  apply estoque_unreadable_stock_shows_nothing; [by_vm|].
  unfold stock_unreadable.
  assert (E : get_all Produto
                (db (set_db (set_table Produto
                               {[ "p1" := <["quantidade" := VNone]> caneta ]}
                               shop) shop_world))
              = Ok [<["quantidade" := VNone]> caneta]) by by_vm.
  rewrite E. exists (<["quantidade" := VNone]> caneta).
  split; [apply list_elem_of_here|].
  assert (Q : dict_get (<["quantidade" := VNone]> caneta) "quantidade" (VInt 0)
              = VNone) by by_vm.
  by rewrite Q.
Defined.

(** X14. A list page without its template. When the template of the
    customer, category, product or sale list is missing, the view fails
    with [TemplateNotFound] for a logged-in user, whatever the models
    answer: the handler of its [try] renders the same template again. *)
Theorem list_page_without_template_fails
  {S : Type} `{!Store S} (r : Route) (req : Request) (w : World S)
  (name : string) :
  list_template r = Some name →
  authenticated w = true →
  name ∉ templates w →
  response (view r req w) = Raise (TemplateNotFound name).
Proof.
  intros Ht Hw Hn.
  destruct (loaded_frame w) as (Hdb & _ & _ & _ & _ & _ & Htpl & _).
  destruct r; try discriminate Ht; injection Ht as <-; simpl;
    unfold App.clientes, App.categorias, App.produtos, App.vendas;
    rewrite (login_required_auth _ w Hw);
    unfold try_except, Model_get_all, render_template, flash, response,
      mbind, M_bind, bind, mret, M_ret, ret; simpl;
    repeat (destruct (get_all _ _); simpl);
    repeat first [rewrite decide_False by done | progress simpl
                 | rewrite Htpl]; done.
Qed.

Lemma list_page_without_template_fails_witness :
  response (view r_produtos get shop_world)
  = Raise (TemplateNotFound "produtos.html").
Proof.
  apply list_page_without_template_fails; [done|by_vm|].
  apply (bool_decide_unpack _). vm_compute. exact I.
Defined.

(** X15. A login form without a user name or a password. A POST to
    [login] that lacks one of the two fields is not answered by the view:
    the lookup of the field raises the bad-request error before anything is
    checked, and the session and the messages stay as they were. *)
Theorem login_post_without_credentials_is_refused_as_bad_request
  {S : Type} (req : Request) (w : World S) :
  is_post req = true →
  form req !! "username" = None ∨ form req !! "password" = None →
  ∃ key, login req w = (Raise (BadRequestKeyError key), w)
         ∧ form req !! key = None
         ∧ (key = "username" ∨ key = "password").
Proof.
  intros Hp Hk. unfold login, form_item, lift, mbind, M_bind, bind.
  rewrite Hp.
  destruct (form req !! "username") as [u|] eqn:Eu.
  - destruct Hk as [Hk|Hk]; [done|]. exists "password". rewrite Hk. auto.
  - exists "username". auto.
Qed.

Lemma login_post_without_credentials_witness :
  ∃ key, login (post [("username", "admin")]) mock_world
         = (Raise (BadRequestKeyError key), mock_world)
         ∧ form (post [("username", "admin")]) !! key = None
         ∧ (key = "username" ∨ key = "password").
Proof.
  apply login_post_without_credentials_is_refused_as_bad_request; [done|].
  right. by_vm.
Defined.

(** *** Views that answer *)

Section Answers.
Context {S : Type} `{!Store S}.
Implicit Types (w : World S).

#[global] Instance same_files_stepwise :
  Stepwise (same_files (S:=S)) (λ _ _ _, True).
Proof.
  split; [split|..]; unfold same_files.
  - by intros w.
  - intros w1 w2 w3 [H1 H2] [H3 H4]. split; congruence.
  - by intros f w.
  - by intros n d w.
  - by intros u w.
  - by intros c d w.
Qed.

Lemma same_files_deployed w w' : same_files w w' → deployed w → deployed w'.
Proof. intros [Ht Hs] [H1 H2]. unfold deployed. by rewrite Ht, Hs. Qed.

Lemma answers_ret {A} (a : A) : answers (S:=S) (ret a).
Proof. intros w _. by exists a. Qed.

Lemma answers_bind {A B} (m : Flask.M A) (k : A → Flask.M B) :
  answers m → hoare same_files m (λ _, True) → (∀ a, answers (k a)) →
  answers (S:=S) (bind m k).
Proof.
  intros Hm Hf Hk w Hw. destruct (Hm w Hw) as [a Ha].
  destruct (Hf w) as [Hs _]. unfold bind.
  destruct (m w) as [[a'|e] w1]; simpl in *; [|done].
  apply Hk. by apply (same_files_deployed w).
Qed.

Lemma answers_try {A} (body : Flask.M A) (h : Exn → Flask.M A) :
  hoare same_files body (λ _, True) → (∀ e, answers (h e)) →
  answers (S:=S) (try_except body h).
Proof.
  intros Hf Hh w Hw. destruct (Hf w) as [Hs _]. unfold try_except.
  destruct (body w) as [[a|e] w1]; simpl in *; [by exists a|].
  apply Hh. by apply (same_files_deployed w).
Qed.

Lemma answers_flash t cat : answers (S:=S) (flash t cat).
Proof. intros w _. by exists (). Qed.

Lemma answers_render_template name ctx :
  name ∈ page_templates → answers (S:=S) (render_template name ctx).
Proof.
  intros Hn w [Ht _]. unfold render_template.
  rewrite decide_True by auto. by eexists.
Qed.

Lemma answers_send_static_file name :
  name ∈ static_files → answers (S:=S) (send_static_file name).
Proof.
  intros Hn w [_ Hs]. unfold send_static_file.
  destruct (Hs name Hn) as [data ->]. by eexists.
Qed.

Lemma answers_current_user : answers (S:=S) current_user.
Proof. intros w _. rewrite current_user_runs. by eexists. Qed.

Lemma answers_form_item req key :
  is_Some (form req !! key) → answers (S:=S) (form_item req key).
Proof. intros [v Hv] w _. unfold form_item, lift. rewrite Hv. by eexists. Qed.

Lemma answers_login_user u : answers (S:=S) (login_user u).
Proof. intros w _. unfold login_user. destruct (is_active u); by eexists. Qed.

Lemma answers_logout_user : answers (S:=S) logout_user.
Proof. intros w _. by exists (). Qed.

End Answers.

Ltac same_files_frame :=
  autounfold with views; unfold mbind, M_bind, mret, M_ret;
  hoare_go ltac:(idtac; done).

Ltac answers_go :=
  cbv beta zeta;
  lazymatch goal with
  | |- answers (bind _ _) =>
      apply answers_bind; [answers_go | same_files_frame | intros ?; answers_go]
  | |- answers (try_except _ _) =>
      apply answers_try; [same_files_frame | intros ?; answers_go]
  | |- answers (if ?b then _ else _) => destruct b eqn:?; answers_go
  | |- answers (match ?x with _ => _ end) => destruct x eqn:?; answers_go
  | |- answers (ret _) => apply answers_ret
  | |- answers (flash _ _) => apply answers_flash
  | |- answers (render_template _ _) =>
      apply answers_render_template; unfold page_templates; set_solver
  | |- answers (send_static_file _) =>
      apply answers_send_static_file; unfold static_files; set_solver
  | |- answers current_user => apply answers_current_user
  | |- answers (form_item _ _) => apply answers_form_item; tauto
  | |- answers (login_user _) => apply answers_login_user
  | |- answers logout_user => apply answers_logout_user
  | |- answers _ =>
      progress unfold login_required, unauthorized, produto_form;
      unfold mbind, M_bind, mret, M_ret; answers_go
  end.

Section Answered.
Context {S : Type} `{!Store S}.

Lemma view_answers (r : Route) (req : Request) :
  (r = r_login → sends_credentials req) → answers (view (S:=S) r req).
Proof.
  intros Hl.
  destruct r; simpl;
    unfold index, fallback, teste, debug, login, logout, App.clientes,
      novo_cliente, editar_cliente, excluir_cliente, App.categorias,
      nova_categoria, editar_categoria, excluir_categoria, App.produtos,
      novo_produto, editar_produto, excluir_produto, estoque,
      atualizar_estoque, App.vendas, nova_venda, relatorios,
      api_relatorio_vendas, api_relatorio_estoque, start_sync_route,
      stop_sync_route, force_sync_route, sync_status_route, manifest,
      service_worker, teste_clientes, api_teste, api_status, uploaded_file,
      teste_sessao;
    unfold mbind, M_bind, mret, M_ret;
    try (specialize (Hl eq_refl); unfold sends_credentials in Hl;
         destruct (is_post req) eqn:Hp;
         [destruct (Hl eq_refl) as [? ?]|clear Hl]);
    try clear Hl;
    answers_go.
Qed.

End Answered.

(** X16. No exception leaves a deployed application, a POST to [login]
    apart. With the nine page templates and the three static files in
    place, every view returns a response on every request that reaches it
    (by a method its route lists) and is not a POST to [login], whatever
    the session holds, whatever the form and the upload are and whatever
    the models return or raise.  [login] reads its form outside any [try],
    so what a POST to it does is left out here. *)
Theorem views_answer_when_deployed
  {S : Type} `{!Store S} (r : Route) (req : Request) (w : World S) :
  deployed w →
  accepts r req = true →
  (r = r_login → is_post req = false) →
  ∃ resp, response (view r req w) = Ok resp.
Proof.
  intros Hw _ Hl. apply view_answers; [|done].
  intros Hr Hp. rewrite (Hl Hr) in Hp. discriminate Hp.
Qed.

Lemma views_answer_when_deployed_witness :
  ∃ resp, response (view r_produtos get shop_deployed) = Ok resp.
Proof.
  apply views_answer_when_deployed; [|done|done].
  split; intros n Hn.
  - unfold page_templates in Hn.
    repeat (apply elem_of_cons in Hn as [->|Hn]);
      [..|by apply elem_of_nil in Hn];
      apply (bool_decide_unpack _); vm_compute; exact I.
  - unfold static_files in Hn.
    repeat (apply elem_of_cons in Hn as [->|Hn]);
      [..|by apply elem_of_nil in Hn];
      exists "..."; by_vm.
Defined.

(** *** Start-up *)

Section Boot.
Context {S : Type} {store : Store S} {mach : Startup.Machine S}.
Implicit Types (b : Startup.Boot S).

Lemma added_app b (x : Result unit * Startup.Boot S) (l : list Startup.Event) :
  Startup.events x.2 = Startup.events b ++ l → Startup.added b x = l.
Proof. intros E. unfold Startup.added. rewrite E. apply drop_app_length. Qed.

Lemma criar_usuario_padrao_runs b :
  ∃ l s,
    Startup.criar_usuario_padrao b
    = (Ok (), {| Startup.machine := s;
                 Startup.events := Startup.events b ++ l |})
    ∧ l = (if SUPABASE_AVAILABLE
           then Startup.EUsuarioGetAll
                :: match Startup.usuario_get_all (Startup.machine b) with
                   | Ok [] => [Startup.EUsuarioCreate Startup.usuario_padrao]
                   | _ => []
                   end
           else []).
Proof.
  unfold Startup.criar_usuario_padrao, Startup.try_except, Startup.call,
    mbind, Startup.B_bind, Startup.bind, mret, Startup.B_ret, Startup.ret.
  destruct SUPABASE_AVAILABLE; simpl.
  - destruct (Startup.usuario_get_all (Startup.machine b)) as [[|u us]|e];
      simpl.
    + destruct (Startup.usuario_create Startup.usuario_padrao
                  (Startup.machine b)) as [[c|e] s]; simpl;
        eexists _, _; (split; [|done]); by rewrite <- app_assoc.
    + by eexists _, _.
    + by eexists _, _.
  - destruct b as [s evs]. exists [], s. by rewrite app_nil_r.
Qed.

End Boot.

(** X17. The default user. [criar_usuario_padrao] never raises. It asks
    for the users only when Supabase is available, and creates the default
    administrator, once, only when that call returns an empty list: when
    users exist, or when the call raises, nothing is created. *)
Theorem criar_usuario_padrao_only_fills_an_empty_table
  {S : Type} {store : Store S} {mach : Startup.Machine S}
  (b : Startup.Boot S) :
  (Startup.criar_usuario_padrao b).1 = Ok ()
  ∧ Startup.added b (Startup.criar_usuario_padrao b)
    = if SUPABASE_AVAILABLE
      then Startup.EUsuarioGetAll
           :: match Startup.usuario_get_all (Startup.machine b) with
              | Ok [] => [Startup.EUsuarioCreate Startup.usuario_padrao]
              | _ => []
              end
      else [].
Proof.
  destruct (criar_usuario_padrao_runs b) as (l & s & E & Hl).
  split; [by rewrite E|]. rewrite <- Hl. apply added_app. by rewrite E.
Qed.

Section Main.
Context {S : Type} {store : Store S} {mach : Startup.Machine S}.
Implicit Types (b : Startup.Boot S) (l : list Startup.Event).

Lemma quiet_app l l' :
  Startup.quiet l → Startup.quiet l' → Startup.quiet (l ++ l').
Proof. unfold Startup.quiet. intros H H'. by rewrite List.filter_app, H, H'. Qed.

Lemma connected_quiet b :
  ∃ r b1 l, Startup.connected b = (r, b1)
            ∧ Startup.events b1 = Startup.events b ++ l ∧ Startup.quiet l.
Proof.
  unfold Startup.connected, Startup.call.
  destruct Startup.supabase as [[test|]|]; simpl.
  - destruct (test (Startup.machine b)) as [r s].
    by eexists _, _, [Startup.ETestConnection].
  - exists (Ok false), b, []. by rewrite app_nil_r.
  - exists (Ok false), b, []. by rewrite app_nil_r.
Qed.

Lemma criar_usuario_padrao_quiet b :
  ∃ b1 l, Startup.criar_usuario_padrao b = (Ok (), b1)
          ∧ Startup.events b1 = Startup.events b ++ l ∧ Startup.quiet l.
Proof.
  destruct (criar_usuario_padrao_runs b) as (l & s & E & ->).
  eexists _, _. split; [exact E|]. split; [done|].
  destruct SUPABASE_AVAILABLE; [|done].
  by destruct (Startup.usuario_get_all (Startup.machine b)) as [[|u us]|e].
Qed.

Lemma start_sync_quiet b :
  ∃ b1 l,
    Startup.try_except (Startup.call Startup.EStartSync start_sync)
                       (λ _, Startup.ret ()) b = (Ok (), b1)
    ∧ Startup.events b1 = Startup.events b ++ l ∧ Startup.quiet l.
Proof.
  unfold Startup.try_except, Startup.call, Startup.ret.
  destruct (start_sync (Startup.machine b)) as [[[]|e] s];
    by eexists _, [Startup.EStartSync].
Qed.

Lemma serve_runs b p :
  Startup.port = Ok p →
  ∃ r b1, Startup.serve b = (r, b1)
          ∧ Startup.events b1 = Startup.events b ++ [Startup.ERun p].
Proof.
  intros Hp. unfold Startup.serve, Startup.call. rewrite Hp.
  destruct (Startup.app_run p (Startup.machine b)) as [r s]. by eexists _, _.
Qed.

(** What [main] adds: steps that are not runs of the server, then one run,
    then a second one if the [try] block raised. *)
Lemma main_runs b p :
  Startup.port = Ok p →
  ∃ l, Startup.quiet l
       ∧ (Startup.added b (Startup.main b) = l ++ [Startup.ERun p]
          ∨ Startup.added b (Startup.main b)
            = l ++ [Startup.ERun p; Startup.ERun p]).
Proof.
  intros Hp.
  assert (Hserve : ∀ b1 l,
    Startup.events b1 = Startup.events b ++ l →
    Startup.added b
      (Startup.try_except Startup.serve (λ _, Startup.serve) b1)
    = l ++ [Startup.ERun p]
    ∨ Startup.added b
        (Startup.try_except Startup.serve (λ _, Startup.serve) b1)
      = l ++ [Startup.ERun p; Startup.ERun p]).
  { intros b1 l E1. unfold Startup.try_except.
    destruct (serve_runs b1 p Hp) as (r2 & b2 & -> & E2).
    destruct r2 as [[]|e].
    - left. apply added_app. simpl. by rewrite E2, E1, <- app_assoc.
    - right. destruct (serve_runs b2 p Hp) as (r3 & b3 & -> & E3).
      apply added_app. simpl. by rewrite E3, E2, E1, <- !app_assoc. }
  unfold Startup.main, mbind, Startup.B_bind, mret, Startup.B_ret.
  destruct (connected_quiet b) as (r & b1 & l1 & Ec & E1 & Q1).
  destruct r as [[|]|e].
  - destruct (criar_usuario_padrao_quiet b1) as (b2 & l2 & Eu & E2 & Q2).
    destruct (start_sync_quiet b2) as (b3 & l3 & Es & E3 & Q3).
    exists (l1 ++ l2 ++ l3). split; [by repeat apply quiet_app|].
    assert (E : Startup.events b3 = Startup.events b ++ l1 ++ l2 ++ l3)
      by (by rewrite E3, E2, E1, <- !app_assoc).
    destruct (Hserve b3 _ E) as [H|H]; [left|right]; rewrite <- H;
      unfold Startup.try_except, Startup.bind; rewrite Ec, Eu; simpl;
      unfold Startup.try_except in Es; rewrite Es; done.
  - destruct (criar_usuario_padrao_quiet b1) as (b2 & l2 & Eu & E2 & Q2).
    exists (l1 ++ l2). split; [by apply quiet_app|].
    assert (E : Startup.events b2 = Startup.events b ++ l1 ++ l2)
      by (by rewrite E2, E1, <- !app_assoc).
    destruct (Hserve b2 _ E) as [H|H]; [left|right]; rewrite <- H;
      unfold Startup.try_except, Startup.bind; rewrite Ec, Eu; done.
  - exists l1. split; [done|]. left.
    unfold Startup.try_except, Startup.bind. rewrite Ec.
    destruct (serve_runs b1 p Hp) as (r2 & b2 & -> & E2).
    apply added_app. simpl. by rewrite E2, E1, <- app_assoc.
Qed.

End Main.

(** X18. Start-up serves on the configured port. When PORT is unset or an
    integer literal, [__main__] starts the server on that port (5000 when
    unset) as its last step, whatever the connection test, the creation of
    the default user and the start of the synchronisation did; it starts it
    a second time, on the same port, only when its [try] block raised, and
    never more than twice. *)
Theorem main_serves_on_the_configured_port
  {S : Type} {store : Store S} {mach : Startup.Machine S}
  (b : Startup.Boot S) (p : Z) :
  Startup.port = Ok p →
  let steps := Startup.added b (Startup.main b) in
  last steps = Some (Startup.ERun p)
  ∧ (List.filter Startup.is_run steps = [Startup.ERun p]
     ∨ List.filter Startup.is_run steps = [Startup.ERun p; Startup.ERun p]).
Proof.
  intros Hp. simpl. destruct (main_runs b p Hp) as (l & Q & [-> | ->]).
  - split; [apply last_snoc|]. left.
    by rewrite List.filter_app, Q.
  - split.
    + change (l ++ [Startup.ERun p; Startup.ERun p])
        with (l ++ [Startup.ERun p] ++ [Startup.ERun p]).
      rewrite app_assoc. apply last_snoc.
    + right. by rewrite List.filter_app, Q.
Qed.

Lemma main_serves_on_the_configured_port_witness :
  let mach := Startup.MockMachine (Some " 8080 ") (λ _ s, (Ok (), s)) in
  let b := {| Startup.machine := (); Startup.events := [] |} in
  let steps := Startup.added b (Startup.main (mach := mach) b) in
  last steps = Some (Startup.ERun 8080)
  ∧ (List.filter Startup.is_run steps = [Startup.ERun 8080]
     ∨ List.filter Startup.is_run steps
       = [Startup.ERun 8080; Startup.ERun 8080]).
Proof.
  apply (main_serves_on_the_configured_port
           (mach := Startup.MockMachine (Some " 8080 ") (λ _ s, (Ok (), s)))).
  by_vm.
Defined.

(** X19. A PORT that is not an integer. When the environment variable PORT
    is set to text that does not read as an integer, [__main__] never
    starts the server: the conversion fails in the [try] block and again in
    the [except] branch, from where the error leaves the program. *)
Theorem main_with_a_malformed_port_never_serves
  {S : Type} {store : Store S} {mach : Startup.Machine S}
  (b : Startup.Boot S) (s : string) :
  Startup.PORT = Some s →
  py_int s = None →
  (Startup.main b).1 = Raise (IntLiteralError s)
  ∧ Startup.quiet (Startup.added b (Startup.main b)).
Proof.
  intros Hs Hi.
  assert (Hserve : ∀ b1, Startup.serve b1 = (Raise (IntLiteralError s), b1)).
  { intros b1. unfold Startup.serve, Startup.port, int_of_str.
    by rewrite Hs, Hi. }
  unfold Startup.main, mbind, Startup.B_bind, mret, Startup.B_ret.
  destruct (connected_quiet b) as (r & b1 & l1 & Ec & E1 & Q1).
  destruct r as [[|]|e].
  - destruct (criar_usuario_padrao_quiet b1) as (b2 & l2 & Eu & E2 & Q2).
    destruct (start_sync_quiet b2) as (b3 & l3 & Es & E3 & Q3).
    unfold Startup.try_except, Startup.bind. rewrite Ec, Eu. simpl.
    unfold Startup.try_except in Es. rewrite Es, !Hserve. simpl.
    split; [done|].
    rewrite (added_app b _ (l1 ++ l2 ++ l3));
      [by repeat apply quiet_app|].
    simpl. by rewrite E3, E2, E1, <- !app_assoc.
  - destruct (criar_usuario_padrao_quiet b1) as (b2 & l2 & Eu & E2 & Q2).
    unfold Startup.try_except, Startup.bind. rewrite Ec, Eu, !Hserve. simpl.
    split; [done|].
    rewrite (added_app b _ (l1 ++ l2)); [by apply quiet_app|].
    simpl. by rewrite E2, E1, <- !app_assoc.
  - unfold Startup.try_except, Startup.bind. rewrite Ec, !Hserve. simpl.
    split; [done|]. by rewrite (added_app b _ l1).
Qed.

Lemma main_with_a_malformed_port_never_serves_witness :
  let mach := Startup.MockMachine (Some "http") (λ _ s, (Ok (), s)) in
  let b := {| Startup.machine := (); Startup.events := [] |} in
  (Startup.main (mach := mach) b).1 = Raise (IntLiteralError "http")
  ∧ Startup.quiet (Startup.added b (Startup.main (mach := mach) b)).
Proof.
  apply (main_with_a_malformed_port_never_serves
           (mach := Startup.MockMachine (Some "http") (λ _ s, (Ok (), s))));
    [done|by_vm].
Defined.

(** X20. A connection test that raises. When [supabase.test_connection]
    raises, [__main__] goes straight to its [except] branch: the default
    user is not looked for or created and the synchronisation is not
    started, yet the server is started, once, on the configured port. *)
Theorem main_skips_preparation_when_the_connection_test_raises
  {S : Type} {store : Store S} {mach : Startup.Machine S}
  (b : Startup.Boot S) (test : S → Result bool * S) (e : Exn) (p : Z) :
  Startup.supabase = Some (Some test) →
  (test (Startup.machine b)).1 = Raise e →
  Startup.port = Ok p →
  Startup.added b (Startup.main b) = [Startup.ETestConnection; Startup.ERun p].
Proof.
  intros Hs Ht Hp.
  unfold Startup.main, Startup.connected, Startup.try_except, Startup.call,
    mbind, Startup.B_bind, Startup.bind.
  rewrite Hs. destruct (test (Startup.machine b)) as [r s1]. simpl in Ht.
  subst r. simpl.
  match goal with
  | |- context [Startup.serve ?b1] =>
      destruct (serve_runs b1 p Hp) as (r2 & b2 & -> & E2)
  end.
  apply added_app. simpl in *. by rewrite E2, <- app_assoc.
Qed.

Lemma main_skips_preparation_witness :
  let mach := Startup.Offline None (λ _ s, (Ok (), s)) in
  let b := {| Startup.machine := (); Startup.events := [] |} in
  Startup.added b (Startup.main (mach := mach) b)
  = [Startup.ETestConnection; Startup.ERun 5000].
Proof.
  apply (main_skips_preparation_when_the_connection_test_raises
           (mach := Startup.Offline None (λ _ s, (Ok (), s))) _
           (λ s, (Raise ConnectionError, s)) ConnectionError); done.
Defined.

(** X21. An upload outlives a rejected form. [novo_produto] stores the
    uploaded image before it reads the form, so a POST that brings an image
    but lacks the product's name creates no product and still leaves the
    file in the upload folder. *)
Theorem novo_produto_keeps_the_upload_of_a_rejected_form
  {S : Type} `{!Store S} (req : Request) (w : World S) (file : Upload) :
  authenticated w = true →
  is_post req = true →
  files req !! "imagem" = Some file →
  filename file ≠ "" →
  disk_ok w = true →
  form req !! "nome" = None →
  upload_folder (world_after (novo_produto req w))
  = <[stored_name req file := content file]> (upload_folder w)
  ∧ ∀ c, new_call w (novo_produto req w) c → writes c = false.
Proof.
  intros Hw Hp Hf Hn Hd Hnome.
  destruct (loaded_frame w) as (_ & _ & _ & Hup & Hdisk & _).
  split.
  - unfold novo_produto. rewrite (login_required_auth _ w Hw).
    unfold uploaded_image, save_image, file_save, form_item, produto_form,
      try_except, Model_get_all, render_template, flash, lift, world_after,
      mbind, M_bind, bind, mret, M_ret, ret.
    rewrite Hp, Hf, Hnome.
    apply String.eqb_neq in Hn. rewrite Hn. simpl. rewrite Hdisk, Hd. simpl.
    destruct (get_all Categoria _); simpl;
      repeat (case_decide; simpl); by rewrite Hup.
  - intros c Hc. destruct (writes c) eqn:E; [|done].
    destruct (view_calls r_novo_produto req w c Hc E)
      as (_ & kw & _ & Hk & _).
    destruct (Hk "nome") as (v & Hv & _); [set_solver|]. congruence.
Qed.

Lemma novo_produto_keeps_the_upload_witness :
  let file := {| filename := "lapis.png"; safe_name := "lapis.png";
                 content := "PNG" |} in
  let req := {| method := POST; form := {[ "descricao" := "preto" ]};
                files := {[ "imagem" := file ]};
                now := "2024-05-01T10:00:00"; uuid4 := "0b5e" |} in
  upload_folder (world_after (novo_produto req shop_world))
  = <[stored_name req file := content file]> (upload_folder shop_world)
  ∧ ∀ c, new_call shop_world (novo_produto req shop_world) c →
         writes c = false.
Proof.
  apply novo_produto_keeps_the_upload_of_a_rejected_form;
    first [by_vm | done].
Defined.

(** X22. The synchronisation routes. They list GET only; for a logged-in
    user and on such a request, [start_sync_route], [stop_sync_route] and
    [force_sync_route] call their function once, keep what it did to the
    store and redirect to the dashboard; the message they flash reports an
    error exactly when the function raised. *)
Theorem sync_routes_report_what_the_call_did
  {S : Type} `{!Store S} (r : Route) (req : Request) (w : World S)
  (c : Call) (f : S → Result unit * S) :
  sync_target r = Some (c, f) →
  accepts r req = true →
  authenticated w = true →
  let run := view r req w in
  response run = Ok (Redirect "index")
  ∧ calls (world_after run) = calls w ++ load_calls w ++ [c]
  ∧ db (world_after run) = (f (db w)).2
  ∧ ∃ fl, flashes (world_after run) = flashes w ++ [fl]
          ∧ (reports_error fl ↔ ∃ e, (f (db w)).1 = Raise e).
Proof.
  intros Ht _ Hw.
  destruct (loaded_frame w) as (Hdb & _ & Hfl & _ & _ & _ & _ & Hcalls).
  destruct r; try discriminate Ht; injection Ht as <- <-; simpl;
    unfold start_sync_route, stop_sync_route, force_sync_route;
    rewrite (login_required_auth _ w Hw);
    unfold try_except, sync_call, flash,
      mbind, M_bind, bind, mret, M_ret, ret; simpl; rewrite Hdb;
    (match goal with
     | |- context [?g (db w)] =>
         lazymatch type of (g (db w)) with
         | (Result unit * S)%type => destruct (g (db w)) as [[[]|e] d]
         end
     end; simpl;
     rewrite Hfl, Hcalls, <- app_assoc;
     (split; [done|]); (split; [done|]); (split; [done|]);
     eexists; (split; [done|]); unfold reports_error; simpl;
     (split; [ first [by intros [=] | intros _; by eexists]
             | first [by intros [? [=]] | done] ])).
Qed.

Lemma sync_routes_report_what_the_call_did_witness :
  let run := view r_force_sync get shop_world in
  response run = Ok (Redirect "index")
  ∧ calls (world_after run)
    = calls shop_world ++ load_calls shop_world ++ [CForceSync]
  ∧ db (world_after run) = (force_sync (db shop_world)).2
  ∧ ∃ fl, flashes (world_after run) = flashes shop_world ++ [fl]
          ∧ (reports_error fl ↔ ∃ e, (force_sync (db shop_world)).1 = Raise e).
Proof.
  apply (sync_routes_report_what_the_call_did r_force_sync get shop_world
           CForceSync force_sync eq_refl eq_refl).
  by_vm.
Defined.

(** *** The deployment without Supabase *)

#[global] Instance flashed_preorder {S} (P : Flash → Prop) :
  PreOrder (flashed (S:=S) P).
Proof.
  split.
  - intros w. exists []. by rewrite app_nil_r.
  - intros w1 w2 w3 (fs & H1 & F1) (fs' & H2 & F2).
    exists (fs ++ fs'). rewrite H2, H1, app_assoc.
    split; [done|by apply Forall_app].
Qed.

Section Mock.
Implicit Types (w : World unit).

Variable P : Flash → Prop.
Let R := flashed (S:=unit) P.

Lemma flashed_same w w' : flashes w' = flashes w → R w w'.
Proof. intros E. exists []. by rewrite app_nil_r. Qed.

Lemma mock_flash t cat :
  P {| message := t; category := cat |} → hoare R (flash t cat) (λ _, True).
Proof.
  intros Hp w. split; [|done]. exists [{| message := t; category := cat |}].
  split; [done|by constructor].
Qed.

Lemma mock_quiet {A} (m : Flask.M A) (Q : A → Prop) :
  (∀ w, flashes (m w).2 = flashes w) → (∀ w a, (m w).1 = Ok a → Q a) →
  hoare R m Q.
Proof. intros Hf Hq w. split; [by apply flashed_same|by apply Hq]. Qed.

Lemma mock_render_template name ctx :
  hoare R (render_template name ctx) (λ _, True).
Proof.
  apply mock_quiet; [|done]. intros w. unfold render_template.
  by case_decide.
Qed.

Lemma mock_send_static_file name :
  hoare R (send_static_file name) (λ _, True).
Proof.
  apply mock_quiet; [|done]. intros w. unfold send_static_file.
  by destruct (static_folder w !! name).
Qed.

Lemma mock_send_from_directory name :
  hoare R (send_from_directory name) (λ _, True).
Proof.
  apply mock_quiet; [|done]. intros w. unfold send_from_directory.
  by destruct (upload_folder w !! name).
Qed.

Lemma mock_file_save name data : hoare R (file_save name data) (λ _, True).
Proof.
  apply mock_quiet; [|done]. intros w. unfold file_save.
  by destruct (disk_ok w).
Qed.

Lemma mock_logout_user : hoare R logout_user (λ _, True).
Proof. by apply mock_quiet. Qed.

Lemma mock_Usuario_get_by_id id :
  hoare R (Usuario_get_by_id id) (λ _, True).
Proof. by apply mock_quiet. Qed.

Lemma mock_get_all m : hoare R (Model_get_all m) (λ l, l = []).
Proof. apply mock_quiet; [done|]. by intros w a [= <-]. Qed.

Lemma mock_get_by_id m id : hoare R (Model_get_by_id m id) (λ o, o = None).
Proof. apply mock_quiet; [done|]. by intros w a [= <-]. Qed.

Lemma mock_create m kwargs : hoare R (Model_create m kwargs) (λ o, o = None).
Proof. apply mock_quiet; [done|]. by intros w a [= <-]. Qed.

Lemma mock_update m id kwargs :
  hoare R (Model_update m id kwargs) (λ ok, ok = false).
Proof. apply mock_quiet; [done|]. by intros w a [= <-]. Qed.

Lemma mock_delete m id : hoare R (Model_delete m id) (λ ok, ok = false).
Proof. apply mock_quiet; [done|]. by intros w a [= <-]. Qed.

Lemma mock_sync_status : hoare R sync_status (λ _, True).
Proof. by apply mock_quiet. Qed.

End Mock.

Ltac mock_leaf P :=
  lazymatch goal with
  | |- hoare _ (flash _ _) _ =>
      apply (mock_flash P);
      first [ by unfold no_success
            | exfalso; cbv beta in *; subst; simpl in *; congruence ]
  | |- hoare _ (render_template _ _) _ => apply (mock_render_template P)
  | |- hoare _ (send_static_file _) _ => apply (mock_send_static_file P)
  | |- hoare _ (send_from_directory _) _ =>
      apply (mock_send_from_directory P)
  | |- hoare _ (file_save _ _) _ => apply (mock_file_save P)
  | |- hoare _ logout_user _ => apply (mock_logout_user P)
  | |- hoare _ (Usuario_get_by_id _) _ => apply (mock_Usuario_get_by_id P)
  | |- hoare _ (Model_get_all _) _ => apply (mock_get_all P)
  | |- hoare _ (Model_get_by_id _ _) _ => apply (mock_get_by_id P)
  | |- hoare _ (Model_create _ _) _ => apply (mock_create P)
  | |- hoare _ (Model_update _ _ _) _ => apply (mock_update P)
  | |- hoare _ (Model_delete _ _) _ => apply (mock_delete P)
  | |- hoare _ sync_status _ => apply (mock_sync_status P)
  end.

Lemma mock_view_flashes (r : Route) (req : Request) :
  succeeds_without_models r = false →
  hoare (flashed (S:=unit) no_success) (view r req) (λ _, True).
Proof.
  intros Hr.
  destruct r; try discriminate Hr; simpl;
    unfold index, fallback, teste, debug, login, logout, App.clientes,
      novo_cliente, editar_cliente, excluir_cliente, App.categorias,
      nova_categoria, editar_categoria, excluir_categoria, App.produtos,
      novo_produto, editar_produto, excluir_produto, estoque,
      atualizar_estoque, App.vendas, nova_venda, relatorios,
      api_relatorio_vendas, api_relatorio_estoque, start_sync_route,
      stop_sync_route, force_sync_route, sync_status_route, manifest,
      service_worker, teste_clientes, api_teste, api_status, uploaded_file,
      teste_sessao;
    autounfold with views; unfold mbind, M_bind, mret, M_ret;
    hoare_walk ltac:(idtac; mock_leaf no_success) ltac:(idtac; fail).
Qed.

(** X23. Without Supabase nothing is reported as done. In the deployment
    where the imports failed and [MockModel] stands for every model, no
    view other than [login] and the two routes that start a synchronisation
    ever flashes a success message, whatever is requested: creating,
    editing, deleting and updating stock all end in an error or a "not
    found" message. *)
Theorem mock_deployment_reports_no_success
  (r : Route) (req : Request) (w : World unit) (f : Flash) :
  succeeds_without_models r = false →
  new_flash w (@view unit MockModel r req w) f →
  category f ≠ "success".
Proof.
  intros Hr (before & after & Hf).
  destruct (mock_view_flashes r req Hr w) as [(fs & Hfs & Hall) _].
  unfold world_after in Hf. rewrite Hfs in Hf.
  apply app_inv_head in Hf. subst fs.
  apply Forall_app in Hall as [_ Hall].
  by apply Forall_cons in Hall as [Hall _].
Qed.

Lemma mock_deployment_reports_no_success_witness :
  let req := post [("nome", "Ana"); ("email", "ana@x.com");
                   ("telefone", "1"); ("cpf_cnpj", "2"); ("endereco", "3");
                   ("cidade", "4"); ("estado", "SP"); ("cep", "5")] in
  let f := {| message := Lit "Erro ao criar cliente!";
              category := "error" |} in
  new_flash mock_admin_world (@view unit MockModel r_novo_cliente req
                                    mock_admin_world) f
  ∧ category f ≠ "success".
Proof.
  simpl.
  match goal with
  | |- ?H ∧ _ => assert (Hf : H) by (exists [], []; by_vm)
  end.
  split; [exact Hf|].
  by apply (mock_deployment_reports_no_success r_novo_cliente _
              mock_admin_world _ eq_refl Hf).
Defined.

(** X24. The test route writes on every call. Whenever a logged-in user
    requests [teste_clientes] by GET, the method the route accepts, and the
    customers can be listed, the view asks [Cliente.create] for the fixed
    test customer, and the store is left as that call left it, also when a
    later step of the view fails: calling the route n times asks for n test
    customers. *)
Theorem teste_clientes_creates_on_every_call
  {S : Type} `{!Store S} (req : Request) (w : World S) (l : list Row) :
  accepts r_teste_clientes req = true →
  authenticated w = true →
  get_all Cliente (db w) = Ok l →
  new_call w (teste_clientes req w) (CCreate Cliente cliente_teste)
  ∧ db (world_after (teste_clientes req w))
    = (create Cliente cliente_teste (db w)).2.
Proof.
  intros _ Hw Hl.
  destruct (loaded_frame w) as (Hdb & _ & _ & _ & _ & _ & _ & Hcalls).
  unfold new_call, teste_clientes. rewrite (login_required_auth _ w Hw).
  unfold try_except, Model_get_all, Model_create, flash, lift, world_after,
    mbind, M_bind, bind, mret, M_ret, ret; simpl.
  rewrite Hdb, Hl. simpl. rewrite ?Hdb.
  destruct (create Cliente cliente_teste (db w)) as [[created|e] d]; simpl.
  - destruct (opt_row_truthy created); simpl;
      [destruct (row_item (default ∅ created) "id"); simpl|];
      try destruct (get_all Cliente d); simpl;
      (split; [|done]); rewrite Hcalls;
      eexists (load_calls w ++ [CGetAll Cliente]), _;
      rewrite <- ?app_assoc; simpl; try reflexivity;
      by rewrite (app_nil_r []) || done.
  - split; [|done]. rewrite Hcalls.
    exists (load_calls w ++ [CGetAll Cliente]), [].
    by rewrite <- !app_assoc.
Qed.

Lemma teste_clientes_creates_on_every_call_witness :
  new_call shop_world (teste_clientes get shop_world)
           (CCreate Cliente cliente_teste)
  ∧ db (world_after (teste_clientes get shop_world))
    = (create Cliente cliente_teste (db shop_world)).2.
Proof.
  apply (teste_clientes_creates_on_every_call get shop_world []);
    [done|by_vm|by_vm].
Defined.
